(** * GitHub project automation scripts: metadata model and synchronisation

    A shallow embedding of the scripts of the [github-project-automation]
    skill:

    - [fetch_issue.py]   : acceptance-criteria parser, label codec, validation;
    - [select_issue.py]  : priority selection with fallback;
    - [update_status.py] : label -> board status reconciliation loop;
    - [create_issues.py] : bulk creation of issues from a file;
    - [implement_issue.py] : slugs, branch names and branch creation.

    Python [str] values are modelled as [string]; characters are ASCII
    (code points above 127 are kept as opaque bytes that are neither
    whitespace nor letters).  Python [int] is [Z].  Calls to the [gh]
    command line tool are answers of a remote oracle, and every call made is
    appended to a trace.  The selector's output streams are modelled; the
    progress lines that [update_status.py] prints are not. *)

From Stdlib Require Import ZArith String Ascii List Lia Sorted DecimalString.
From stdpp Require Import base gmap strings list.

Open Scope string_scope.
Open Scope Z_scope.
Open Scope list_scope.

(** ** Python string primitives *)

Module PyStr.

(** The line feed character and the one-character string ["\n"]. *)
Definition LF_char : ascii := "010"%char.
Definition LF : string := String LF_char EmptyString.

(** [c.isspace()] on ASCII: TAB, LF, VT, FF, CR, FS, GS, RS, US, SPACE.
    The class [\s] of [re] on [str] patterns is the same predicate.  Beyond
    ASCII Python knows further whitespace (U+0085, U+00A0, U+2003, ...):
    what is proved about stripping, splitting and [\s] on text that users
    write is stated for ASCII text, see [is_ascii]. *)
Definition isspace (c : ascii) : bool :=
  let n := nat_of_ascii c in
  ((9 <=? n)%nat && (n <=? 13)%nat) || ((28 <=? n)%nat && (n <=? 32)%nat).

(** [c.lower()] on ASCII. *)
Definition lower_char (c : ascii) : ascii :=
  let n := nat_of_ascii c in
  if ((65 <=? n)%nat && (n <=? 90)%nat) then ascii_of_nat (n + 32) else c.

Fixpoint lower (s : string) : string :=
  match s with
  | EmptyString => EmptyString
  | String c r => String (lower_char c) (lower r)
  end.

(** [bool(s)]: a string is truthy when it is not empty. *)
Definition truthy (s : string) : bool :=
  match s with EmptyString => false | String _ _ => true end.

(** [s.startswith(p)]. *)
Definition startswith (s p : string) : bool := String.prefix p s.

(** [s[n:]]. *)
Fixpoint drop (n : nat) (s : string) : string :=
  match n, s with
  | O, _ => s
  | S _, EmptyString => EmptyString
  | S k, String _ r => drop k r
  end.

(** [s.lstrip()], [s.rstrip()], [s.strip()]. *)
Fixpoint lstrip (s : string) : string :=
  match s with
  | EmptyString => EmptyString
  | String c r => if isspace c then lstrip r else s
  end.

Fixpoint rstrip (s : string) : string :=
  match s with
  | EmptyString => EmptyString
  | String c r =>
      match rstrip r with
      | EmptyString => if isspace c then EmptyString else String c EmptyString
      | r' => String c r'
      end
  end.

Definition strip (s : string) : string := rstrip (lstrip s).

(** Last character of a string, if any. *)
Fixpoint last_char (s : string) : option ascii :=
  match s with
  | EmptyString => None
  | String c EmptyString => Some c
  | String _ r => last_char r
  end.

(** [p in s]: substring test, scanning start positions left to right. *)
Fixpoint contains (s p : string) : bool :=
  String.prefix p s ||
  match s with
  | EmptyString => false
  | String _ r => contains r p
  end.

(** [s.split("\n")]: never empty, [EmptyString] splits to one empty line. *)
Fixpoint split_lines (s : string) : list string :=
  match s with
  | EmptyString => [EmptyString]
  | String c r =>
      if Ascii.eqb c LF_char then EmptyString :: split_lines r
      else match split_lines r with
           | [] => [String c EmptyString]
           | l :: ls => String c l :: ls
           end
  end.

(** [sep.join(xs)]. *)
Definition join (sep : string) (xs : list string) : string :=
  String.concat sep xs.

(** [str(n)] for an integer. *)
Definition str_of_int (n : Z) : string :=
  NilZero.string_of_int (Z.to_int n).

(** The text has ASCII characters only.  On such text the primitives above
    and the patterns built from them agree with Python. *)
Fixpoint is_ascii (s : string) : bool :=
  match s with
  | EmptyString => true
  | String c r => (nat_of_ascii c <? 128)%nat && is_ascii r
  end.

End PyStr.

(** ** A result type for calls that may raise *)

Inductive result (A : Type) : Type :=
| Ok (a : A)
| Raise (msg : string).
Arguments Ok {A} a.
Arguments Raise {A} msg.

(** ** fetch_issue.py *)

Module FetchIssue.
Import PyStr.

(** One entry of the list returned by [parse_acceptance_criteria]. *)
Record criterion : Type := Criterion { checked : bool; text : string }.

(** [re.search(r'acceptance criteria', line, re.IGNORECASE)] on an ASCII
    line.  (On other lines [re.IGNORECASE] also lets U+0130 and U+0131 stand
    for [i].) *)
Definition is_criteria_header (line : string) : bool :=
  contains (lower line) "acceptance criteria".

(** [re.match(r'^\s*-\s*\[([ xX])\]\s*(.+)$', line)] on an ASCII line
    without line feed; the answer is [(group(1), group(2))].

    Both leading [\s*] are followed by a character that is not
    whitespace, so they take every whitespace character.  The last
    [\s*] is greedy too, but [(.+)] needs one character: when only
    whitespace follows the bracket, the matcher backtracks and gives the
    last whitespace character to group 2. *)
Definition match_checkbox (line : string) : option (ascii * string) :=
  match lstrip line with
  | String "-"%char after_dash =>
      match lstrip after_dash with
      | String "["%char (String m (String "]"%char tail)) =>
          if Ascii.eqb m " "%char || Ascii.eqb m "x"%char || Ascii.eqb m "X"%char
          then
            match lstrip tail with
            | String c r => Some (m, String c r)
            | EmptyString =>
                match last_char tail with
                | Some c => Some (m, String c EmptyString)
                | None => None
                end
            end
          else None
      | _ => None
      end
  | _ => None
  end.

(** Control flow of one iteration of the [for line in lines] loop. *)
Inductive flow : Type :=
| Continue (in_criteria_section : bool) (criteria : list criterion)
| Break (criteria : list criterion).

(** Body of the loop, lines 22-41. *)
Definition loop_body (line : string) (in_criteria_section : bool)
    (criteria : list criterion) : flow :=
  if is_criteria_header line then Continue true criteria
  else if in_criteria_section then
    match match_checkbox line with
    | Some (m, g2) =>
        Continue in_criteria_section
          (criteria ++ [Criterion (Ascii.eqb (lower_char m) "x"%char) (strip g2)])
    | None =>
        if String.eqb (strip line) EmptyString
        then Continue in_criteria_section criteria
        else if startswith line "#" then Break criteria
        else Continue in_criteria_section criteria
    end
  else Continue in_criteria_section criteria.

(** The loop; its value is the list returned after it. *)
Fixpoint for_lines (lines : list string) (in_criteria_section : bool)
    (criteria : list criterion) : list criterion :=
  match lines with
  | [] => criteria
  | line :: rest =>
      match loop_body line in_criteria_section criteria with
      | Continue b c => for_lines rest b c
      | Break c => c
      end
  end.

(** The state of the loop after the lines [pre] have been scanned. *)
Fixpoint scan_prefix (pre : list string) (st : flow) : flow :=
  match pre, st with
  | [], _ => st
  | _, Break c => Break c
  | line :: rest, Continue b c => scan_prefix rest (loop_body line b c)
  end.

Definition parse_acceptance_criteria (body : string) : list criterion :=
  if negb (truthy body) then []
  else for_lines (split_lines body) false [].

(** Where a collected criterion comes from. *)
Definition from_checkbox_line (lines : list string) (cr : criterion) : Prop :=
  exists line m g,
    In line lines /\ is_criteria_header line = false /\
    match_checkbox line = Some (m, g) /\
    text cr = strip g /\
    checked cr = (Ascii.eqb m "x"%char || Ascii.eqb m "X"%char).

(** A label object of the tracker; [label_name] is its ["name"] key. *)
Record label : Type := Label { label_name : option string }.

(** [label.get("name", "")]. *)
Definition get_name (l : label) : string :=
  match label_name l with Some n => n | None => EmptyString end.

Fixpoint extract_label (labels : list label) (prefix : string) : option string :=
  match labels with
  | [] => None
  | l :: rest =>
      let name := get_name l in
      if startswith name prefix then Some (drop (String.length prefix) name)
      else extract_label rest prefix
  end.

(** The structured issue built by [fetch_issue]. *)
Record issue : Type := Issue {
  number : Z;
  title : string;
  body : string;
  acceptance_criteria : list criterion;
  epic : option string;
  priority : option string;
  status : option string;
  type_ : option string;
  assignees : list string;
  milestone : option string;
  state : string;
  url : string
}.

(** [bool(x)] for [x : str | None]. *)
Definition truthy_opt (o : option string) : bool :=
  match o with Some s => truthy s | None => false end.

(** [bool(xs)] for a list. *)
Definition truthy_list {A : Type} (xs : list A) : bool :=
  match xs with [] => false | _ :: _ => true end.

Definition validate_issue (i : issue) : bool * list string :=
  let w0 : list string := [] in
  let w1 := if String.eqb (state i) "CLOSED"
            then w0 ++ ["⚠️  Issue is closed"] else w0 in
  let w2 := if truthy_list (assignees i)
            then w1 ++ ["⚠️  Already assigned to: " +:+ join ", " (assignees i)]
            else w1 in
  let w3 := if negb (truthy_list (acceptance_criteria i))
            then w2 ++ ["⚠️  No acceptance criteria found in issue body"] else w2 in
  let w4 := if negb (truthy_opt (epic i))
            then w3 ++ ["⚠️  No epic label found"] else w3 in
  let w5 := if negb (truthy_opt (priority i))
            then w4 ++ ["⚠️  No priority label found"] else w4 in
  let is_valid := String.eqb (state i) "OPEN" in
  (is_valid, w5).

(** The issue object printed by [gh issue view --json ...]; [raw_labels]
    are label objects, [raw_assignees] the ["login"] of each assignee and
    [raw_milestone] the ["title"] of the milestone when there is one. *)
Record raw_issue : Type := RawIssue {
  raw_number : Z;
  raw_title : string;
  raw_body : string;
  raw_labels : list label;
  raw_assignees : list string;
  raw_milestone : option string;
  raw_state : string;
  raw_url : string
}.

(** What [subprocess.run(cmd, check=True)] followed by [json.loads] gives. *)
Inductive view_answer : Type :=
| Viewed (raw : raw_issue)
| CalledProcessError (stderr : string)
| JSONDecodeError (msg : string).

(** Lines 63-70: the command line of the view. *)
Definition view_cmd (issue_number : Z) (owner repo : option string) : list string :=
  let cmd0 := ["gh"; "issue"; "view"; str_of_int issue_number;
               "--json"; "number,title,body,labels,assignees,milestone,state,url"] in
  if truthy_opt owner && truthy_opt repo
  then cmd0 ++ ["--repo"; default EmptyString owner +:+ "/" +:+ default EmptyString repo]
  else cmd0.

(** Lines 84-97: the structured issue. *)
Definition structure (raw : raw_issue) : issue :=
  Issue (raw_number raw) (raw_title raw) (raw_body raw)
    (parse_acceptance_criteria (raw_body raw))
    (extract_label (raw_labels raw) "epic:")
    (extract_label (raw_labels raw) "priority:")
    (extract_label (raw_labels raw) "status:")
    (extract_label (raw_labels raw) "type:")
    (raw_assignees raw) (raw_milestone raw) (raw_state raw) (raw_url raw).

(** [fetch_issue]: the structured issue, or the lines printed before
    [sys.exit(1)]. *)
Definition fetch_issue (gh : list string -> view_answer) (issue_number : Z)
    (owner repo : option string) : issue + list string :=
  match gh (view_cmd issue_number owner repo) with
  | Viewed raw => inl (structure raw)
  | CalledProcessError e =>
      inr ["❌ Error fetching issue #" +:+ str_of_int issue_number; "   " +:+ e]
  | JSONDecodeError e => inr ["❌ Error parsing issue data: " +:+ e]
  end.

(** What a run of the script leaves: the strings printed on the diagnostic
    stream, the issue dumped as JSON on standard output if any, and the exit
    status. *)
Record run : Type := Run {
  stderr_prints : list string;
  dumped : option issue;
  exit_status : Z
}.

(** [main] from line 139 on. *)
Definition main (gh : list string -> view_answer) (issue_number : Z)
    (owner repo : option string) : run :=
  match fetch_issue gh issue_number owner repo with
  | inr lines => Run lines None 1
  | inl i =>
      let '(is_valid, warnings) := validate_issue i in
      let err := if truthy_list warnings
                 then [join LF warnings; EmptyString] else [] in
      Run err (Some i) (if negb is_valid then 1 else 0)
  end.

End FetchIssue.

(** ** select_issue.py *)

Module SelectIssue.
Import PyStr.

Definition PRIORITY_ORDER : list string := ["critical"; "high"; "medium"; "low"].

(** An element of the JSON list printed by [gh issue list]; [labels] holds
    the ["name"] of each label and [assignees] the ["login"] of each
    assignee. *)
Record issue : Type := Issue {
  number : Z;
  title : string;
  createdAt : string;
  labels : list string;
  assignees : list string
}.

(** What [subprocess.run(cmd, check=True)] followed by [json.loads] gives. *)
Inductive gh_answer : Type :=
| Issues (issues : list issue)
| CalledProcessError (stderr : string)
| JSONDecodeError (msg : string).

(** The tracker: the answer to each command line. *)
Definition tracker : Type := list string -> gh_answer.

(** Observable effects: the commands run and the lines printed. *)
Record world : Type := World {
  calls : list (list string);
  stderr_lines : list string;
  stdout_lines : list string
}.

Definition init : world := World [] [] [].

Definition run_cmd (cmd : list string) (w : world) : world :=
  World (calls w ++ [cmd]) (stderr_lines w) (stdout_lines w).

Definition eprint (line : string) (w : world) : world :=
  World (calls w) (stderr_lines w ++ [line]) (stdout_lines w).

Definition print (line : string) (w : world) : world :=
  World (calls w) (stderr_lines w) (stdout_lines w ++ [line]).

(** [bool(x)] for [x : str | None]. *)
Definition truthy_opt (o : option string) : bool :=
  match o with Some s => truthy s | None => false end.

Definition the (o : option string) : string :=
  match o with Some s => s | None => EmptyString end.

(** Lines 30-49: the command line of one query. *)
Definition build_cmd (priority : string) (epic_filter : option string)
    (status : string) (owner repo : option string) : list string :=
  let labels0 := ["priority:" +:+ priority; "status:" +:+ status] in
  let labels1 := if truthy_opt epic_filter
                 then labels0 ++ ["epic:" +:+ the epic_filter] else labels0 in
  let cmd0 := ["gh"; "issue"; "list"; "--state"; "open"] in
  let cmd1 := if truthy_opt owner && truthy_opt repo
              then cmd0 ++ ["--repo"; the owner +:+ "/" +:+ the repo] else cmd0 in
  let cmd2 := cmd1 ++ flat_map (fun l => ["--label"; l]) labels1 in
  cmd2 ++ ["--json"; "number,title,createdAt,labels,assignees";
           "--jq"; "sort_by(.createdAt)"].

Definition select_next_issue (gh : tracker) (priority : string)
    (epic_filter : option string) (status : string) (owner repo : option string)
    (w : world) : option issue * world :=
  let cmd := build_cmd priority epic_filter status owner repo in
  let w1 := run_cmd cmd w in
  match gh cmd with
  | CalledProcessError e => (None, eprint ("❌ Error querying issues: " +:+ e) w1)
  | JSONDecodeError e => (None, eprint ("❌ Error parsing issue list: " +:+ e) w1)
  | Issues issues =>
      match issues with
      | i :: _ => (Some i, w1)
      | [] => (None, w1)
      end
  end.

(** The [for priority in ...] loop of [select_with_fallback]; an issue
    object always has keys, so [if issue] tests for [None]. *)
Fixpoint for_priorities (priorities : list string) (gh : tracker)
    (epic_filter : option string) (status : string) (owner repo : option string)
    (w : world) : option issue * world :=
  match priorities with
  | [] => (None, w)
  | priority :: rest =>
      match select_next_issue gh priority epic_filter status owner repo w with
      | (Some i, w') => (Some i, w')
      | (None, w') => for_priorities rest gh epic_filter status owner repo w'
      end
  end.

Definition select_with_fallback (gh : tracker) (epic_filter : option string)
    (status : string) (owner repo : option string) (w : world)
    : option issue * world :=
  for_priorities PRIORITY_ORDER gh epic_filter status owner repo w.

(** [s.replace(old, new)] for a non-empty [old]; [skip] counts the
    characters of the occurrence being replaced that are still to drop. *)
Fixpoint replace_from (s old new : string) (skip : nat) : string :=
  match s with
  | EmptyString => EmptyString
  | String c r =>
      match skip with
      | S k => replace_from r old new k
      | O =>
          if String.prefix old s
          then new +:+ replace_from r old new (String.length old - 1)%nat
          else String c (replace_from r old new O)
      end
  end.

Definition replace (s old new : string) : string := replace_from s old new O.

(** The parsed command line; [argparse] only lets a member of
    [PRIORITY_ORDER] through as [--priority], and [--status] defaults to
    ["backlog"]. *)
Record args : Type := Args {
  arg_priority : option string;
  arg_epic : option string;
  arg_status : string;
  arg_owner : option string;
  arg_repo : option string
}.

(** Lines 121-137 of [main]: one tier when [--priority] is given, the
    cascade otherwise. *)
Definition choose (gh : tracker) (a : args) : option issue * world :=
  if truthy_opt (arg_priority a)
  then select_next_issue gh (the (arg_priority a)) (arg_epic a) (arg_status a)
         (arg_owner a) (arg_repo a) init
  else select_with_fallback gh (arg_epic a) (arg_status a)
         (arg_owner a) (arg_repo a) init.

(** Lines 162-167: the filters named in the final message. *)
Definition filters (a : args) : list string :=
  let f0 : list string := [] in
  let f1 := if truthy_opt (arg_priority a)
            then f0 ++ ["priority:" +:+ the (arg_priority a)] else f0 in
  let f2 := if truthy_opt (arg_epic a)
            then f1 ++ ["epic:" +:+ the (arg_epic a)] else f1 in
  f2 ++ ["status:" +:+ arg_status a].

(** [main] from line 120 on: the final world and the exit status. *)
Definition main (gh : tracker) (a : args) : world * Z :=
  let '(found, w) := choose gh a in
  match found with
  | Some i =>
      let priority_label :=
        List.find (fun l => startswith l "priority:") (labels i) in
      let priority :=
        match priority_label with
        | Some l => replace l "priority:" EmptyString
        | None => "unknown"
        end in
      let w1 := eprint ("✅ Selected issue #" +:+ str_of_int (number i) +:+ ": "
                        +:+ title i) w in
      let w2 := eprint ("   Priority: " +:+ priority) w1 in
      let w3 := eprint ("   Created: " +:+ createdAt i) w2 in
      let w4 := match assignees i with
                | [] => w3
                | _ :: _ => eprint ("   ⚠️  Assigned to: " +:+ join ", " (assignees i)) w3
                end in
      let w5 := eprint EmptyString w4 in
      (print (str_of_int (number i)) w5, 0)
  | None =>
      (eprint ("❌ No issues found matching: " +:+ join ", " (filters a)) w, 1)
  end.

(** The candidate set a tier yields to the selector: the parsed list, and
    nothing when the query fails ([select_next_issue] answers [None] in
    both cases). *)
Definition candidates (gh : tracker) (epic_filter : option string)
    (status : string) (owner repo : option string) (priority : string)
    : list issue :=
  match gh (build_cmd priority epic_filter status owner repo) with
  | Issues l => l
  | _ => []
  end.

(** Every failed query has its line on the diagnostic stream. *)
Definition failures_logged (gh : tracker) (w : world) : Prop :=
  forall cmd e, In cmd (calls w) -> gh cmd = CalledProcessError e ->
                In ("❌ Error querying issues: " +:+ e) (stderr_lines w).

(** The order [sort_by(.createdAt)] asks the tracker for. *)
Definition created_le (a b : issue) : Prop :=
  String.leb (createdAt a) (createdAt b) = true.

Definition oldest_first (l : list issue) : Prop := StronglySorted created_le l.

End SelectIssue.

(** ** update_status.py *)

Module UpdateStatus.
Import PyStr.

(** A node of [projectItems]: the item id and its project's number. *)
Record project_item : Type := ProjectItem {
  item_id : string;
  item_project_number : Z
}.

(** An entry of [status_field["options"]]. *)
Record field_option : Type := FieldOption { opt_name : string; opt_id : string }.

(** The remote tracker and board.  Their answers may differ from one loop
    iteration to the next, so the answer to the field update also depends
    on [during], the issue being reconciled when the call is made. *)
Record remote : Type := Remote {
  gh_issue_labels : Z -> result (list string);
  gh_project_items : Z -> string -> string -> result (list project_item);
  gh_update_field : forall (during : Z) (item project field option_id : string),
      result unit
}.

(** External calls, in the order they are made. *)
Inductive call : Type :=
| GetIssueLabels (issue_number : Z)
| GetProjectItemId (issue_number project_number : Z) (owner repo : string)
| UpdateIssueStatus (item project field option_id : string)
| Sleep.

(** Code that makes calls and may raise. *)
Definition M (A : Type) : Type := list call -> list call * result A.

Definition ret {A : Type} (a : A) : M A := fun tr => (tr, Ok a).

Definition bind {A B : Type} (m : M A) (k : A -> M B) : M B :=
  fun tr =>
    match m tr with
    | (tr', Ok a) => k a tr'
    | (tr', Raise e) => (tr', Raise e)
    end.

Notation "'let*' x ':=' m 'in' k" := (bind m (fun x => k))
  (at level 10, x name, m at level 100, k at level 200).

Definition emit {A : Type} (c : call) (answer : result A) : M A :=
  fun tr => (tr ++ [c], answer).

(** [bool(x)] for [x : str | None]. *)
Definition truthy_opt (o : option string) : bool :=
  match o with Some s => truthy s | None => false end.

(** [a or b]. *)
Definition py_or (a b : option string) : option string :=
  if truthy_opt a then a else b.

Definition get_issue_labels (r : remote) (issue_number : Z) : M (list string) :=
  emit (GetIssueLabels issue_number) (gh_issue_labels r issue_number).

Definition get_project_item_id (r : remote) (issue_number project_number : Z)
    (owner repo : string) : M (option string) :=
  let* nodes := emit (GetProjectItemId issue_number project_number owner repo)
                     (gh_project_items r issue_number owner repo) in
  ret (item_id <$>
       List.find (fun it => Z.eqb (item_project_number it) project_number) nodes).

Definition update_issue_status (r : remote) (during : Z)
    (item project field option_id : string) : M unit :=
  emit (UpdateIssueStatus item project field option_id)
       (gh_update_field r during item project field option_id).

Definition sleep : M unit := emit Sleep (Ok tt).

(** Line 124: a dict comprehension, a later option of the same name
    replaces an earlier one. *)
Definition make_option_map (options : list field_option) : gmap string string :=
  fold_left (fun m o => <[opt_name o := opt_id o]> m) options ∅.

(** Lines 128-132; the value [None] of Python is [None] here. *)
Definition make_LABEL_TO_STATUS (option_map : gmap string string)
    : gmap string (option string) :=
  <["status:done" := option_map !! "Done"]>
  (<["status:in-progress" :=
       py_or (option_map !! "In Progress") (option_map !! "In progress")]>
  (<["status:backlog" := py_or (option_map !! "Todo") (option_map !! "Backlog")]>
   ∅)).

(** What the loop reads: the command line arguments, the id of the status
    field and [option_map]. *)
Record config : Type := Config {
  PROJECT_ID : string;
  PROJECT_NUMBER : Z;
  OWNER : string;
  REPO : string;
  STATUS_FIELD_ID : string;
  option_map : gmap string string
}.

Definition LABEL_TO_STATUS (c : config) : gmap string (option string) :=
  make_LABEL_TO_STATUS (option_map c).

(** Lines 147-151: the first label that is a key of [LABEL_TO_STATUS]. *)
Definition find_status_label (c : config) (labels : list string) : option string :=
  List.find (fun l => bool_decide (is_Some (LABEL_TO_STATUS c !! l))) labels.

(** How the body of the [try] ends when nothing is raised. *)
Inductive branch : Type :=
| DidUpdate
| NoStatusLabel
| NotInProject
| NoMatchingOption.

(** Lines 143-181, the body of the [try]. *)
Definition try_body (r : remote) (c : config) (issue_number : Z) : M branch :=
  let* labels := get_issue_labels r issue_number in
  let status_label := find_status_label c labels in
  if negb (truthy_opt status_label) then ret NoStatusLabel
  else
    let* item := get_project_item_id r issue_number (PROJECT_NUMBER c)
                   (OWNER c) (REPO c) in
    if negb (truthy_opt item) then ret NotInProject
    else
      match LABEL_TO_STATUS c !! default EmptyString status_label with
      | None => fun tr => (tr, Raise "KeyError")
      | Some option_id =>
          if negb (truthy_opt option_id) then ret NoMatchingOption
          else
            let* _u := update_issue_status r issue_number (default EmptyString item)
                         (PROJECT_ID c) (STATUS_FIELD_ID c)
                         (default EmptyString option_id) in
            let* _s := sleep in
            ret DidUpdate
      end.

Record counters : Type := Counters { updated : Z; skipped : Z; errors : Z }.

(** The three ways an issue is counted. *)
Inductive outcome : Type := Updated | Skipped | Errored.

(** One iteration, with the [except Exception] handler. *)
Definition classify (b : result branch) : outcome :=
  match b with
  | Ok DidUpdate => Updated
  | Ok NoStatusLabel => Skipped
  | Ok NotInProject => Errored
  | Ok NoMatchingOption => Errored
  | Raise _ => Errored
  end.

Definition count (o : outcome) (k : counters) : counters :=
  match o with
  | Updated => Counters (updated k + 1) (skipped k) (errors k)
  | Skipped => Counters (updated k) (skipped k + 1) (errors k)
  | Errored => Counters (updated k) (skipped k) (errors k + 1)
  end.

Definition iteration (r : remote) (c : config) (st : counters * list call)
    (issue_number : Z) : counters * list call :=
  let '(tr, b) := try_body r c issue_number (snd st) in
  (count (classify b) (fst st), tr).

(** [range(a, b)]. *)
Definition py_range (a b : Z) : list Z :=
  map (fun i => a + Z.of_nat i) (seq 0 (Z.to_nat (b - a))).

(** The [for issue_number in ...] loop from a given state. *)
Definition for_issues (r : remote) (c : config) (issues : list Z)
    (st : counters * list call) : counters * list call :=
  fold_left (iteration r c) issues st.

(** Lines 137-185: counters start at zero, then the loop runs. *)
Definition reconcile (r : remote) (c : config) (START_ISSUE END_ISSUE : Z)
    : counters * list call :=
  for_issues r c (py_range START_ISSUE (END_ISSUE + 1)) (Counters 0 0 0, []).

(** The field returned by [get_status_field_info]. *)
Record status_field : Type := StatusField {
  field_id : string;
  field_options : list field_option
}.

(** How [main] ends: [sys.exit(1)], an exception that nothing catches, or
    the summary. *)
Inductive main_result : Type :=
| Exit1
| Uncaught (msg : string)
| Summary (k : counters) (trace : list call).

(** [main] from line 114 on, given the parsed command line and the answer
    of [get_status_field_info]. *)
Definition main (r : remote) (info : result (option status_field))
    (project_id : string) (project_number : Z) (owner repo : string)
    (START_ISSUE END_ISSUE : Z) : main_result :=
  match info with
  | Raise e => Uncaught e
  | Ok None => Exit1
  | Ok (Some f) =>
      let c := Config project_id project_number owner repo (field_id f)
                 (make_option_map (field_options f)) in
      let '(k, tr) := reconcile r c START_ISSUE END_ISSUE in
      Summary k tr
  end.

(** The outcome of one issue on its own. *)
Definition outcome_of (r : remote) (c : config) (issue_number : Z) : outcome :=
  classify (snd (try_body r c issue_number [])).

(** Componentwise sum of two summaries. *)
Definition add_counters (a b : counters) : counters :=
  Counters (updated a + updated b) (skipped a + skipped b) (errors a + errors b).

(** The line [Total:] of the summary. *)
Definition total (k : counters) : Z := updated k + skipped k + errors k.

(** Componentwise order on summaries. *)
Definition counters_le (a b : counters) : Prop :=
  updated a <= updated b /\ skipped a <= skipped b /\ errors a <= errors b.

(** The three external calls of an iteration, and what it means for each
    to fail while issue [n] is reconciled: the call is reached and raises. *)
Definition label_fetch_fails (r : remote) (n : Z) : Prop :=
  exists e, gh_issue_labels r n = Raise e.

Definition item_lookup_fails (r : remote) (c : config) (n : Z) : Prop :=
  exists labels status_label e,
    gh_issue_labels r n = Ok labels /\
    find_status_label c labels = Some status_label /\
    gh_project_items r n (OWNER c) (REPO c) = Raise e.

Definition field_update_fails (r : remote) (c : config) (n : Z) : Prop :=
  exists labels status_label nodes it option_id e,
    gh_issue_labels r n = Ok labels /\
    find_status_label c labels = Some status_label /\
    gh_project_items r n (OWNER c) (REPO c) = Ok nodes /\
    List.find (fun it => Z.eqb (item_project_number it) (PROJECT_NUMBER c)) nodes
      = Some it /\
    truthy (item_id it) = true /\
    LABEL_TO_STATUS c !! status_label = Some (Some option_id) /\
    truthy option_id = true /\
    gh_update_field r n (item_id it) (PROJECT_ID c) (STATUS_FIELD_ID c) option_id
      = Raise e.

(** The keys of [LABEL_TO_STATUS], in the order they are written. *)
Definition status_labels : list string :=
  ["status:backlog"; "status:in-progress"; "status:done"].

(** Issue [n] carries [status_label] as its status label, has an item on
    the configured board and an option for the label, and the update of
    the field goes through. *)
Definition syncs (r : remote) (c : config) (n : Z) (status_label : string) : Prop :=
  exists labels nodes it option_id,
    gh_issue_labels r n = Ok labels /\
    find_status_label c labels = Some status_label /\
    gh_project_items r n (OWNER c) (REPO c) = Ok nodes /\
    List.find (fun it => Z.eqb (item_project_number it) (PROJECT_NUMBER c)) nodes
      = Some it /\
    truthy (item_id it) = true /\
    LABEL_TO_STATUS c !! status_label = Some (Some option_id) /\
    truthy option_id = true /\
    gh_update_field r n (item_id it) (PROJECT_ID c) (STATUS_FIELD_ID c) option_id
      = Ok tt.

(** The labels of issue [n] are fetched and none is a status label. *)
Definition has_no_status_label (r : remote) (n : Z) : Prop :=
  exists labels,
    gh_issue_labels r n = Ok labels /\
    (forall l, In l labels -> ~ In l status_labels).

(** Issue [n] has a status label, and no item of the issue belongs to the
    configured project. *)
Definition has_no_board_item (r : remote) (c : config) (n : Z) : Prop :=
  exists labels status_label nodes,
    gh_issue_labels r n = Ok labels /\
    find_status_label c labels = Some status_label /\
    gh_project_items r n (OWNER c) (REPO c) = Ok nodes /\
    (forall it, In it nodes -> item_project_number it <> PROJECT_NUMBER c).

Definition external_call_fails (r : remote) (c : config) (n : Z) : Prop :=
  label_fetch_fails r n \/ item_lookup_fails r c n \/ field_update_fails r c n.

(** Two remotes give the same answers while issue [n] is reconciled. *)
Definition same_answers (r r' : remote) (n : Z) : Prop :=
  gh_issue_labels r n = gh_issue_labels r' n /\
  (forall owner repo, gh_project_items r n owner repo = gh_project_items r' n owner repo) /\
  (forall item project field option_id,
      gh_update_field r n item project field option_id
      = gh_update_field r' n item project field option_id).

(** The calls of a trace that change the board. *)
Definition is_mutation (c : call) : bool :=
  match c with UpdateIssueStatus _ _ _ _ => true | _ => false end.

(** The other kinds of call in a trace. *)
Definition is_sleep (c : call) : bool :=
  match c with Sleep => true | _ => false end.

Definition is_label_fetch (c : call) : bool :=
  match c with GetIssueLabels _ => true | _ => false end.

Definition is_item_lookup (c : call) : bool :=
  match c with GetProjectItemId _ _ _ _ => true | _ => false end.

(** How many calls of a trace satisfy [p]. *)
Definition count_calls (p : call -> bool) (tr : list call) : Z :=
  Z.of_nat (List.length (List.filter p tr)).

End UpdateStatus.

(** ** create_issues.py *)

Module CreateIssues.
Import PyStr.

(** An entry of [group["issues"]] and a group of the JSON file. *)
Record new_issue : Type := NewIssue { title : string; body : string }.

Record epic_group : Type := EpicGroup {
  epic : string;
  status : string;
  priority : string;
  issues : list new_issue
}.

(** What [subprocess.run(cmd, check=True)] gives: the standard output, or
    the error of a command that failed. *)
Inductive gh_answer : Type :=
| Completed (stdout : string)
| CalledProcessError (stderr : string).

(** What the script does, in order. *)
Inductive event : Type :=
| Run (cmd : list string)
| Print (line : string)
| Sleep.

(** [bool(x)] for [x : str | None]. *)
Definition truthy_opt (o : option string) : bool :=
  match o with Some s => truthy s | None => false end.

(** Lines 14-18: the command line that creates an issue. *)
Definition create_cmd (title body : string) (labels : list string) : list string :=
  ["gh"; "issue"; "create"; "--title"; title; "--body"; body]
  ++ flat_map (fun l => ["-l"; l]) labels.

Definition create_issue (gh : list string -> gh_answer) (title body : string)
    (labels : list string) (tr : list event) : option string * list event :=
  let cmd := create_cmd title body labels in
  match gh cmd with
  | Completed out =>
      let issue_url := strip out in
      (Some issue_url,
       tr ++ [Run cmd; Print ("✅ Created: " +:+ title); Print ("   URL: " +:+ issue_url)])
  | CalledProcessError e =>
      (None,
       tr ++ [Run cmd; Print ("❌ Failed to create: " +:+ title); Print ("   Error: " +:+ e)])
  end.

(** The state of the loops of [main]. *)
Record tally : Type := Tally { created : Z; failed : Z; trace : list event }.

(** ['=' * n]. *)
Fixpoint rule (n : nat) : string :=
  match n with O => EmptyString | S k => String "="%char (rule k) end.

(** Lines 58-68: one issue of a group. *)
Definition issue_step (gh : list string -> gh_answer) (g : epic_group)
    (st : tally) (i : new_issue) : tally :=
  let labels := [epic g; status g; priority g; "type:feature"] in
  let '(url, tr) := create_issue gh (title i) (body i) labels (trace st) in
  if truthy_opt url
  then Tally (created st + 1) (failed st) (tr ++ [Sleep])
  else Tally (created st) (failed st + 1) (tr ++ [Sleep]).

(** Lines 47-68: one group. *)
Definition group_step (gh : list string -> gh_answer) (st : tally) (g : epic_group)
    : tally :=
  let banner :=
    [Print (LF +:+ rule 60);
     Print ("Epic: " +:+ epic g);
     Print ("Status: " +:+ status g +:+ ", Priority: " +:+ priority g);
     Print ("Issues: " +:+ str_of_int (Z.of_nat (List.length (issues g))));
     Print (rule 60 +:+ LF)] in
  fold_left (issue_step gh g) (issues g)
    (Tally (created st) (failed st) (trace st ++ banner)).

(** Line 40. *)
Definition total_issues (epic_groups : list epic_group) : Z :=
  fold_left (fun acc g => acc + Z.of_nat (List.length (issues g))) epic_groups 0.

(** [main] from line 40 on, given the groups loaded from the file: the
    final state, before the summary is printed, and the summary. *)
Definition run_groups (gh : list string -> gh_answer) (epic_groups : list epic_group)
    : tally :=
  let header :=
    [Print ("📝 Creating " +:+ str_of_int (total_issues epic_groups)
            +:+ " issues across "
            +:+ str_of_int (Z.of_nat (List.length epic_groups)) +:+ " epics...");
     Print EmptyString] in
  fold_left (group_step gh) epic_groups (Tally 0 0 header).

Definition main (gh : list string -> gh_answer) (epic_groups : list epic_group)
    : list event :=
  let st := run_groups gh epic_groups in
  trace st ++
  [Print (LF +:+ rule 60);
   Print "📊 Summary:";
   Print ("   Total: " +:+ str_of_int (total_issues epic_groups));
   Print ("   Created: " +:+ str_of_int (created st));
   Print ("   Failed: " +:+ str_of_int (failed st));
   Print (rule 60)].

(** The commands of a trace, in order, and the number of sleeps. *)
Definition commands (tr : list event) : list (list string) :=
  flat_map (fun e => match e with Run cmd => [cmd] | _ => [] end) tr.

Definition sleeps (tr : list event) : Z :=
  Z.of_nat (List.length (List.filter (fun e => match e with Sleep => true | _ => false end) tr)).

(** The command the script is expected to run for an issue of a group. *)
Definition cmd_of (g : epic_group) (i : new_issue) : list string :=
  create_cmd (title i) (body i) [epic g; status g; priority g; "type:feature"].

(** The answer counts as a created issue: the command completed and printed
    something else than whitespace. *)
Definition gives_url (a : gh_answer) : bool :=
  match a with
  | Completed out => truthy (strip out)
  | CalledProcessError _ => false
  end.

End CreateIssues.

(** ** implement_issue.py *)

Module ImplementIssue.
Import PyStr.

(** [\w] on ASCII: a letter, a digit or the underscore. *)
Definition is_word (c : ascii) : bool :=
  let n := nat_of_ascii c in
  ((48 <=? n)%nat && (n <=? 57)%nat) || ((65 <=? n)%nat && (n <=? 90)%nat)
  || ((97 <=? n)%nat && (n <=? 122)%nat) || (n =? 95)%nat.

Definition is_hyphen (c : ascii) : bool := Ascii.eqb c "-"%char.

(** The class [[\w\s-]], whose complement the first substitution deletes,
    and the class [[\s_-]] of the second. *)
Definition kept (c : ascii) : bool := is_word c || isspace c || is_hyphen c.

Definition is_separator (c : ascii) : bool :=
  isspace c || Ascii.eqb c "_"%char || is_hyphen c.

(** [re.sub(r'[^\w\s-]', '', text)]. *)
Fixpoint delete_others (s : string) : string :=
  match s with
  | EmptyString => EmptyString
  | String c r => if kept c then String c (delete_others r) else delete_others r
  end.

(** [re.sub(r'[\s_-]+', '-', text)]: every maximal run of separators
    becomes one hyphen; [in_run] tells that the previous character was a
    separator. *)
Fixpoint collapse (s : string) (in_run : bool) : string :=
  match s with
  | EmptyString => EmptyString
  | String c r =>
      if is_separator c
      then if in_run then collapse r true else String "-"%char (collapse r true)
      else String c (collapse r false)
  end.

(** [re.sub(r'^-+|-+$', '', text)] on a text without line feed: the
    hyphens at the start and those at the end are deleted. *)
Fixpoint lstrip_hyphens (s : string) : string :=
  match s with
  | EmptyString => EmptyString
  | String c r => if is_hyphen c then lstrip_hyphens r else s
  end.

Fixpoint rstrip_hyphens (s : string) : string :=
  match s with
  | EmptyString => EmptyString
  | String c r =>
      match rstrip_hyphens r with
      | EmptyString => if is_hyphen c then EmptyString else String c EmptyString
      | r' => String c r'
      end
  end.

(** [s[:n]]. *)
Fixpoint take (n : nat) (s : string) : string :=
  match n, s with
  | O, _ => EmptyString
  | S _, EmptyString => EmptyString
  | S k, String c r => String c (take k r)
  end.

(** [slugify] before its last line, and [slugify]. *)
Definition slug_untruncated (text : string) : string :=
  rstrip_hyphens (lstrip_hyphens (collapse (delete_others (lower text)) false)).

Definition slugify (text : string) : string := take 50 (slug_untruncated text).

(** [s.split()]: the maximal runs of characters that are not whitespace. *)
Fixpoint split_ws (s : string) : list string :=
  match s with
  | EmptyString => []
  | String c r =>
      if isspace c then split_ws r
      else match r with
           | EmptyString => [String c EmptyString]
           | String c' _ =>
               if isspace c' then String c EmptyString :: split_ws r
               else match split_ws r with
                    | w :: ws => String c w :: ws
                    | [] => [String c EmptyString]
                    end
           end
  end.

(** What a finished process gives, and the dict [run_command] returns. *)
Record completed : Type := Completed {
  returncode : Z;
  stdout : string;
  stderr : string
}.

Record command_result : Type := CommandResult {
  success : bool;
  res_stdout : string;
  res_stderr : string;
  res_returncode : Z
}.

(** [run_command] on a command given as one string.  With [check] a
    return code other than 0 raises [CalledProcessError], which is caught:
    the dict is the same as without [check]. *)
Definition run_command (sh : list string -> completed) (cmd : string) (check : bool)
    : list string * command_result :=
  let argv := split_ws cmd in
  let p := sh argv in
  (argv, CommandResult (Z.eqb (returncode p) 0) (stdout p) (stderr p) (returncode p)).

(** What [create_feature_branch] does, in order. *)
Inductive event : Type :=
| Run (argv : list string)
| Print (line : string).

(** Lines 95-103. *)
Definition commit_prefix (issue_type : option string) : string :=
  match issue_type with
  | Some t =>
      if String.eqb t "bug" then "fix"
      else if String.eqb t "docs" then "docs"
      else if String.eqb t "tech-debt" then "refactor"
      else "feat"
  | None => "feat"
  end.

(** Line 105. *)
Definition branch_name_of (issue : FetchIssue.issue) : string :=
  commit_prefix (FetchIssue.type_ issue) +:+ "/issue-"
  +:+ str_of_int (FetchIssue.number issue) +:+ "-"
  +:+ slugify (FetchIssue.title issue).

(** [create_feature_branch] on the issue dumped by [fetch_issue.py]: the
    branch name returned and what was done. *)
Definition create_feature_branch (sh : list string -> completed)
    (issue : FetchIssue.issue) : string * list event :=
  let branch_name := branch_name_of issue in
  let '(argv1, result) :=
    run_command sh ("git rev-parse --verify " +:+ branch_name) false in
  let checkout :=
    if success result
    then [Print "⚠️  Branch already exists. Checking out...";
          Run (fst (run_command sh ("git checkout " +:+ branch_name) true))]
    else [Run (fst (run_command sh ("git checkout -b " +:+ branch_name) true))] in
  (branch_name,
   [Print ("🌿 Creating feature branch: " +:+ branch_name); Run argv1]
   ++ checkout
   ++ [Print ("✅ On branch: " +:+ branch_name); Print EmptyString]).

(** Predicates on strings. *)
Fixpoint all_chars (p : ascii -> bool) (s : string) : bool :=
  match s with
  | EmptyString => true
  | String c r => p c && all_chars p r
  end.

Definition is_ascii (s : string) : bool :=
  all_chars (fun c => (nat_of_ascii c <? 128)%nat) s.

(** A lower case letter, a digit or a hyphen. *)
Definition slug_char (c : ascii) : bool :=
  let n := nat_of_ascii c in
  ((48 <=? n)%nat && (n <=? 57)%nat) || ((97 <=? n)%nat && (n <=? 122)%nat)
  || is_hyphen c.

Fixpoint no_double_hyphen (s : string) : bool :=
  match s with
  | EmptyString => true
  | String c r =>
      match r with
      | EmptyString => true
      | String d _ => negb (is_hyphen c && is_hyphen d) && no_double_hyphen r
      end
  end.

Definition starts_with_hyphen (s : string) : bool :=
  match s with String c _ => is_hyphen c | EmptyString => false end.

Definition ends_with_hyphen (s : string) : bool :=
  match last_char s with Some c => is_hyphen c | None => false end.

(** The commands of a list of events. *)
Definition commands (evs : list event) : list (list string) :=
  flat_map (fun e => match e with Run argv => [argv] | _ => [] end) evs.

End ImplementIssue.

(** ** Concrete inputs used by the examples below *)

Module Scenario.
Import PyStr.

(** Issue bodies. *)
Definition body_two_items : string :=
  "## Acceptance Criteria" +:+ LF +:+ "- [ ] a" +:+ LF +:+ "- [x] b" +:+ LF
  +:+ "## Next".

Definition body_heading_between : string :=
  "## Acceptance Criteria" +:+ LF +:+ "- [ ] a" +:+ LF +:+ "## Next" +:+ LF
  +:+ "## Acceptance Criteria" +:+ LF +:+ "- [ ] late".

Definition body_second_header : string :=
  "## Acceptance Criteria" +:+ LF +:+ "- [ ] a" +:+ LF
  +:+ "## More Acceptance Criteria" +:+ LF +:+ "- [ ] b".

(** Label lists. *)
Definition labels_none : list FetchIssue.label :=
  [FetchIssue.Label (Some "epic:billing"); FetchIssue.Label (Some "type:bug")].

Definition labels_one : list FetchIssue.label :=
  [FetchIssue.Label (Some "epic:billing"); FetchIssue.Label (Some "priority:high")].

Definition labels_several : list FetchIssue.label :=
  [FetchIssue.Label (Some "type:bug"); FetchIssue.Label (Some "priority:high");
   FetchIssue.Label (Some "priority:low")].

(** Structured issues. *)
Definition bare_open_issue : FetchIssue.issue :=
  FetchIssue.Issue 7 "Add export" EmptyString [] None None None None [] None
    "OPEN" "https://example.test/7".

Definition closed_issue : FetchIssue.issue :=
  FetchIssue.Issue 8 "Old work" EmptyString
    [FetchIssue.Criterion true "done"] (Some "billing") (Some "high")
    (Some "done") None [] None "CLOSED" "https://example.test/8".

(** Trackers for the selector. *)
Definition medium_old : SelectIssue.issue :=
  SelectIssue.Issue 12 "Older" "2024-01-05T10:00:00Z" ["priority:medium"] [].

Definition medium_new : SelectIssue.issue :=
  SelectIssue.Issue 15 "Newer" "2024-02-01T09:30:00Z" ["priority:medium"] [].

Definition low_issue : SelectIssue.issue :=
  SelectIssue.Issue 3 "Oldest of all" "2023-06-01T00:00:00Z" ["priority:low"] [].

Definition has_arg (cmd : list string) (a : string) : bool :=
  existsb (String.eqb a) cmd.

Definition tracker_medium : SelectIssue.tracker :=
  fun cmd =>
    if has_arg cmd "priority:medium" then SelectIssue.Issues [medium_old; medium_new]
    else if has_arg cmd "priority:low" then SelectIssue.Issues [low_issue]
    else SelectIssue.Issues [].

Definition tracker_empty : SelectIssue.tracker :=
  fun _ => SelectIssue.Issues [].

Definition tracker_down : SelectIssue.tracker :=
  fun _ => SelectIssue.CalledProcessError "connection refused".

Definition tracker_only_critical : SelectIssue.tracker :=
  fun cmd =>
    if has_arg cmd "priority:critical" then SelectIssue.Issues [medium_old]
    else SelectIssue.Issues [].

Definition args_default : SelectIssue.args :=
  SelectIssue.Args None None "backlog" None None.

Definition args_low : SelectIssue.args :=
  SelectIssue.Args (Some "low") None "backlog" None None.

(** A board and a tracker for the reconciler. *)
Definition board_config : UpdateStatus.config :=
  UpdateStatus.Config "PVT_1" 4 "octo" "shop" "FIELD_1"
    (UpdateStatus.make_option_map
       [UpdateStatus.FieldOption "Todo" "opt_todo";
        UpdateStatus.FieldOption "In Progress" "opt_doing";
        UpdateStatus.FieldOption "Done" "opt_done"]).

Definition five_issues : UpdateStatus.remote :=
  UpdateStatus.Remote
    (fun n =>
       if n =? 1 then Ok ["type:bug"; "status:backlog"]
       else if n =? 2 then Ok ["status:done"]
       else if n =? 3 then Ok ["priority:high"]
       else if n =? 4 then Ok ["status:in-progress"]
       else Raise "gh: HTTP 502")
    (fun n _ _ =>
       if n =? 4 then Ok [UpdateStatus.ProjectItem "PVTI_other" 9]
       else Ok [UpdateStatus.ProjectItem "PVTI_other" 9;
                UpdateStatus.ProjectItem "PVTI_here" 4])
    (fun _ _ _ _ _ => Ok tt).

(** Issue 2 cannot be fetched; 1 and 3 are done, 4 has no status label. *)
Definition fetch_of_two_fails : UpdateStatus.remote :=
  UpdateStatus.Remote
    (fun n =>
       if n =? 2 then Raise "gh: HTTP 502"
       else if n =? 4 then Ok ["type:docs"]
       else Ok ["status:done"])
    (fun _ _ _ => Ok [UpdateStatus.ProjectItem "PVTI_here" 4])
    (fun _ _ _ _ _ => Ok tt).

(** A board whose last column is called "Completed", and one that names a
    column twice. *)
Definition board_without_done : UpdateStatus.config :=
  UpdateStatus.Config "PVT_1" 4 "octo" "shop" "FIELD_1"
    (UpdateStatus.make_option_map
       [UpdateStatus.FieldOption "Backlog" "opt_backlog";
        UpdateStatus.FieldOption "In progress" "opt_doing";
        UpdateStatus.FieldOption "Completed" "opt_completed"]).

(** The query for the critical tier fails; the high tier has one issue. *)
Definition high_issue : SelectIssue.issue :=
  SelectIssue.Issue 21 "Fix login" "2024-03-01T08:00:00Z"
    ["type:bug"; "priority:high"; "status:backlog"] ["ana"].

Definition tracker_critical_down : SelectIssue.tracker :=
  fun cmd =>
    if has_arg cmd "priority:critical"
    then SelectIssue.CalledProcessError "HTTP 502"
    else if has_arg cmd "priority:high" then SelectIssue.Issues [high_issue]
    else SelectIssue.Issues [].


Definition raw_empty_epic : FetchIssue.raw_issue :=
  FetchIssue.RawIssue 9 "Strange label" EmptyString
    [FetchIssue.Label (Some "type:bug"); FetchIssue.Label (Some "epic:");
     FetchIssue.Label (Some "epic:billing")]
    [] None "OPEN" "https://example.test/9".

Definition body_with_prose : string :=
  "Intro" +:+ LF +:+ "### Acceptance criteria:" +:+ LF +:+ "Some prose" +:+ LF
  +:+ "  " +:+ LF +:+ "- [X]  first  " +:+ LF +:+ "* not a box" +:+ LF +:+ "-[ ] second".

Definition body_without_prose : string :=
  "Intro" +:+ LF +:+ "### Acceptance criteria:" +:+ LF
  +:+ "  " +:+ LF +:+ "- [X]  first  " +:+ LF +:+ "* not a box" +:+ LF +:+ "-[ ] second".

(** A file with two groups, and a tracker that fails on one title and
    prints nothing for another. *)
Definition two_groups : list CreateIssues.epic_group :=
  [CreateIssues.EpicGroup "epic:billing" "status:backlog" "priority:high"
     [CreateIssues.NewIssue "Invoices" "Send invoices";
      CreateIssues.NewIssue "Refunds" "Handle refunds"];
   CreateIssues.EpicGroup "epic:search" "status:backlog" "priority:low"
     [CreateIssues.NewIssue "Filters" "Add filters"]].

Definition tracker_create : list string -> CreateIssues.gh_answer :=
  fun cmd =>
    if has_arg cmd "Refunds" then CreateIssues.CalledProcessError "label not found"
    else if has_arg cmd "Filters" then CreateIssues.Completed (" " +:+ LF)
    else CreateIssues.Completed ("https://example.test/issues/1" +:+ LF).

Definition tracker_silent : list string -> CreateIssues.gh_answer :=
  fun _ => CreateIssues.Completed LF.

(** An issue with a long title, and shells for git. *)
Definition long_title_issue : FetchIssue.issue :=
  FetchIssue.Issue 42 "Fix: user_login  fails (HTTP 500) -- when e-mail has UPPER case!"
    EmptyString [] None None None (Some "bug") [] None "OPEN" "https://example.test/42".

Definition git_no_branch : list string -> ImplementIssue.completed :=
  fun argv =>
    if has_arg argv "rev-parse" then ImplementIssue.Completed 128 EmptyString "fatal"
    else if has_arg argv "checkout"
         then ImplementIssue.Completed 1 EmptyString "error: local changes"
         else ImplementIssue.Completed 0 EmptyString EmptyString.

End Scenario.

(** * Properties *)

(** ** Strings *)

Lemma prefix_append (p s : string) : String.prefix p (p +:+ s) = true.
Proof.
  induction p as [|c p IH]; simpl.
  - now destruct s.
  - destruct (ascii_dec c c) as [_|ne]; [exact IH | now destruct ne].
Qed.

Lemma drop_append (p s : string) : PyStr.drop (String.length p) (p +:+ s) = s.
Proof. induction p as [|c p IH]; simpl; [now destruct s | exact IH]. Qed.

Lemma split_lines_nonempty (s : string) : PyStr.split_lines s <> [].
Proof.
  induction s as [|c s IH]; simpl; [discriminate|].
  destruct (Ascii.eqb c PyStr.LF_char); [discriminate|].
  destruct (PyStr.split_lines s); [contradiction | discriminate].
Qed.

(** [(s + "\n" + t).split("\n") == s.split("\n") + t.split("\n")]. *)
Lemma split_lines_append (s t : string) :
  PyStr.split_lines (s +:+ PyStr.LF +:+ t)
  = PyStr.split_lines s ++ PyStr.split_lines t.
Proof.
  induction s as [|c s IH].
  - reflexivity.
  - change (String c s +:+ PyStr.LF +:+ t) with (String c (s +:+ PyStr.LF +:+ t)).
    simpl. rewrite IH.
    destruct (Ascii.eqb c PyStr.LF_char); [reflexivity|].
    pose proof (split_lines_nonempty s) as Hne.
    destruct (PyStr.split_lines s); [contradiction | reflexivity].
Qed.

(** ** fetch_issue.py: the label codec *)

Section ExtractLabel.
Import FetchIssue.
Variable prefix : string.

Let carries (l : label) : bool := PyStr.startswith (get_name l) prefix.

Lemma extract_label_none (labels : list label) :
  (forall l, In l labels -> carries l = false) ->
  extract_label labels prefix = None.
Proof.
  induction labels as [|l rest IH]; intros Hno; simpl; [reflexivity|].
  fold (carries l). rewrite (Hno l (or_introl eq_refl)).
  apply IH. intros l' Hin. apply Hno. now right.
Qed.

Lemma extract_label_first (before : list label) (l : label) (after : list label)
    (suffix : string) :
  (forall l', In l' before -> carries l' = false) ->
  get_name l = prefix +:+ suffix ->
  extract_label (before ++ l :: after) prefix = Some suffix.
Proof.
  induction before as [|b before IH]; intros Hno Hname; simpl.
  - unfold PyStr.startswith. rewrite Hname, prefix_append, drop_append. reflexivity.
  - fold (carries b). rewrite (Hno b (or_introl eq_refl)).
    apply IH; [|exact Hname]. intros l' Hin. apply Hno. now right.
Qed.

(** When exactly one label carries the prefix, nothing before it does. *)
Lemma single_carrier_split (labels : list label) (l : label) :
  List.length (List.filter carries labels) = 1%nat ->
  In l labels -> carries l = true ->
  exists before after,
    labels = before ++ l :: after /\
    (forall l', In l' before -> carries l' = false).
Proof.
  induction labels as [|x rest IH]; intros Hlen Hin Hc; [destruct Hin|].
  simpl in Hlen. destruct (carries x) eqn:Hx.
  - (* [x] is the only carrier, so [l] is [x] *)
    simpl in Hlen. injection Hlen as Hlen.
    destruct Hin as [->|Hin].
    + exists [], rest. split; [reflexivity | intros l' []].
    + exfalso.
      assert (Hmem : In l (List.filter carries rest))
        by (apply List.filter_In; now split).
      destruct (List.filter carries rest); [destruct Hmem | discriminate].
  - destruct Hin as [->|Hin]; [congruence|].
    destruct (IH Hlen Hin Hc) as (before & after & -> & Hno).
    exists (x :: before), after. split; [reflexivity|].
    intros l' [<-|Hin']; [exact Hx | now apply Hno].
Qed.
End ExtractLabel.

(** C9. The label codec answers absent when no label starts with the
    prefix; when exactly one label starts with it, the answer is that
    label's name without the prefix; when several do, the answer comes from
    the first of them in list order. *)
Theorem extract_label_first_wins (labels : list FetchIssue.label) (prefix : string) :
  ((forall l, In l labels ->
      PyStr.startswith (FetchIssue.get_name l) prefix = false) ->
   FetchIssue.extract_label labels prefix = None)
  /\
  (forall l suffix,
      List.length
        (List.filter (fun l => PyStr.startswith (FetchIssue.get_name l) prefix) labels)
      = 1%nat ->
      In l labels ->
      FetchIssue.get_name l = prefix +:+ suffix ->
      FetchIssue.extract_label labels prefix = Some suffix)
  /\
  (forall before l after suffix,
      labels = before ++ l :: after ->
      (forall l', In l' before ->
         PyStr.startswith (FetchIssue.get_name l') prefix = false) ->
      FetchIssue.get_name l = prefix +:+ suffix ->
      FetchIssue.extract_label labels prefix = Some suffix).
Proof.
  split; [apply extract_label_none|]. split.
  - intros l suffix Hlen Hin Hname.
    assert (Hc : PyStr.startswith (FetchIssue.get_name l) prefix = true)
      by (unfold PyStr.startswith; rewrite Hname; apply prefix_append).
    destruct (single_carrier_split prefix labels l Hlen Hin Hc)
      as (before & after & -> & Hno).
    now apply extract_label_first.
  - intros before l after suffix -> Hno Hname. now apply extract_label_first.
Qed.

Lemma extract_label_first_wins_witness :
  FetchIssue.extract_label Scenario.labels_none "priority:" = None
  /\ FetchIssue.extract_label Scenario.labels_one "priority:" = Some "high"
  /\ FetchIssue.extract_label Scenario.labels_several "priority:" = Some "high".
Proof.
  split; [|split].
  - apply (proj1 (extract_label_first_wins Scenario.labels_none "priority:")).
    intros l [<-|[<-|[]]]; reflexivity.
  - apply (proj1 (proj2 (extract_label_first_wins Scenario.labels_one "priority:"))
             (FetchIssue.Label (Some "priority:high")) "high").
    + reflexivity.
    + right; left; reflexivity.
    + reflexivity.
  - apply (proj2 (proj2 (extract_label_first_wins Scenario.labels_several "priority:"))
             [FetchIssue.Label (Some "type:bug")]
             (FetchIssue.Label (Some "priority:high"))
             [FetchIssue.Label (Some "priority:low")] "high").
    + reflexivity.
    + intros l [<-|[]]; reflexivity.
    + reflexivity.
Defined.

(** ** fetch_issue.py: the criteria parser *)

Section CriteriaParser.
Import FetchIssue.

Lemma scan_prefix_break (pre : list string) (c : list criterion) :
  scan_prefix pre (Break c) = Break c.
Proof. now destruct pre. Qed.

(** Running the loop over [pre ++ rest] is running it over [rest] from the
    state reached after [pre], unless [pre] already left the loop. *)
Lemma for_lines_app (pre rest : list string) (b : bool) (c : list criterion) :
  for_lines (pre ++ rest) b c
  = match scan_prefix pre (Continue b c) with
    | Continue b' c' => for_lines rest b' c'
    | Break c' => c'
    end.
Proof.
  revert b c. induction pre as [|line pre IH]; intros b c; simpl; [reflexivity|].
  destruct (loop_body line b c) as [b' c'|c'].
  - apply IH.
  - now rewrite scan_prefix_break.
Qed.

Lemma startswith_hash (h : string) :
  PyStr.startswith h "#" = true -> exists r, h = String "#"%char r.
Proof.
  unfold PyStr.startswith. destruct h as [|a r]; intros H; [discriminate H|].
  change (String.prefix "#" (String a r))
    with (if ascii_dec "#"%char a then String.prefix EmptyString r else false) in H.
  destruct (ascii_dec "#"%char a) as [<-|]; [eauto | discriminate H].
Qed.

Lemma rstrip_hash (r : string) :
  exists r', PyStr.rstrip (String "#"%char r) = String "#"%char r'.
Proof.
  simpl. destruct (PyStr.rstrip r); [exists EmptyString | eexists]; reflexivity.
Qed.

(** A heading line that is not a criteria header leaves the loop. *)
Lemma loop_body_heading (h : string) (crit : list criterion) :
  PyStr.startswith h "#" = true ->
  loop_body h true crit
  = if is_criteria_header h then Continue true crit else Break crit.
Proof.
  intros Hh. destruct (startswith_hash h Hh) as [r ->].
  unfold loop_body. destruct (is_criteria_header _); [reflexivity|].
  change (match_checkbox (String "#"%char r)) with (@None (ascii * string)).
  unfold PyStr.strip. change (PyStr.lstrip (String "#"%char r)) with (String "#"%char r).
  destruct (rstrip_hash r) as [r' ->]. simpl String.eqb.
  now rewrite Hh.
Qed.
End CriteriaParser.

(** C7. The body with a header, two checkbox items and a second heading
    parses to the two items, unchecked [a] then checked [b]; whatever
    follows the second heading on later lines is left out. *)
Theorem parse_two_items_then_heading :
  FetchIssue.parse_acceptance_criteria Scenario.body_two_items
  = [FetchIssue.Criterion false "a"; FetchIssue.Criterion true "b"]
  /\
  (forall tail : string,
      FetchIssue.parse_acceptance_criteria
        (Scenario.body_two_items +:+ PyStr.LF +:+ tail)
      = [FetchIssue.Criterion false "a"; FetchIssue.Criterion true "b"]).
Proof.
  split; [vm_compute; reflexivity|].
  intros tail. unfold FetchIssue.parse_acceptance_criteria.
  change (PyStr.truthy (Scenario.body_two_items +:+ PyStr.LF +:+ tail)) with true.
  simpl negb. cbv iota.
  rewrite split_lines_append, for_lines_app.
  replace (FetchIssue.scan_prefix (PyStr.split_lines Scenario.body_two_items)
             (FetchIssue.Continue false []))
    with (FetchIssue.Break
            [FetchIssue.Criterion false "a"; FetchIssue.Criterion true "b"])
    by (vm_compute; reflexivity).
  reflexivity.
Qed.

(** C8, as the code has it, for a body of ASCII characters.  In collection
    mode a line that begins with [#] ends the loop at once, unless the line
    itself contains "acceptance criteria": such a line is taken as a header
    and collection goes on.  Once a heading has ended the loop nothing after
    it is read, so items under a later header are left out. *)
Theorem heading_ends_collection
    (body : string) (pre : list string) (h : string) (post : list string)
    (crit : list FetchIssue.criterion) :
  PyStr.is_ascii body = true ->
  PyStr.split_lines body = pre ++ h :: post ->
  FetchIssue.scan_prefix pre (FetchIssue.Continue false [])
  = FetchIssue.Continue true crit ->
  PyStr.startswith h "#" = true ->
  FetchIssue.parse_acceptance_criteria body
  = if FetchIssue.is_criteria_header h
    then FetchIssue.for_lines post true crit
    else crit.
Proof.
  intros _ Hsplit Hscan Hh.
  unfold FetchIssue.parse_acceptance_criteria.
  destruct body as [|a body'].
  - exfalso. simpl in Hsplit.
    destruct pre as [|p pre]; simpl in Hsplit.
    + injection Hsplit as <- _. discriminate Hh.
    + injection Hsplit as _ Hnil. now destruct pre.
  - simpl PyStr.truthy. simpl negb. cbv iota.
    rewrite Hsplit, for_lines_app, Hscan. simpl FetchIssue.for_lines.
    rewrite (loop_body_heading h crit Hh).
    now destruct (FetchIssue.is_criteria_header h).
Qed.

Lemma heading_ends_collection_witness :
  FetchIssue.parse_acceptance_criteria Scenario.body_heading_between
  = [FetchIssue.Criterion false "a"].
Proof.
  exact (heading_ends_collection Scenario.body_heading_between
           ["## Acceptance Criteria"; "- [ ] a"] "## Next"
           ["## Acceptance Criteria"; "- [ ] late"]
           [FetchIssue.Criterion false "a"] eq_refl eq_refl eq_refl eq_refl).
Defined.

(** C8 as stated fails: a heading that contains "acceptance criteria" does
    not end collection, and the items under that later header are
    collected. *)
Lemma later_header_is_collected :
  ~ (forall body pre h post crit,
        PyStr.split_lines body = pre ++ h :: post ->
        FetchIssue.scan_prefix pre (FetchIssue.Continue false [])
        = FetchIssue.Continue true crit ->
        PyStr.startswith h "#" = true ->
        FetchIssue.parse_acceptance_criteria body = crit)
  /\
  ~ (forall body pre h1 mid h2 post,
        PyStr.split_lines body = pre ++ h1 :: mid ++ h2 :: post ->
        forallb (fun l => negb (FetchIssue.is_criteria_header l)) pre = true ->
        FetchIssue.is_criteria_header h1 = true ->
        FetchIssue.is_criteria_header h2 = true ->
        FetchIssue.parse_acceptance_criteria body
        = FetchIssue.for_lines (pre ++ h1 :: mid) false [])
  /\
  FetchIssue.parse_acceptance_criteria Scenario.body_second_header
  = [FetchIssue.Criterion false "a"; FetchIssue.Criterion false "b"].
Proof.
  split; [|split].
  - intros H.
    specialize (H Scenario.body_second_header
                  ["## Acceptance Criteria"; "- [ ] a"]
                  "## More Acceptance Criteria" ["- [ ] b"]
                  [FetchIssue.Criterion false "a"] eq_refl eq_refl eq_refl).
    vm_compute in H. discriminate H.
  - intros H.
    specialize (H Scenario.body_second_header []
                  "## Acceptance Criteria" ["- [ ] a"]
                  "## More Acceptance Criteria" ["- [ ] b"]
                  eq_refl eq_refl eq_refl eq_refl).
    vm_compute in H. discriminate H.
  - vm_compute. reflexivity.
Qed.

(** ** fetch_issue.py: validation *)

(** C6, as the code has it.  A closed issue is never valid, whatever its
    other fields; an open issue without assignees, criteria, epic and
    priority is valid and gets exactly three warnings: no acceptance
    criteria, no epic label, no priority label. *)
Theorem validate_closed_and_bare :
  (forall i, FetchIssue.state i = "CLOSED" -> fst (FetchIssue.validate_issue i) = false)
  /\
  (forall i,
      FetchIssue.state i = "OPEN" ->
      FetchIssue.assignees i = [] ->
      FetchIssue.acceptance_criteria i = [] ->
      FetchIssue.epic i = None ->
      FetchIssue.priority i = None ->
      FetchIssue.validate_issue i
      = (true, ["⚠️  No acceptance criteria found in issue body";
                "⚠️  No epic label found";
                "⚠️  No priority label found"])).
Proof.
  split.
  - intros i Hs. unfold FetchIssue.validate_issue. simpl. now rewrite Hs.
  - intros i Hs Ha Hc He Hp. unfold FetchIssue.validate_issue.
    rewrite Hs, Ha, Hc, He, Hp. reflexivity.
Qed.

Lemma validate_closed_and_bare_witness :
  fst (FetchIssue.validate_issue Scenario.closed_issue) = false
  /\ List.length (snd (FetchIssue.validate_issue Scenario.bare_open_issue)) = 3%nat.
Proof.
  split.
  - apply (proj1 validate_closed_and_bare). reflexivity.
  - rewrite (proj2 validate_closed_and_bare Scenario.bare_open_issue
               eq_refl eq_refl eq_refl eq_refl eq_refl).
    reflexivity.
Defined.

(** C6 as stated fails: the bare open issue gets three warnings, not four. *)
Lemma bare_open_issue_has_three_warnings :
  ~ (forall i,
        FetchIssue.state i = "OPEN" ->
        FetchIssue.assignees i = [] ->
        FetchIssue.acceptance_criteria i = [] ->
        FetchIssue.epic i = None ->
        FetchIssue.priority i = None ->
        fst (FetchIssue.validate_issue i) = true
        /\ List.length (snd (FetchIssue.validate_issue i)) = 4%nat).
Proof.
  intros H.
  destruct (H Scenario.bare_open_issue eq_refl eq_refl eq_refl eq_refl eq_refl)
    as [_ Hlen].
  vm_compute in Hlen. discriminate Hlen.
Qed.

(** ** select_issue.py *)

Section Selector.
Import SelectIssue.
Variable gh : tracker.
Variables (epic_filter : option string) (status : string) (owner repo : option string).

Let q (priority : string) : list string :=
  build_cmd priority epic_filter status owner repo.
Let cand : string -> list issue := candidates gh epic_filter status owner repo.

(** A single query returns the head of what the tier yields and logs
    exactly its own command. *)
Lemma select_next_issue_head (priority : string) (w : world) :
  fst (select_next_issue gh priority epic_filter status owner repo w)
  = List.hd_error (cand priority)
  /\ calls (snd (select_next_issue gh priority epic_filter status owner repo w))
     = calls w ++ [q priority].
Proof.
  unfold select_next_issue, cand, candidates, q.
  destruct (gh _) as [[|i l]|e|e]; simpl; auto.
Qed.

Lemma select_next_issue_stdout (priority : string) (w : world) :
  stdout_lines (snd (select_next_issue gh priority epic_filter status owner repo w))
  = stdout_lines w.
Proof.
  unfold select_next_issue. now destruct (gh _) as [[|i l]|e|e].
Qed.

Lemma for_priorities_first (before : list string) (p : string) (after : list string)
    (i : issue) (rest : list issue) (w : world) :
  (forall p', In p' before -> cand p' = []) ->
  cand p = i :: rest ->
  let res := for_priorities (before ++ p :: after) gh epic_filter status owner repo w in
  fst res = Some i /\ calls (snd res) = calls w ++ map q (before ++ [p]).
Proof.
  revert w. induction before as [|b before IH]; intros w Hempty Hp; simpl.
  - destruct (select_next_issue_head p w) as [Hf Hc]. rewrite Hp in Hf.
    destruct (select_next_issue _ _ _ _ _ _ _) as [[j|] w']; simpl in *;
      [|discriminate Hf].
    injection Hf as ->. auto.
  - destruct (select_next_issue_head b w) as [Hf Hc].
    rewrite (Hempty b (or_introl eq_refl)) in Hf.
    destruct (select_next_issue _ _ _ _ _ _ _) as [[j|] w']; simpl in *;
      [discriminate Hf|].
    destruct (IH w') as [Hi Hcalls]; [intros p' Hin; apply Hempty; now right|exact Hp|].
    split; [exact Hi|]. rewrite Hcalls, Hc, <- app_assoc. reflexivity.
Qed.

Lemma for_priorities_none (ps : list string) (w : world) :
  (forall p, In p ps -> cand p = []) ->
  let res := for_priorities ps gh epic_filter status owner repo w in
  fst res = None /\ calls (snd res) = calls w ++ map q ps.
Proof.
  revert w. induction ps as [|p ps IH]; intros w Hempty; simpl.
  - now rewrite app_nil_r.
  - destruct (select_next_issue_head p w) as [Hf Hc].
    rewrite (Hempty p (or_introl eq_refl)) in Hf.
    destruct (select_next_issue _ _ _ _ _ _ _) as [[j|] w']; simpl in *;
      [discriminate Hf|].
    destruct (IH w') as [Hi Hcalls]; [intros p' Hin; apply Hempty; now right|].
    split; [exact Hi|]. rewrite Hcalls, Hc, <- app_assoc. reflexivity.
Qed.

(** Two tiers never share a command line. *)
Lemma build_cmd_inj (p p' : string) : q p = q p' -> p = p'.
Proof.
  unfold q, build_cmd.
  destruct (truthy_opt owner && truthy_opt repo), (truthy_opt epic_filter);
    simpl; intros H; injection H as H; exact H.
Qed.

(** Every failed query has its line on the diagnostic stream. *)
Lemma select_next_issue_logged (priority : string) (w : world) :
  failures_logged gh w ->
  failures_logged gh
    (snd (select_next_issue gh priority epic_filter status owner repo w)).
Proof.
  intros Hw cmd e. unfold select_next_issue.
  destruct (gh (build_cmd _ _ _ _ _)) as [[|i l]|e'|e'] eqn:Hgh; simpl;
    rewrite ?in_app_iff; simpl; intros Hin Hcmd.
  all: destruct Hin as [Hin|[<-|[]]]; try congruence.
  all: try (now apply (Hw cmd)).
  - left. now apply (Hw cmd).
  - right. left. congruence.
  - left. now apply (Hw cmd).
Qed.

Lemma for_priorities_logged (ps : list string) (w : world) :
  failures_logged gh w ->
  failures_logged gh (snd (for_priorities ps gh epic_filter status owner repo w)).
Proof.
  revert w. induction ps as [|p ps IH]; intros w Hw; simpl; [exact Hw|].
  pose proof (select_next_issue_logged p w Hw) as Hstep.
  destruct (select_next_issue _ _ _ _ _ _ _) as [[j|] w']; simpl in *; auto.
Qed.
End Selector.

Lemma filters_with_priority (a : SelectIssue.args) (p : string) :
  SelectIssue.arg_priority a = Some p -> PyStr.truthy p = true ->
  List.hd_error (SelectIssue.filters a) = Some ("priority:" +:+ p).
Proof.
  intros Hp Ht. unfold SelectIssue.filters. rewrite Hp.
  change (SelectIssue.truthy_opt (Some p)) with (PyStr.truthy p). rewrite Ht.
  now destruct (SelectIssue.truthy_opt (SelectIssue.arg_epic a)).
Qed.

Lemma filters_without_priority (a : SelectIssue.args) (f : string) :
  SelectIssue.arg_priority a = None ->
  In f (SelectIssue.filters a) -> PyStr.startswith f "priority:" = false.
Proof.
  intros Hp. unfold SelectIssue.filters. rewrite Hp.
  destruct (SelectIssue.truthy_opt (SelectIssue.arg_epic a)); simpl;
    intros Hin; repeat (destruct Hin as [<-|Hin]; [reflexivity|]); destruct Hin.
Qed.

Lemma created_le_refl (i : SelectIssue.issue) : SelectIssue.created_le i i.
Proof.
  unfold SelectIssue.created_le.
  now destruct (String.leb_total (SelectIssue.createdAt i) (SelectIssue.createdAt i)).
Qed.

(** C3. The cascade queries the tiers in the order critical, high, medium,
    low, stops at the first tier that yields a candidate and returns that
    tier's first element; when no tier yields one, all four are queried and
    the answer is absent.  In particular, with nothing in critical and high
    and something in medium, the answer is the first medium issue (the
    oldest, the tracker sorting by creation date as asked), after exactly
    three queries, none of them for low. *)
Theorem select_with_fallback_cascade
    (gh : SelectIssue.tracker) (epic_filter : option string) (status : string)
    (owner repo : option string) :
  let q p := SelectIssue.build_cmd p epic_filter status owner repo in
  let cand := SelectIssue.candidates gh epic_filter status owner repo in
  let res := SelectIssue.select_with_fallback gh epic_filter status owner repo
               SelectIssue.init in
  (forall before p after i rest,
      SelectIssue.PRIORITY_ORDER = before ++ p :: after ->
      (forall p', In p' before -> cand p' = []) ->
      cand p = i :: rest ->
      fst res = Some i /\ SelectIssue.calls (snd res) = map q (before ++ [p]))
  /\
  ((forall p, In p SelectIssue.PRIORITY_ORDER -> cand p = []) ->
   fst res = None
   /\ SelectIssue.calls (snd res) = map q SelectIssue.PRIORITY_ORDER)
  /\
  (forall i rest,
      cand "critical" = [] -> cand "high" = [] -> cand "medium" = i :: rest ->
      SelectIssue.oldest_first (i :: rest) ->
      fst res = Some i
      /\ (forall j, In j (i :: rest) -> SelectIssue.created_le i j)
      /\ SelectIssue.calls (snd res) = [q "critical"; q "high"; q "medium"]
      /\ ~ In (q "low") (SelectIssue.calls (snd res))).
Proof.
  intros q cand res. split; [|split].
  - intros before p after i rest Horder Hempty Hp.
    subst res. unfold SelectIssue.select_with_fallback. rewrite Horder.
    exact (for_priorities_first gh epic_filter status owner repo
             before p after i rest SelectIssue.init Hempty Hp).
  - intros Hempty.
    exact (for_priorities_none gh epic_filter status owner repo
             SelectIssue.PRIORITY_ORDER SelectIssue.init Hempty).
  - intros i rest Hc Hh Hm Hsorted.
    destruct (for_priorities_first gh epic_filter status owner repo
                ["critical"; "high"] "medium" ["low"] i rest SelectIssue.init)
      as [Hres Hcalls]; [|exact Hm|].
    { intros p' [<-|[<-|[]]]; assumption. }
    change (fst res = Some i) in Hres.
    change (SelectIssue.calls (snd res) = [q "critical"; q "high"; q "medium"])
      in Hcalls.
    split; [exact Hres|]. split; [|split; [exact Hcalls|]].
    + intros j [<-|Hin]; [apply created_le_refl|].
      apply StronglySorted_inv in Hsorted as [_ Hall].
      rewrite List.Forall_forall in Hall. now apply Hall.
    + rewrite Hcalls. intros [H|[H|[H|[]]]];
        apply (build_cmd_inj epic_filter status owner repo) in H; discriminate H.
Qed.

Lemma select_with_fallback_cascade_witness :
  fst (SelectIssue.select_with_fallback Scenario.tracker_medium None "backlog"
         None None SelectIssue.init) = Some Scenario.medium_old
  /\ ~ In (SelectIssue.build_cmd "low" None "backlog" None None)
          (SelectIssue.calls
             (snd (SelectIssue.select_with_fallback Scenario.tracker_medium None
                     "backlog" None None SelectIssue.init))).
Proof.
  destruct (proj2 (proj2 (select_with_fallback_cascade Scenario.tracker_medium
                            None "backlog" None None))
              Scenario.medium_old [Scenario.medium_new]
              eq_refl eq_refl eq_refl) as (Hres & _ & _ & Hlow).
  - repeat constructor.
  - split; [exact Hres | exact Hlow].
Defined.

(** C4. With an explicit priority one tier is queried and there is no
    fallback: the only command run is that tier's, the answer is the head
    of what it yields, and when it yields nothing the run ends absent, with
    status 1 and nothing on standard output, no other tier having been
    queried. *)
Theorem explicit_priority_queries_one_tier
    (gh : SelectIssue.tracker) (a : SelectIssue.args) (p : string) :
  SelectIssue.arg_priority a = Some p ->
  PyStr.truthy p = true ->
  let q p' := SelectIssue.build_cmd p' (SelectIssue.arg_epic a)
                (SelectIssue.arg_status a) (SelectIssue.arg_owner a)
                (SelectIssue.arg_repo a) in
  let cand := SelectIssue.candidates gh (SelectIssue.arg_epic a)
                (SelectIssue.arg_status a) (SelectIssue.arg_owner a)
                (SelectIssue.arg_repo a) in
  fst (SelectIssue.choose gh a) = List.hd_error (cand p)
  /\ SelectIssue.calls (snd (SelectIssue.choose gh a)) = [q p]
  /\ (cand p = [] ->
      fst (SelectIssue.choose gh a) = None
      /\ snd (SelectIssue.main gh a) = 1
      /\ SelectIssue.stdout_lines (fst (SelectIssue.main gh a)) = []
      /\ SelectIssue.calls (fst (SelectIssue.main gh a)) = [q p]
      /\ (forall p', p' <> p ->
            ~ In (q p') (SelectIssue.calls (fst (SelectIssue.main gh a))))).
Proof.
  intros Hp Htruthy q cand.
  assert (Hchoose : SelectIssue.choose gh a
                    = SelectIssue.select_next_issue gh p (SelectIssue.arg_epic a)
                        (SelectIssue.arg_status a) (SelectIssue.arg_owner a)
                        (SelectIssue.arg_repo a) SelectIssue.init).
  { unfold SelectIssue.choose. rewrite Hp. simpl. now rewrite Htruthy. }
  destruct (select_next_issue_head gh (SelectIssue.arg_epic a)
              (SelectIssue.arg_status a) (SelectIssue.arg_owner a)
              (SelectIssue.arg_repo a) p SelectIssue.init) as [Hf Hc].
  pose proof (select_next_issue_stdout gh (SelectIssue.arg_epic a)
                (SelectIssue.arg_status a) (SelectIssue.arg_owner a)
                (SelectIssue.arg_repo a) p SelectIssue.init) as Hout.
  rewrite <- Hchoose in Hf, Hc, Hout. simpl in Hc, Hout.
  split; [exact Hf|]. split; [exact Hc|].
  intros Hempty. fold cand in Hf. rewrite Hempty in Hf. simpl in Hf.
  unfold SelectIssue.main.
  destruct (SelectIssue.choose gh a) as [found w]. simpl in Hf, Hc, Hout. subst found.
  simpl. split; [reflexivity|]. split; [reflexivity|].
  split; [exact Hout|]. split; [exact Hc|].
  intros p' Hne. rewrite Hc. intros [H|[]].
  apply (build_cmd_inj (SelectIssue.arg_epic a) (SelectIssue.arg_status a)
           (SelectIssue.arg_owner a) (SelectIssue.arg_repo a)) in H.
  congruence.
Qed.

Lemma explicit_priority_queries_one_tier_witness :
  fst (SelectIssue.choose Scenario.tracker_only_critical Scenario.args_low) = None
  /\ snd (SelectIssue.main Scenario.tracker_only_critical Scenario.args_low) = 1
  /\ (forall p', In p' ["critical"; "high"; "medium"] ->
        ~ In (SelectIssue.build_cmd p' None "backlog" None None)
             (SelectIssue.calls
                (fst (SelectIssue.main Scenario.tracker_only_critical
                        Scenario.args_low)))).
Proof.
  destruct (proj2 (proj2 (explicit_priority_queries_one_tier
                            Scenario.tracker_only_critical Scenario.args_low "low"
                            eq_refl eq_refl)) eq_refl)
    as (Hnone & Hexit & _ & _ & Hothers).
  split; [exact Hnone|]. split; [exact Hexit|].
  intros p' Hin. apply Hothers.
  destruct Hin as [<-|[<-|[<-|[]]]]; discriminate.
Defined.

(** C5, as the code has it.  The exit status is 0 when an issue is selected
    and 1 in every absent outcome, whether an explicit tier was empty, the
    cascade was exhausted or a query failed.  These outcomes differ on the
    diagnostic stream only: the closing line names the filters, with the
    priority first when one was given and no priority otherwise, and every
    failed query has left an error line. *)
Theorem exit_status_of_main (gh : SelectIssue.tracker) (a : SelectIssue.args) :
  snd (SelectIssue.main gh a)
  = match fst (SelectIssue.choose gh a) with Some _ => 0 | None => 1 end
  /\
  (fst (SelectIssue.choose gh a) = None ->
   SelectIssue.stderr_lines (fst (SelectIssue.main gh a))
   = SelectIssue.stderr_lines (snd (SelectIssue.choose gh a))
     ++ ["❌ No issues found matching: " +:+ PyStr.join ", " (SelectIssue.filters a)])
  /\
  (forall p, SelectIssue.arg_priority a = Some p -> PyStr.truthy p = true ->
             List.hd_error (SelectIssue.filters a) = Some ("priority:" +:+ p))
  /\
  (SelectIssue.arg_priority a = None ->
   forall f, In f (SelectIssue.filters a) -> PyStr.startswith f "priority:" = false)
  /\
  (forall cmd e,
      In cmd (SelectIssue.calls (fst (SelectIssue.main gh a))) ->
      gh cmd = SelectIssue.CalledProcessError e ->
      In ("❌ Error querying issues: " +:+ e)
         (SelectIssue.stderr_lines (fst (SelectIssue.main gh a)))).
Proof.
  assert (Hlogged : SelectIssue.failures_logged gh (snd (SelectIssue.choose gh a))).
  { unfold SelectIssue.choose.
    destruct (SelectIssue.truthy_opt (SelectIssue.arg_priority a)).
    - apply select_next_issue_logged. intros cmd e [].
    - apply for_priorities_logged. intros cmd e []. }
  unfold SelectIssue.main.
  destruct (SelectIssue.choose gh a) as [[i|] w]; simpl in *.
  - split; [reflexivity|]. split; [discriminate|]. split; [|split].
    + apply filters_with_priority.
    + intros Hp f. now apply filters_without_priority.
    + intros cmd e Hin Hcmd.
      assert (Hw := Hlogged cmd e).
      destruct (SelectIssue.assignees i); simpl in *;
        rewrite ?in_app_iff; simpl; rewrite ?in_app_iff; simpl;
        specialize (Hw Hin Hcmd); tauto.
  - split; [reflexivity|]. split; [reflexivity|]. split; [|split].
    + apply filters_with_priority.
    + intros Hp f. now apply filters_without_priority.
    + intros cmd e Hin Hcmd. rewrite in_app_iff. left. now apply (Hlogged cmd e).
Qed.

Lemma exit_status_of_main_witness :
  snd (SelectIssue.main Scenario.tracker_empty Scenario.args_low) = 1
  /\ List.hd_error (SelectIssue.filters Scenario.args_low) = Some "priority:low"
  /\ PyStr.startswith "status:backlog" "priority:" = false.
Proof.
  destruct (exit_status_of_main Scenario.tracker_empty Scenario.args_low)
    as (Hexit & _ & Hprio & _).
  destruct (exit_status_of_main Scenario.tracker_empty Scenario.args_default)
    as (_ & _ & _ & Hnoprio & _).
  split; [exact Hexit|]. split.
  - exact (Hprio "low" eq_refl eq_refl).
  - apply (Hnoprio eq_refl). left. reflexivity.
Defined.

(** C5 as stated fails: an empty explicit tier and an exhausted cascade end
    with the same exit status, and so do a search that finds nothing and one
    whose queries all fail. *)
Lemma absent_outcomes_share_exit_status :
  ~ (forall gh a1 a2,
        SelectIssue.truthy_opt (SelectIssue.arg_priority a1) = true ->
        SelectIssue.arg_priority a2 = None ->
        fst (SelectIssue.choose gh a1) = None ->
        fst (SelectIssue.choose gh a2) = None ->
        snd (SelectIssue.main gh a1) <> snd (SelectIssue.main gh a2))
  /\
  ~ (forall gh_empty gh_down a e,
        (forall cmd, gh_empty cmd = SelectIssue.Issues []) ->
        (forall cmd, gh_down cmd = SelectIssue.CalledProcessError e) ->
        snd (SelectIssue.main gh_empty a) <> snd (SelectIssue.main gh_down a)).
Proof.
  split.
  - intros H.
    apply (H Scenario.tracker_empty Scenario.args_low Scenario.args_default);
      reflexivity.
  - intros H.
    apply (H Scenario.tracker_empty Scenario.tracker_down Scenario.args_default
             "connection refused"); reflexivity.
Qed.

(** ** update_status.py *)

Section Reconciler.
Import UpdateStatus.
Variable r : remote.
Variable c : config.

Let zero : counters := Counters 0 0 0.

(** The calls of an iteration are appended to the trace, and its result
    does not depend on the trace. *)
Lemma try_body_trace (n : Z) (tr : list call) :
  try_body r c n tr = (tr ++ fst (try_body r c n []), snd (try_body r c n [])).
Proof.
  unfold try_body, get_issue_labels, get_project_item_id, update_issue_status,
    sleep, bind, emit, ret.
  simpl. destruct (gh_issue_labels r n) as [labels|e]; [|reflexivity].
  destruct (negb (truthy_opt (find_status_label c labels))); [reflexivity|].
  destruct (gh_project_items r n (OWNER c) (REPO c)) as [nodes|e];
    [|now rewrite <- app_assoc].
  destruct (negb (truthy_opt _)); [now rewrite <- app_assoc|].
  destruct (LABEL_TO_STATUS c !! _) as [option_id|]; [|now rewrite <- app_assoc].
  destruct (negb (truthy_opt option_id)); [now rewrite <- app_assoc|].
  destruct (gh_update_field r n _ _ _ _); simpl;
    now rewrite <- ?app_assoc.
Qed.

Lemma iteration_outcome (n : Z) (k : counters) (tr : list call) :
  iteration r c (k, tr) n
  = (count (outcome_of r c n) k, tr ++ fst (try_body r c n [])).
Proof.
  unfold iteration, outcome_of. simpl. rewrite (try_body_trace n tr). reflexivity.
Qed.

Lemma count_shift (o : outcome) (k x : counters) :
  add_counters (count o k) x = add_counters k (add_counters (count o zero) x).
Proof. destruct o; unfold add_counters, count; simpl; f_equal; lia. Qed.

Lemma add_zero_r (k : counters) : add_counters k zero = k.
Proof. destruct k; unfold add_counters; simpl; f_equal; lia. Qed.

(** A run from any state is the run from the initial state, added to it. *)
Lemma for_issues_from (issues : list Z) (k : counters) (tr : list call) :
  for_issues r c issues (k, tr)
  = (add_counters k (fst (for_issues r c issues (zero, []))),
     tr ++ snd (for_issues r c issues (zero, []))).
Proof.
  revert k tr. induction issues as [|n rest IH]; intros k tr.
  - simpl. now rewrite add_zero_r, app_nil_r.
  - unfold for_issues in *. simpl fold_left. rewrite !iteration_outcome.
    rewrite (IH (count _ k)), (IH (count _ zero)). simpl.
    now rewrite count_shift, app_assoc.
Qed.

Lemma for_issues_app (xs ys : list Z) (st : counters * list call) :
  for_issues r c (xs ++ ys) st = for_issues r c ys (for_issues r c xs st).
Proof. unfold for_issues. apply fold_left_app. Qed.

Lemma count_total (o : outcome) (k : counters) : total (count o k) = total k + 1.
Proof. destruct o; unfold total; simpl; lia. Qed.

Lemma count_le (o : outcome) (k : counters) : counters_le k (count o k).
Proof. destruct o; unfold counters_le; simpl; lia. Qed.

Lemma counters_le_trans (a b d : counters) :
  counters_le a b -> counters_le b d -> counters_le a d.
Proof. unfold counters_le. lia. Qed.

Lemma for_issues_total (issues : list Z) (k : counters) (tr : list call) :
  total (fst (for_issues r c issues (k, tr))) = total k + Z.of_nat (List.length issues).
Proof.
  revert k tr. induction issues as [|n rest IH]; intros k tr.
  - simpl. lia.
  - unfold for_issues in *. simpl fold_left. rewrite iteration_outcome, IH, count_total.
    simpl List.length. lia.
Qed.

Lemma for_issues_le (issues : list Z) (k : counters) (tr : list call) :
  counters_le k (fst (for_issues r c issues (k, tr))).
Proof.
  revert k tr. induction issues as [|n rest IH]; intros k tr.
  - unfold counters_le. simpl. lia.
  - unfold for_issues in *. simpl fold_left. rewrite iteration_outcome.
    eapply counters_le_trans; [apply (count_le (outcome_of r c n))|apply IH].
Qed.
End Reconciler.

(** [range(a, b)] *)

Lemma py_range_length (a b : Z) :
  Z.of_nat (List.length (UpdateStatus.py_range a b)) = Z.max 0 (b - a).
Proof. unfold UpdateStatus.py_range. rewrite length_map, length_seq. lia. Qed.

Lemma map_seq_shift (f : nat -> Z) (n m : nat) :
  map f (seq n m) = map (fun i => f (n + i)%nat) (seq 0 m).
Proof.
  revert f n. induction m as [|m IH]; intros f n; [reflexivity|].
  simpl. rewrite Nat.add_0_r. f_equal.
  rewrite (IH f (S n)), (IH (fun i => f (n + i)%nat) 1%nat).
  apply map_ext. intros i. f_equal. lia.
Qed.

Lemma py_range_split (a b d : Z) :
  a <= b <= d ->
  UpdateStatus.py_range a d = UpdateStatus.py_range a b ++ UpdateStatus.py_range b d.
Proof.
  intros H. unfold UpdateStatus.py_range.
  replace (Z.to_nat (d - a)) with (Z.to_nat (b - a) + Z.to_nat (d - b))%nat by lia.
  rewrite seq_app, map_app. f_equal.
  rewrite map_seq_shift. apply map_ext. intros i. lia.
Qed.

Lemma firstn_plus {A : Type} (i d : nat) (l : list A) :
  firstn (i + d) l = firstn i l ++ firstn d (skipn i l).
Proof.
  revert l. induction i as [|i IH]; intros l; [reflexivity|].
  destruct l as [|x l]; simpl; [now destruct d | now rewrite IH].
Qed.

Lemma py_range_one (n : Z) : UpdateStatus.py_range n (n + 1) = [n].
Proof.
  unfold UpdateStatus.py_range. replace (n + 1 - n) with 1 by lia.
  simpl. f_equal. lia.
Qed.

Lemma py_range_In (a b m : Z) : In m (UpdateStatus.py_range a b) <-> a <= m < b.
Proof.
  unfold UpdateStatus.py_range. rewrite in_map_iff. split.
  - intros (i & <- & Hin). apply in_seq in Hin. lia.
  - intros H. exists (Z.to_nat (m - a)). split; [lia|]. apply in_seq. lia.
Qed.

(** C10. Every issue of the range increments exactly one of the three
    counters by one and leaves the other two unchanged; at the end the three
    counters add up to the number of issues in the range, [END - START + 1]
    or 0 when the range is empty; and no counter goes down while the loop
    advances. *)
Theorem counters_account_for_every_issue
    (r : UpdateStatus.remote) (c : UpdateStatus.config) (START_ISSUE END_ISSUE : Z) :
  let start := (UpdateStatus.Counters 0 0 0, @nil UpdateStatus.call) in
  let final := fst (UpdateStatus.reconcile r c START_ISSUE END_ISSUE) in
  UpdateStatus.updated final + UpdateStatus.skipped final + UpdateStatus.errors final
  = Z.max 0 (END_ISSUE - START_ISSUE + 1)
  /\
  (forall (st : UpdateStatus.counters * list UpdateStatus.call) (n : Z),
      let k := fst st in
      let k' := fst (UpdateStatus.iteration r c st n) in
      k' = UpdateStatus.Counters (UpdateStatus.updated k + 1) (UpdateStatus.skipped k)
             (UpdateStatus.errors k)
      \/ k' = UpdateStatus.Counters (UpdateStatus.updated k)
                (UpdateStatus.skipped k + 1) (UpdateStatus.errors k)
      \/ k' = UpdateStatus.Counters (UpdateStatus.updated k) (UpdateStatus.skipped k)
                (UpdateStatus.errors k + 1))
  /\
  (forall i d : nat,
      let issues := UpdateStatus.py_range START_ISSUE (END_ISSUE + 1) in
      UpdateStatus.counters_le
        (fst (UpdateStatus.for_issues r c (firstn i issues) start))
        (fst (UpdateStatus.for_issues r c (firstn (i + d) issues) start))
      /\ UpdateStatus.counters_le
           (fst (UpdateStatus.for_issues r c (firstn i issues) start)) final).
Proof.
  intros start final. split; [|split].
  - subst final start. unfold UpdateStatus.reconcile.
    pose proof (for_issues_total r c
                  (UpdateStatus.py_range START_ISSUE (END_ISSUE + 1))
                  (UpdateStatus.Counters 0 0 0) []) as H.
    unfold UpdateStatus.total in H. rewrite H, py_range_length. simpl. lia.
  - intros [k tr] n. rewrite iteration_outcome. simpl.
    destruct (UpdateStatus.outcome_of r c n); simpl; auto.
  - intros i d issues. split.
    + rewrite firstn_plus, for_issues_app.
      destruct (UpdateStatus.for_issues r c (firstn i issues) start) as [k tr].
      apply for_issues_le.
    + subst final. unfold UpdateStatus.reconcile. fold issues. fold start.
      rewrite <- (firstn_skipn i issues) at 2. rewrite for_issues_app.
      destruct (UpdateStatus.for_issues r c (firstn i issues) start) as [k tr].
      apply for_issues_le.
Qed.

(** *** One iteration, case by case *)

Section Iteration.
Import UpdateStatus.
Variable r : remote.
Variable c : config.

(** The keys of [LABEL_TO_STATUS] are the three status labels. *)
Lemma LABEL_TO_STATUS_keys (l : string) :
  is_Some (LABEL_TO_STATUS c !! l) <-> In l status_labels.
Proof.
  unfold LABEL_TO_STATUS, make_LABEL_TO_STATUS, status_labels. simpl.
  rewrite !lookup_insert_is_Some, lookup_empty, is_Some_alt.
  intuition congruence.
Qed.

Lemma find_status_label_Some (labels : list string) (status_label : string) :
  find_status_label c labels = Some status_label ->
  PyStr.truthy status_label = true /\ is_Some (LABEL_TO_STATUS c !! status_label).
Proof.
  intros H. apply List.find_some in H as [_ H]. apply bool_decide_eq_true in H.
  split; [|exact H]. apply LABEL_TO_STATUS_keys in H.
  unfold status_labels in H. simpl in H.
  destruct H as [<-|[<-|[<-|[]]]]; reflexivity.
Qed.

Lemma find_status_label_None (labels : list string) :
  (forall l, In l labels -> ~ In l status_labels) ->
  find_status_label c labels = None.
Proof.
  intros H. unfold find_status_label.
  induction labels as [|l rest IH]; [reflexivity|]. simpl.
  rewrite bool_decide_eq_false_2.
  - apply IH. intros l' Hin. apply H. now right.
  - rewrite LABEL_TO_STATUS_keys. apply H. now left.
Qed.

Lemma find_item_None (nodes : list project_item) :
  (forall it, In it nodes -> item_project_number it <> PROJECT_NUMBER c) ->
  List.find (fun it => Z.eqb (item_project_number it) (PROJECT_NUMBER c)) nodes = None.
Proof.
  intros H. induction nodes as [|it rest IH]; [reflexivity|]. simpl.
  destruct (Z.eqb_spec (item_project_number it) (PROJECT_NUMBER c)) as [Heq|_].
  - exfalso. apply (H it); [now left | exact Heq].
  - apply IH. intros it' Hin. apply H. now right.
Qed.

Ltac run_body :=
  unfold try_body, get_issue_labels, get_project_item_id, update_issue_status,
    sleep, bind, emit, ret; simpl.

Lemma body_label_fetch_fails (n : Z) :
  label_fetch_fails r n ->
  exists e, try_body r c n [] = ([GetIssueLabels n], Raise e).
Proof. intros [e He]. exists e. run_body. now rewrite He. Qed.

Lemma body_item_lookup_fails (n : Z) :
  item_lookup_fails r c n ->
  exists e, try_body r c n []
            = ([GetIssueLabels n;
                GetProjectItemId n (PROJECT_NUMBER c) (OWNER c) (REPO c)], Raise e).
Proof.
  intros (labels & sl & e & Hl & Hs & Hi). exists e. run_body.
  destruct (find_status_label_Some labels sl Hs) as [Ht _].
  rewrite Hl, Hs. simpl. rewrite Ht. simpl. now rewrite Hi.
Qed.

Lemma body_field_update_fails (n : Z) :
  field_update_fails r c n ->
  exists it option_id e,
    try_body r c n []
    = ([GetIssueLabels n;
        GetProjectItemId n (PROJECT_NUMBER c) (OWNER c) (REPO c);
        UpdateIssueStatus (item_id it) (PROJECT_ID c) (STATUS_FIELD_ID c) option_id],
       Raise e).
Proof.
  intros (labels & sl & nodes & it & oid & e & Hl & Hs & Hi & Hf & Hit & Ho & Hot & Hu).
  exists it, oid, e. run_body.
  destruct (find_status_label_Some labels sl Hs) as [Ht _].
  rewrite Hl, Hs. simpl. rewrite Ht. simpl. rewrite Hi, Hf. simpl.
  rewrite Hit. simpl. rewrite Ho. simpl. rewrite Hot. simpl. now rewrite Hu.
Qed.

Lemma body_syncs (n : Z) (status_label : string) :
  syncs r c n status_label ->
  exists it option_id,
    try_body r c n []
    = ([GetIssueLabels n;
        GetProjectItemId n (PROJECT_NUMBER c) (OWNER c) (REPO c);
        UpdateIssueStatus (item_id it) (PROJECT_ID c) (STATUS_FIELD_ID c) option_id;
        Sleep],
       Ok DidUpdate).
Proof.
  intros (labels & nodes & it & oid & Hl & Hs & Hi & Hf & Hit & Ho & Hot & Hu).
  exists it, oid. run_body.
  destruct (find_status_label_Some labels status_label Hs) as [Ht _].
  rewrite Hl, Hs. simpl. rewrite Ht. simpl. rewrite Hi, Hf. simpl.
  rewrite Hit. simpl. rewrite Ho. simpl. rewrite Hot. simpl. now rewrite Hu.
Qed.

Lemma body_no_status_label (n : Z) :
  has_no_status_label r n ->
  try_body r c n [] = ([GetIssueLabels n], Ok NoStatusLabel).
Proof.
  intros (labels & Hl & Hnone). run_body.
  now rewrite Hl, (find_status_label_None labels Hnone).
Qed.

Lemma body_no_board_item (n : Z) :
  has_no_board_item r c n ->
  try_body r c n []
  = ([GetIssueLabels n; GetProjectItemId n (PROJECT_NUMBER c) (OWNER c) (REPO c)],
     Ok NotInProject).
Proof.
  intros (labels & sl & nodes & Hl & Hs & Hi & Hnone). run_body.
  destruct (find_status_label_Some labels sl Hs) as [Ht _].
  rewrite Hl, Hs. simpl. rewrite Ht. simpl.
  now rewrite Hi, (find_item_None nodes Hnone).
Qed.

(** A failed external call is counted as an error. *)
Lemma failure_is_counted (n : Z) :
  external_call_fails r c n -> outcome_of r c n = Errored.
Proof.
  unfold outcome_of. intros [H|[H|H]].
  - destruct (body_label_fetch_fails n H) as [e ->]. reflexivity.
  - destruct (body_item_lookup_fails n H) as [e ->]. reflexivity.
  - destruct (body_field_update_fails n H) as (it & oid & e & ->). reflexivity.
Qed.

(** Every iteration starts by fetching the labels of its issue. *)
Lemma body_fetches_labels (n : Z) : In (GetIssueLabels n) (fst (try_body r c n [])).
Proof.
  run_body. destruct (gh_issue_labels r n) as [labels|e]; [|now left].
  destruct (negb (truthy_opt (find_status_label c labels))); [now left|].
  destruct (gh_project_items r n (OWNER c) (REPO c)) as [nodes|e]; [|now left].
  destruct (negb (truthy_opt _)); [now left|].
  destruct (LABEL_TO_STATUS c !! _) as [option_id|]; [|now left].
  destruct (negb (truthy_opt option_id)); [now left|].
  destruct (gh_update_field r n _ _ _ _); now left.
Qed.

Lemma for_issues_attempts (issues : list Z) (st : counters * list call) (m : Z) :
  In m issues -> In (GetIssueLabels m) (snd (for_issues r c issues st)).
Proof.
  revert st. induction issues as [|n rest IH]; intros [k tr] Hin; [destruct Hin|].
  unfold for_issues in *. simpl fold_left. rewrite iteration_outcome.
  destruct Hin as [->|Hin]; [|now apply IH].
  fold (for_issues r c rest (count (outcome_of r c m) k, tr ++ fst (try_body r c m []))).
  rewrite for_issues_from. simpl. rewrite !in_app_iff.
  left. right. apply body_fetches_labels.
Qed.
End Iteration.

(** Remotes with the same answers for an issue reconcile it alike. *)
Lemma try_body_same_answers (r r' : UpdateStatus.remote) (c : UpdateStatus.config)
    (n : Z) (tr : list UpdateStatus.call) :
  UpdateStatus.same_answers r r' n ->
  UpdateStatus.try_body r c n tr = UpdateStatus.try_body r' c n tr.
Proof.
  intros (Hl & Hi & Hu).
  unfold UpdateStatus.try_body, UpdateStatus.get_issue_labels,
    UpdateStatus.get_project_item_id, UpdateStatus.update_issue_status,
    UpdateStatus.sleep, UpdateStatus.bind, UpdateStatus.emit, UpdateStatus.ret.
  simpl. rewrite Hl. destruct (UpdateStatus.gh_issue_labels r' n); [|reflexivity].
  destruct (negb _); [reflexivity|]. rewrite Hi.
  destruct (UpdateStatus.gh_project_items r' n _ _); [|reflexivity].
  destruct (negb _); [reflexivity|].
  destruct (UpdateStatus.LABEL_TO_STATUS c !! _) as [o|]; [|reflexivity].
  destruct (negb _); [reflexivity|]. now rewrite Hu.
Qed.

Lemma for_issues_same_answers (r r' : UpdateStatus.remote) (c : UpdateStatus.config)
    (issues : list Z) (st : UpdateStatus.counters * list UpdateStatus.call) :
  (forall m, In m issues -> UpdateStatus.same_answers r r' m) ->
  UpdateStatus.for_issues r c issues st = UpdateStatus.for_issues r' c issues st.
Proof.
  revert st. induction issues as [|n rest IH]; intros st H; [reflexivity|].
  unfold UpdateStatus.for_issues in *. simpl.
  replace (UpdateStatus.iteration r' c st n) with (UpdateStatus.iteration r c st n).
  - apply IH. intros m Hin. apply H. now right.
  - unfold UpdateStatus.iteration.
    now rewrite (try_body_same_answers r r' c n (snd st)) by (apply H; now left).
Qed.

(** C2. When an external call made for issue [N] fails (the label fetch,
    the board item lookup or the field update), the failure is caught and
    counted as one error for [N]; the run is the run before [N], that one
    error, and the run on the issues after [N], every one of which has its
    labels fetched.  What the issues before and after [N] add to the counters
    is the same in any run where only the answers for [N] differ, whatever
    the outcome of [N] is there. *)
Theorem fault_isolation
    (r : UpdateStatus.remote) (c : UpdateStatus.config) (START_ISSUE END_ISSUE N : Z) :
  START_ISSUE <= N <= END_ISSUE ->
  UpdateStatus.external_call_fails r c N ->
  let zero := UpdateStatus.Counters 0 0 0 in
  let all := UpdateStatus.reconcile r c START_ISSUE END_ISSUE in
  let before := UpdateStatus.reconcile r c START_ISSUE (N - 1) in
  let after := UpdateStatus.reconcile r c (N + 1) END_ISSUE in
  UpdateStatus.outcome_of r c N = UpdateStatus.Errored
  /\ fst all
     = UpdateStatus.add_counters (fst before)
         (UpdateStatus.add_counters (UpdateStatus.Counters 0 0 1) (fst after))
  /\ (forall m, N < m <= END_ISSUE -> In (UpdateStatus.GetIssueLabels m) (snd all))
  /\ (forall r',
         (forall m, START_ISSUE <= m <= END_ISSUE -> m <> N ->
                    UpdateStatus.same_answers r r' m) ->
         fst (UpdateStatus.reconcile r' c START_ISSUE END_ISSUE)
         = UpdateStatus.add_counters (fst before)
             (UpdateStatus.add_counters
                (UpdateStatus.count (UpdateStatus.outcome_of r' c N) zero)
                (fst after))).
Proof.
  intros HN Hfail zero all before after.
  assert (Hrange : UpdateStatus.py_range START_ISSUE (END_ISSUE + 1)
                   = UpdateStatus.py_range START_ISSUE N
                     ++ [N] ++ UpdateStatus.py_range (N + 1) (END_ISSUE + 1)).
  { rewrite (py_range_split START_ISSUE N (END_ISSUE + 1)) by lia.
    rewrite (py_range_split N (N + 1) (END_ISSUE + 1)) by lia.
    now rewrite py_range_one. }
  assert (Hsplit : forall r0,
             fst (UpdateStatus.reconcile r0 c START_ISSUE END_ISSUE)
             = UpdateStatus.add_counters
                 (fst (UpdateStatus.reconcile r0 c START_ISSUE (N - 1)))
                 (UpdateStatus.add_counters
                    (UpdateStatus.count (UpdateStatus.outcome_of r0 c N) zero)
                    (fst (UpdateStatus.reconcile r0 c (N + 1) END_ISSUE)))).
  { intros r0. unfold UpdateStatus.reconcile. rewrite Hrange.
    replace (N - 1 + 1) with N by lia.
    rewrite !for_issues_app.
    destruct (UpdateStatus.for_issues r0 c (UpdateStatus.py_range START_ISSUE N) _)
      as [k tr].
    unfold UpdateStatus.for_issues at 2. simpl fold_left.
    rewrite iteration_outcome, for_issues_from. simpl.
    now rewrite count_shift. }
  pose proof (failure_is_counted r c N Hfail) as Herr.
  split; [exact Herr|]. split; [|split].
  - subst all before after. rewrite Hsplit, Herr. reflexivity.
  - intros m Hm. subst all. unfold UpdateStatus.reconcile.
    apply for_issues_attempts. apply py_range_In. lia.
  - intros r' Hsame. rewrite Hsplit. subst before after.
    unfold UpdateStatus.reconcile.
    rewrite <- (for_issues_same_answers r r' c
                  (UpdateStatus.py_range START_ISSUE (N - 1 + 1))).
    + rewrite <- (for_issues_same_answers r r' c
                    (UpdateStatus.py_range (N + 1) (END_ISSUE + 1))); [reflexivity|].
      intros m Hin. apply py_range_In in Hin. apply Hsame; lia.
    + intros m Hin. apply py_range_In in Hin. apply Hsame; lia.
Qed.

Lemma fault_isolation_witness :
  UpdateStatus.outcome_of Scenario.fetch_of_two_fails Scenario.board_config 2
  = UpdateStatus.Errored
  /\ fst (UpdateStatus.reconcile Scenario.fetch_of_two_fails Scenario.board_config 1 4)
     = UpdateStatus.Counters 2 1 1
  /\ In (UpdateStatus.GetIssueLabels 4)
        (snd (UpdateStatus.reconcile Scenario.fetch_of_two_fails
                Scenario.board_config 1 4)).
Proof.
  assert (Hfail : UpdateStatus.external_call_fails Scenario.fetch_of_two_fails
                    Scenario.board_config 2).
  { left. exists "gh: HTTP 502". reflexivity. }
  destruct (fault_isolation Scenario.fetch_of_two_fails Scenario.board_config
              1 4 2 ltac:(lia) Hfail) as (Herr & Hsum & Hlater & _).
  split; [exact Herr|]. split.
  - rewrite Hsum. vm_compute. reflexivity.
  - apply Hlater. lia.
Defined.

(** C1. Over the range 1..5, with issue 1 carrying [status:backlog] and
    issue 2 [status:done] (each with a board item, a resolvable option and
    an update that goes through), issue 3 without status label, issue 4
    with a status label and no item in the configured project, and issue 5
    with a failing label fetch, the summary is updated 2, skipped 1,
    errors 2, and the board is written twice.  An issue without status
    label is skipped after its label fetch, no other call being made; an
    issue without board item is an error, and the board is not written. *)
Theorem five_issue_summary (r : UpdateStatus.remote) (c : UpdateStatus.config) :
  UpdateStatus.syncs r c 1 "status:backlog" ->
  UpdateStatus.syncs r c 2 "status:done" ->
  UpdateStatus.has_no_status_label r 3 ->
  UpdateStatus.has_no_board_item r c 4 ->
  UpdateStatus.label_fetch_fails r 5 ->
  fst (UpdateStatus.reconcile r c 1 5) = UpdateStatus.Counters 2 1 2
  /\ List.length
       (List.filter UpdateStatus.is_mutation (snd (UpdateStatus.reconcile r c 1 5)))
     = 2%nat
  /\ (forall n, UpdateStatus.has_no_status_label r n ->
                UpdateStatus.outcome_of r c n = UpdateStatus.Skipped
                /\ fst (UpdateStatus.try_body r c n []) = [UpdateStatus.GetIssueLabels n])
  /\ (forall n, UpdateStatus.has_no_board_item r c n ->
                UpdateStatus.outcome_of r c n = UpdateStatus.Errored
                /\ List.filter UpdateStatus.is_mutation
                     (fst (UpdateStatus.try_body r c n [])) = []).
Proof.
  intros H1 H2 H3 H4 H5.
  destruct (body_syncs r c 1 _ H1) as (it1 & o1 & E1).
  destruct (body_syncs r c 2 _ H2) as (it2 & o2 & E2).
  pose proof (body_no_status_label r c 3 H3) as E3.
  pose proof (body_no_board_item r c 4 H4) as E4.
  destruct (body_label_fetch_fails r c 5 H5) as (e5 & E5).
  assert (Hrun : UpdateStatus.reconcile r c 1 5
                 = UpdateStatus.for_issues r c [1; 2; 3; 4; 5]
                     (UpdateStatus.Counters 0 0 0, [])) by reflexivity.
  rewrite Hrun. unfold UpdateStatus.for_issues. simpl fold_left.
  rewrite !iteration_outcome. unfold UpdateStatus.outcome_of.
  rewrite E1, E2, E3, E4, E5.
  split; [reflexivity|]. split; [reflexivity|]. split.
  - intros n Hn. unfold UpdateStatus.outcome_of.
    now rewrite (body_no_status_label r c n Hn).
  - intros n Hn. unfold UpdateStatus.outcome_of.
    now rewrite (body_no_board_item r c n Hn).
Qed.

Lemma five_issue_summary_witness :
  fst (UpdateStatus.reconcile Scenario.five_issues Scenario.board_config 1 5)
  = UpdateStatus.Counters 2 1 2.
Proof.
  apply five_issue_summary.
  - exists ["type:bug"; "status:backlog"],
      [UpdateStatus.ProjectItem "PVTI_other" 9; UpdateStatus.ProjectItem "PVTI_here" 4],
      (UpdateStatus.ProjectItem "PVTI_here" 4), "opt_todo".
    repeat split; reflexivity.
  - exists ["status:done"],
      [UpdateStatus.ProjectItem "PVTI_other" 9; UpdateStatus.ProjectItem "PVTI_here" 4],
      (UpdateStatus.ProjectItem "PVTI_here" 4), "opt_done".
    repeat split; reflexivity.
  - exists ["priority:high"]. split; [reflexivity|].
    intros l [<-|[]] [H|[H|[H|[]]]]; discriminate H.
  - exists ["status:in-progress"], "status:in-progress",
      [UpdateStatus.ProjectItem "PVTI_other" 9].
    repeat split; try reflexivity.
    intros it [<-|[]]. simpl. discriminate.
  - exists "gh: HTTP 502". reflexivity.
Defined.

(** * Further properties of the scripts *)

(** ** update_status.py: what a run does to the tracker and the board *)

Section Traces.
Import UpdateStatus.
Variable r : remote.
Variable c : config.

Let zero : counters := Counters 0 0 0.

Lemma count_calls_app (p : call -> bool) (a b : list call) :
  count_calls p (a ++ b) = count_calls p a + count_calls p b.
Proof. unfold count_calls. rewrite List.filter_app, length_app. lia. Qed.

(** The calls of one iteration: one label fetch, then at most one item
    lookup, at most one field update, and a sleep exactly when the issue is
    counted as updated. *)
Lemma try_body_calls (n : Z) :
  let tr := fst (try_body r c n []) in
  let o := outcome_of r c n in
  List.filter is_label_fetch tr = [GetIssueLabels n]
  /\ 0 <= count_calls is_item_lookup tr <= 1
  /\ count_calls is_sleep tr = updated (count o zero)
  /\ updated (count o zero) <= count_calls is_mutation tr
  /\ count_calls is_mutation tr <= updated (count o zero) + errors (count o zero)
  /\ skipped (count o zero) <= 1 - count_calls is_item_lookup tr.
Proof.
  unfold outcome_of, try_body, get_issue_labels, get_project_item_id,
    update_issue_status, sleep, bind, emit, ret. simpl.
  destruct (gh_issue_labels r n) as [labels|e];
    [|unfold count_calls; simpl; repeat split; lia].
  destruct (negb (truthy_opt (find_status_label c labels)));
    [unfold count_calls; simpl; repeat split; lia|].
  destruct (gh_project_items r n (OWNER c) (REPO c)) as [nodes|e];
    [|unfold count_calls; simpl; repeat split; lia].
  destruct (negb (truthy_opt _));
    [unfold count_calls; simpl; repeat split; lia|].
  destruct (LABEL_TO_STATUS c !! _) as [option_id|];
    [|unfold count_calls; simpl; repeat split; lia].
  destruct (negb (truthy_opt option_id));
    [unfold count_calls; simpl; repeat split; lia|].
  destruct (gh_update_field r n _ _ _ _);
    unfold count_calls; simpl; repeat split; lia.
Qed.

Lemma for_issues_cons (n : Z) (rest : list Z) :
  for_issues r c (n :: rest) (zero, [])
  = (add_counters (count (outcome_of r c n) zero)
       (fst (for_issues r c rest (zero, []))),
     fst (try_body r c n []) ++ snd (for_issues r c rest (zero, []))).
Proof.
  unfold for_issues at 1. simpl fold_left. rewrite iteration_outcome.
  fold (for_issues r c rest (count (outcome_of r c n) zero, [] ++ fst (try_body r c n []))).
  rewrite for_issues_from. reflexivity.
Qed.

Lemma for_issues_label_fetches (issues : list Z) :
  List.filter is_label_fetch (snd (for_issues r c issues (zero, [])))
  = map GetIssueLabels issues.
Proof.
  induction issues as [|n rest IH]; [reflexivity|].
  rewrite for_issues_cons. simpl snd. rewrite List.filter_app, IH.
  destruct (try_body_calls n) as (-> & _). reflexivity.
Qed.

Lemma for_issues_call_counts (issues : list Z) :
  let k := fst (for_issues r c issues (zero, [])) in
  let tr := snd (for_issues r c issues (zero, [])) in
  count_calls is_sleep tr = updated k
  /\ updated k <= count_calls is_mutation tr <= updated k + errors k
  /\ count_calls is_item_lookup tr <= Z.of_nat (List.length issues) - skipped k.
Proof.
  induction issues as [|n rest IH]; cbv zeta in *; [unfold count_calls; simpl; lia|].
  rewrite for_issues_cons. simpl fst. simpl snd. rewrite !count_calls_app.
  destruct (try_body_calls n) as (_ & Hl & Hs & Hm1 & Hm2 & Hk).
  destruct IH as (IHs & IHm & IHl).
  unfold add_counters. simpl updated. simpl skipped. simpl errors.
  simpl List.length. lia.
Qed.
End Traces.

(** X1. The labels of the issues of the range are fetched in ascending
    order, once each, and of no other issue; when the range is empty no call
    at all is made. *)
Theorem labels_fetched_once_in_order
    (r : UpdateStatus.remote) (c : UpdateStatus.config) (START_ISSUE END_ISSUE : Z) :
  List.filter UpdateStatus.is_label_fetch
    (snd (UpdateStatus.reconcile r c START_ISSUE END_ISSUE))
  = map UpdateStatus.GetIssueLabels (UpdateStatus.py_range START_ISSUE (END_ISSUE + 1))
  /\ (END_ISSUE < START_ISSUE ->
      UpdateStatus.reconcile r c START_ISSUE END_ISSUE
      = (UpdateStatus.Counters 0 0 0, [])).
Proof.
  split.
  - apply for_issues_label_fetches.
  - intros H. unfold UpdateStatus.reconcile, UpdateStatus.py_range.
    replace (Z.to_nat (END_ISSUE + 1 - START_ISSUE)) with 0%nat by lia.
    reflexivity.
Qed.

Lemma labels_fetched_once_in_order_witness :
  UpdateStatus.reconcile Scenario.five_issues Scenario.board_config 6 5
  = (UpdateStatus.Counters 0 0 0, []).
Proof.
  apply (proj2 (labels_fetched_once_in_order Scenario.five_issues
                  Scenario.board_config 6 5)).
  lia.
Defined.

(** X2. The loop sleeps exactly once per issue counted as updated, and
    never after a skip or an error.  The board is written at most once per
    issue: every updated issue has one write, and a write without an update
    is an error.  A skipped issue never reaches the board item lookup. *)
Theorem sleeps_and_writes_follow_updates
    (r : UpdateStatus.remote) (c : UpdateStatus.config) (START_ISSUE END_ISSUE : Z) :
  let k := fst (UpdateStatus.reconcile r c START_ISSUE END_ISSUE) in
  let tr := snd (UpdateStatus.reconcile r c START_ISSUE END_ISSUE) in
  UpdateStatus.count_calls UpdateStatus.is_sleep tr = UpdateStatus.updated k
  /\ UpdateStatus.updated k <= UpdateStatus.count_calls UpdateStatus.is_mutation tr
  /\ UpdateStatus.count_calls UpdateStatus.is_mutation tr
     <= UpdateStatus.updated k + UpdateStatus.errors k
  /\ UpdateStatus.count_calls UpdateStatus.is_item_lookup tr
     <= UpdateStatus.updated k + UpdateStatus.errors k.
Proof.
  intros k tr.
  destruct (for_issues_call_counts r c
              (UpdateStatus.py_range START_ISSUE (END_ISSUE + 1)))
    as (Hs & Hm & Hl).
  fold (UpdateStatus.reconcile r c START_ISSUE END_ISSUE) in Hs, Hm, Hl.
  pose proof (for_issues_total r c
                (UpdateStatus.py_range START_ISSUE (END_ISSUE + 1))
                (UpdateStatus.Counters 0 0 0) []) as Ht.
  fold (UpdateStatus.reconcile r c START_ISSUE END_ISSUE) in Ht.
  unfold UpdateStatus.total in Ht. simpl in Ht.
  subst k tr. repeat split; lia.
Qed.

Section Outcomes.
Import UpdateStatus.
Variable r : remote.
Variable c : config.

Lemma updated_only_if_syncs (n : Z) :
  outcome_of r c n = Updated -> exists status_label, syncs r c n status_label.
Proof.
  unfold outcome_of, syncs, try_body, get_issue_labels, get_project_item_id,
    update_issue_status, sleep, bind, emit, ret. simpl.
  destruct (gh_issue_labels r n) as [labels|e] eqn:Hl; [|discriminate].
  destruct (find_status_label c labels) as [sl|] eqn:Hs; [|discriminate].
  simpl. destruct (PyStr.truthy sl) eqn:Ht; [|discriminate]. simpl.
  destruct (gh_project_items r n (OWNER c) (REPO c)) as [nodes|e] eqn:Hi;
    [|discriminate].
  destruct (List.find _ nodes) as [it|] eqn:Hf; [|discriminate]. simpl.
  destruct (PyStr.truthy (item_id it)) eqn:Hit; [|discriminate]. simpl.
  destruct (LABEL_TO_STATUS c !! sl) as [[oid|]|] eqn:Ho; try discriminate.
  simpl. destruct (PyStr.truthy oid) eqn:Hot; [|discriminate]. simpl.
  destruct (gh_update_field r n _ _ _ _) as [[]|e] eqn:Hu; [|discriminate].
  intros _. exists sl, labels, nodes, it, oid. repeat split; assumption.
Qed.

Lemma skipped_only_if_no_status_label (n : Z) :
  outcome_of r c n = Skipped -> has_no_status_label r n.
Proof.
  unfold outcome_of, has_no_status_label, try_body, get_issue_labels,
    get_project_item_id, update_issue_status, sleep, bind, emit, ret. simpl.
  destruct (gh_issue_labels r n) as [labels|e] eqn:Hl; [|discriminate].
  destruct (find_status_label c labels) as [sl|] eqn:Hs.
  - destruct (find_status_label_Some c labels sl Hs) as [Ht _].
    simpl. rewrite Ht. simpl.
    destruct (gh_project_items r n (OWNER c) (REPO c)) as [nodes|e]; [|discriminate].
    destruct (negb (truthy_opt _)); [discriminate|].
    destruct (LABEL_TO_STATUS c !! sl) as [option_id|]; [|discriminate].
    destruct (negb (truthy_opt option_id)); [discriminate|].
    destruct (gh_update_field r n _ _ _ _); discriminate.
  - intros _. exists labels. split; [reflexivity|].
    intros l Hin Hkey.
    pose proof (List.find_none _ _ Hs l Hin) as Hfalse. simpl in Hfalse.
    apply bool_decide_eq_false in Hfalse. apply Hfalse.
    now apply LABEL_TO_STATUS_keys.
Qed.
End Outcomes.

(** X3. An issue is counted as updated exactly when its labels are fetched,
    one of them is a status label, the issue has an item on the configured
    board with a non-empty id, the label resolves to a non-empty option id
    and the field update goes through.  It is counted as skipped exactly
    when its labels are fetched and none is a status label; every other case
    is an error. *)
Theorem outcome_characterised
    (r : UpdateStatus.remote) (c : UpdateStatus.config) (n : Z) :
  (UpdateStatus.outcome_of r c n = UpdateStatus.Updated
   <-> exists status_label, UpdateStatus.syncs r c n status_label)
  /\ (UpdateStatus.outcome_of r c n = UpdateStatus.Skipped
      <-> UpdateStatus.has_no_status_label r n)
  /\ (UpdateStatus.outcome_of r c n = UpdateStatus.Errored
      <-> ~ (exists status_label, UpdateStatus.syncs r c n status_label)
          /\ ~ UpdateStatus.has_no_status_label r n).
Proof.
  assert (Hup : UpdateStatus.outcome_of r c n = UpdateStatus.Updated
                <-> exists status_label, UpdateStatus.syncs r c n status_label).
  { split; [apply updated_only_if_syncs|].
    intros [sl H]. unfold UpdateStatus.outcome_of.
    destruct (body_syncs r c n sl H) as (it & oid & ->). reflexivity. }
  assert (Hskip : UpdateStatus.outcome_of r c n = UpdateStatus.Skipped
                  <-> UpdateStatus.has_no_status_label r n).
  { split; [apply skipped_only_if_no_status_label|].
    intros H. unfold UpdateStatus.outcome_of.
    now rewrite (body_no_status_label r c n H). }
  split; [exact Hup|]. split; [exact Hskip|].
  rewrite <- Hup, <- Hskip.
  destruct (UpdateStatus.outcome_of r c n); split; try discriminate;
    try (intros [H1 H2]; congruence); try (split; discriminate).
Qed.

(** X4. [option_map] maps a name to the id of the last option of that name
    in the status field, and a name no option has is not mapped. *)
Theorem option_map_last_wins (options : list UpdateStatus.field_option) (name : string) :
  UpdateStatus.make_option_map options !! name
  = UpdateStatus.opt_id
      <$> List.find (fun o => String.eqb (UpdateStatus.opt_name o) name) (rev options).
Proof.
  unfold UpdateStatus.make_option_map.
  induction options as [|o rest IH] using rev_ind.
  - apply lookup_empty.
  - rewrite fold_left_app, rev_app_distr. simpl.
    destruct (String.eqb_spec (UpdateStatus.opt_name o) name) as [->|Hne].
    + apply lookup_insert_eq.
    + rewrite lookup_insert_ne by exact Hne. exact IH.
Qed.

(** X5. What is written for an updated issue: the item is the first one of
    the issue whose project number is the configured one, and the option is
    the one named "Todo", else "Backlog", for [status:backlog]; "In
    Progress", else "In progress", for [status:in-progress]; "Done" for
    [status:done].  An option with an empty id counts as missing. *)
Theorem written_item_and_option
    (r : UpdateStatus.remote) (c : UpdateStatus.config) (n : Z) (status_label : string) :
  UpdateStatus.syncs r c n status_label ->
  exists it option_id before after,
    fst (UpdateStatus.try_body r c n [])
    = [UpdateStatus.GetIssueLabels n;
       UpdateStatus.GetProjectItemId n (UpdateStatus.PROJECT_NUMBER c)
         (UpdateStatus.OWNER c) (UpdateStatus.REPO c);
       UpdateStatus.UpdateIssueStatus (UpdateStatus.item_id it)
         (UpdateStatus.PROJECT_ID c) (UpdateStatus.STATUS_FIELD_ID c) option_id;
       UpdateStatus.Sleep]
    /\ UpdateStatus.gh_project_items r n (UpdateStatus.OWNER c) (UpdateStatus.REPO c)
       = Ok (before ++ it :: after)
    /\ UpdateStatus.item_project_number it = UpdateStatus.PROJECT_NUMBER c
    /\ (forall x, In x before ->
          UpdateStatus.item_project_number x <> UpdateStatus.PROJECT_NUMBER c)
    /\ PyStr.truthy option_id = true
    /\ (status_label = "status:backlog" ->
        UpdateStatus.option_map c !! "Todo" = Some option_id
        \/ (UpdateStatus.truthy_opt (UpdateStatus.option_map c !! "Todo") = false
            /\ UpdateStatus.option_map c !! "Backlog" = Some option_id))
    /\ (status_label = "status:in-progress" ->
        UpdateStatus.option_map c !! "In Progress" = Some option_id
        \/ (UpdateStatus.truthy_opt (UpdateStatus.option_map c !! "In Progress") = false
            /\ UpdateStatus.option_map c !! "In progress" = Some option_id))
    /\ (status_label = "status:done" ->
        UpdateStatus.option_map c !! "Done" = Some option_id).
Proof.
  intros Hsync.
  pose proof Hsync as (labels & nodes & it & oid & Hl & Hs & Hi & Hf & Hit & Ho & Hot & Hu).
  destruct (List.find_some _ _ Hf) as [Hin Hnum]. apply Z.eqb_eq in Hnum.
  assert (Hsplit : exists before after,
             nodes = before ++ it :: after
             /\ forall x, In x before ->
                  UpdateStatus.item_project_number x <> UpdateStatus.PROJECT_NUMBER c).
  { clear Hi Hin. induction nodes as [|x rest IH]; [discriminate Hf|].
    simpl in Hf.
    destruct (Z.eqb_spec (UpdateStatus.item_project_number x)
                (UpdateStatus.PROJECT_NUMBER c)) as [Heq|Hne].
    - injection Hf as ->. exists [], rest. split; [reflexivity|]. intros y [].
    - destruct (IH Hf) as (before & after & -> & Hb).
      exists (x :: before), after. split; [reflexivity|].
      intros y [<-|Hy]; [exact Hne | now apply Hb]. }
  destruct Hsplit as (before & after & -> & Hbefore).
  exists it, oid, before, after.
  split.
  { unfold UpdateStatus.try_body, UpdateStatus.get_issue_labels,
      UpdateStatus.get_project_item_id, UpdateStatus.update_issue_status,
      UpdateStatus.sleep, UpdateStatus.bind, UpdateStatus.emit, UpdateStatus.ret.
    simpl.
    destruct (find_status_label_Some c labels status_label Hs) as [Ht _].
    rewrite Hl, Hs. simpl. rewrite Ht. simpl. rewrite Hi, Hf. simpl.
    rewrite Hit. simpl. rewrite Ho. simpl. rewrite Hot. simpl. now rewrite Hu. }
  split; [exact Hi|]. split; [exact Hnum|]. split; [exact Hbefore|].
  split; [exact Hot|].
  unfold UpdateStatus.LABEL_TO_STATUS, UpdateStatus.make_LABEL_TO_STATUS in Ho.
  split; [|split]; intros ->.
  - rewrite lookup_insert_ne, lookup_insert_ne, lookup_insert_eq in Ho by discriminate.
    injection Ho as Ho. unfold UpdateStatus.py_or in Ho.
    destruct (UpdateStatus.truthy_opt (UpdateStatus.option_map c !! "Todo")) eqn:Hto;
      [left | right]; auto.
  - rewrite lookup_insert_ne, lookup_insert_eq in Ho by discriminate.
    injection Ho as Ho. unfold UpdateStatus.py_or in Ho.
    destruct (UpdateStatus.truthy_opt (UpdateStatus.option_map c !! "In Progress"))
      eqn:Hto; [left | right]; auto.
  - rewrite lookup_insert_eq in Ho. now injection Ho as Ho.
Qed.

Lemma written_item_and_option_witness :
  exists it option_id,
    In (UpdateStatus.UpdateIssueStatus (UpdateStatus.item_id it) "PVT_1" "FIELD_1"
          option_id)
       (fst (UpdateStatus.try_body Scenario.five_issues Scenario.board_config 1 []))
    /\ UpdateStatus.item_project_number it = 4
    /\ PyStr.truthy option_id = true.
Proof.
  assert (Hsync : UpdateStatus.syncs Scenario.five_issues Scenario.board_config 1
                    "status:backlog").
  { exists ["type:bug"; "status:backlog"],
      [UpdateStatus.ProjectItem "PVTI_other" 9; UpdateStatus.ProjectItem "PVTI_here" 4],
      (UpdateStatus.ProjectItem "PVTI_here" 4), "opt_todo".
    repeat split; reflexivity. }
  destruct (written_item_and_option Scenario.five_issues Scenario.board_config 1
              "status:backlog" Hsync)
    as (it & oid & before & after & Htr & _ & Hnum & _ & Hot & _).
  exists it, oid. split; [|split; assumption].
  rewrite Htr. right. right. left. reflexivity.
Defined.

(** X6. [status:done] has no synonym: on a board without a usable option
    named exactly "Done", an issue whose status label is [status:done] is
    always an error and the board is never written for it. *)
Theorem done_needs_an_option_named_Done
    (r : UpdateStatus.remote) (c : UpdateStatus.config) (n : Z) (labels : list string) :
  UpdateStatus.truthy_opt (UpdateStatus.option_map c !! "Done") = false ->
  UpdateStatus.gh_issue_labels r n = Ok labels ->
  UpdateStatus.find_status_label c labels = Some "status:done" ->
  UpdateStatus.outcome_of r c n = UpdateStatus.Errored
  /\ UpdateStatus.count_calls UpdateStatus.is_mutation
       (fst (UpdateStatus.try_body r c n [])) = 0.
Proof.
  intros Hdone Hl Hs.
  unfold UpdateStatus.outcome_of, UpdateStatus.try_body, UpdateStatus.get_issue_labels,
    UpdateStatus.get_project_item_id, UpdateStatus.update_issue_status,
    UpdateStatus.sleep, UpdateStatus.bind, UpdateStatus.emit, UpdateStatus.ret.
  simpl. rewrite Hl, Hs. simpl.
  destruct (UpdateStatus.gh_project_items r n _ _) as [nodes|e]; [|now split].
  destruct (negb (UpdateStatus.truthy_opt _)); [now split|].
  unfold UpdateStatus.LABEL_TO_STATUS, UpdateStatus.make_LABEL_TO_STATUS.
  rewrite lookup_insert_eq. rewrite Hdone. now split.
Qed.

Lemma done_needs_an_option_named_Done_witness :
  UpdateStatus.outcome_of Scenario.five_issues Scenario.board_without_done 2
  = UpdateStatus.Errored.
Proof.
  apply (done_needs_an_option_named_Done Scenario.five_issues
           Scenario.board_without_done 2 ["status:done"]); reflexivity.
Defined.

(** ** select_issue.py: what the command prints and returns *)

Section SelectorOutput.
Import SelectIssue.
Variable gh : tracker.

Lemma for_priorities_stdout (ps : list string) (epic_filter : option string)
    (status : string) (owner repo : option string) (w : world) :
  stdout_lines (snd (for_priorities ps gh epic_filter status owner repo w))
  = stdout_lines w.
Proof.
  revert w. induction ps as [|p ps IH]; intros w; simpl; [reflexivity|].
  pose proof (select_next_issue_stdout gh epic_filter status owner repo p w) as H.
  destruct (select_next_issue _ _ _ _ _ _ _) as [[j|] w']; simpl in *;
    [exact H | now rewrite IH].
Qed.

Lemma choose_stdout (a : args) : stdout_lines (snd (choose gh a)) = [].
Proof.
  unfold choose. destruct (truthy_opt (arg_priority a)).
  - apply select_next_issue_stdout.
  - apply for_priorities_stdout.
Qed.

Lemma choose_logged (a : args) : failures_logged gh (snd (choose gh a)).
Proof.
  unfold choose. destruct (truthy_opt (arg_priority a)).
  - apply select_next_issue_logged. intros cmd e [].
  - apply for_priorities_logged. intros cmd e [].
Qed.

(** The lines [main] adds on the diagnostic stream come after those of the
    queries. *)
Lemma main_keeps_stderr (a : args) (line : string) :
  In line (stderr_lines (snd (choose gh a))) ->
  In line (stderr_lines (fst (main gh a))).
Proof.
  unfold main. destruct (choose gh a) as [[i|] w]; simpl.
  - destruct (assignees i); simpl; rewrite ?in_app_iff; tauto.
  - rewrite in_app_iff. tauto.
Qed.

Lemma main_found (a : args) (i : issue) :
  fst (choose gh a) = Some i ->
  snd (main gh a) = 0
  /\ stdout_lines (fst (main gh a)) = [PyStr.str_of_int (number i)].
Proof.
  intros Hi. pose proof (choose_stdout a) as Hout. unfold main.
  destruct (choose gh a) as [found w]. simpl in *. subst found.
  split; [reflexivity|]. destruct (assignees i); simpl; now rewrite Hout.
Qed.

Lemma main_keeps_calls (a : args) :
  calls (fst (main gh a)) = calls (snd (choose gh a)).
Proof.
  unfold main. destruct (choose gh a) as [[i|] w]; simpl; [|reflexivity].
  now destruct (assignees i).
Qed.
End SelectorOutput.

(** X7. Once [argparse] has accepted the command line, that is from line
    120 of [main] on, the run ends in one of two ways: an issue is selected,
    the exit status is 0 and standard output carries its number, alone; or
    none is selected, the exit status is 1 and nothing is written on
    standard output.  (The exits of [argparse] itself, on [--help] or on a
    command line it refuses, come before and are not covered.) *)
Theorem stdout_is_the_selected_number (gh : SelectIssue.tracker) (a : SelectIssue.args) :
  (exists i,
      fst (SelectIssue.choose gh a) = Some i
      /\ snd (SelectIssue.main gh a) = 0
      /\ SelectIssue.stdout_lines (fst (SelectIssue.main gh a))
         = [PyStr.str_of_int (SelectIssue.number i)])
  \/ (fst (SelectIssue.choose gh a) = None
      /\ snd (SelectIssue.main gh a) = 1
      /\ SelectIssue.stdout_lines (fst (SelectIssue.main gh a)) = []).
Proof.
  destruct (fst (SelectIssue.choose gh a)) as [i|] eqn:Hfound.
  - left. exists i. split; [reflexivity|]. now apply main_found.
  - right. split; [reflexivity|].
    pose proof (choose_stdout gh a) as Hout. unfold SelectIssue.main.
    destruct (SelectIssue.choose gh a) as [found w]. simpl in *. subst found.
    simpl. auto.
Qed.

(** X8. In the cascade a query that fails is passed over like an empty
    tier: when a later tier yields an issue, that issue is selected and the
    exit status is 0, the failure being visible only as an error line on the
    diagnostic stream. *)
Theorem failed_tier_is_passed_over
    (gh : SelectIssue.tracker) (a : SelectIssue.args)
    (before : list string) (p : string) (after : list string)
    (i : SelectIssue.issue) (rest : list SelectIssue.issue)
    (failing : string) (e : string) :
  let q p' := SelectIssue.build_cmd p' (SelectIssue.arg_epic a)
                (SelectIssue.arg_status a) (SelectIssue.arg_owner a)
                (SelectIssue.arg_repo a) in
  let cand := SelectIssue.candidates gh (SelectIssue.arg_epic a)
                (SelectIssue.arg_status a) (SelectIssue.arg_owner a)
                (SelectIssue.arg_repo a) in
  SelectIssue.truthy_opt (SelectIssue.arg_priority a) = false ->
  SelectIssue.PRIORITY_ORDER = before ++ p :: after ->
  (forall p', In p' before -> cand p' = []) ->
  cand p = i :: rest ->
  In failing before ->
  gh (q failing) = SelectIssue.CalledProcessError e ->
  snd (SelectIssue.main gh a) = 0
  /\ SelectIssue.stdout_lines (fst (SelectIssue.main gh a))
     = [PyStr.str_of_int (SelectIssue.number i)]
  /\ In ("❌ Error querying issues: " +:+ e)
        (SelectIssue.stderr_lines (fst (SelectIssue.main gh a))).
Proof.
  intros q cand Hauto Horder Hempty Hp Hin Hfail.
  assert (Hchoose : SelectIssue.choose gh a
                    = SelectIssue.select_with_fallback gh (SelectIssue.arg_epic a)
                        (SelectIssue.arg_status a) (SelectIssue.arg_owner a)
                        (SelectIssue.arg_repo a) SelectIssue.init).
  { unfold SelectIssue.choose. now rewrite Hauto. }
  destruct (for_priorities_first gh (SelectIssue.arg_epic a)
              (SelectIssue.arg_status a) (SelectIssue.arg_owner a)
              (SelectIssue.arg_repo a) before p after i rest SelectIssue.init
              Hempty Hp) as [Hres Hcalls].
  rewrite <- Horder in Hres, Hcalls.
  fold (SelectIssue.select_with_fallback gh (SelectIssue.arg_epic a)
          (SelectIssue.arg_status a) (SelectIssue.arg_owner a)
          (SelectIssue.arg_repo a) SelectIssue.init) in Hres, Hcalls.
  rewrite <- Hchoose in Hres, Hcalls. simpl in Hcalls.
  destruct (main_found gh a i Hres) as [Hexit Hout].
  split; [exact Hexit|]. split; [exact Hout|].
  apply main_keeps_stderr. apply (choose_logged gh a (q failing) e); [|exact Hfail].
  rewrite Hcalls. apply in_map. rewrite in_app_iff. now left.
Qed.

Lemma failed_tier_is_passed_over_witness :
  snd (SelectIssue.main Scenario.tracker_critical_down Scenario.args_default) = 0
  /\ SelectIssue.stdout_lines
       (fst (SelectIssue.main Scenario.tracker_critical_down Scenario.args_default))
     = ["21"]
  /\ In "❌ Error querying issues: HTTP 502"
        (SelectIssue.stderr_lines
           (fst (SelectIssue.main Scenario.tracker_critical_down
                   Scenario.args_default))).
Proof.
  apply (failed_tier_is_passed_over Scenario.tracker_critical_down
           Scenario.args_default ["critical"] "high" ["medium"; "low"]
           Scenario.high_issue [] "critical" "HTTP 502").
  - reflexivity.
  - reflexivity.
  - intros p' [<-|[]]. reflexivity.
  - reflexivity.
  - left. reflexivity.
  - reflexivity.
Defined.

(** *** The priority shown for the selected issue *)

Lemma replace_from_skip (a s old new : string) :
  SelectIssue.replace_from (a +:+ s) old new (String.length a)
  = SelectIssue.replace_from s old new O.
Proof.
  induction a as [|ch a IH]; simpl.
  - now destruct s.
  - exact IH.
Qed.

(** An occurrence at the front is replaced and the scan goes on after it. *)
Lemma replace_at_front (ch : ascii) (old' s new : string) :
  SelectIssue.replace (String ch old' +:+ s) (String ch old') new
  = new +:+ SelectIssue.replace s (String ch old') new.
Proof.
  unfold SelectIssue.replace.
  change (String ch old' +:+ s) with (String ch (old' +:+ s)).
  change (SelectIssue.replace_from (String ch (old' +:+ s)) (String ch old') new O)
    with (if String.prefix (String ch old') (String ch (old' +:+ s))
          then new +:+ SelectIssue.replace_from (old' +:+ s) (String ch old') new
                         (String.length (String ch old') - 1)%nat
          else String ch (SelectIssue.replace_from (old' +:+ s) (String ch old') new O)).
  change (String ch (old' +:+ s)) with (String ch old' +:+ s).
  rewrite prefix_append.
  replace (String.length (String ch old') - 1)%nat with (String.length old')
    by (simpl; lia).
  now rewrite replace_from_skip.
Qed.

(** Without occurrence nothing changes. *)
Lemma replace_absent (s old new : string) :
  PyStr.contains s old = false -> SelectIssue.replace s old new = s.
Proof.
  unfold SelectIssue.replace. induction s as [|ch s IH]; intros H; [reflexivity|].
  change (PyStr.contains (String ch s) old)
    with (String.prefix old (String ch s) || PyStr.contains s old) in H.
  apply orb_false_iff in H as [Hp Hc].
  change (SelectIssue.replace_from (String ch s) old new O)
    with (if String.prefix old (String ch s)
          then new +:+ SelectIssue.replace_from s old new (String.length old - 1)%nat
          else String ch (SelectIssue.replace_from s old new O)).
  rewrite Hp. f_equal. now apply IH.
Qed.

Lemma find_first_match {A : Type} (f : A -> bool) (before : list A) (x : A)
    (after : list A) :
  (forall y, In y before -> f y = false) -> f x = true ->
  List.find f (before ++ x :: after) = Some x.
Proof.
  intros Hb Hx. induction before as [|b before IH]; simpl.
  - now rewrite Hx.
  - rewrite (Hb b (or_introl eq_refl)). apply IH. intros y Hy. apply Hb. now right.
Qed.

(** X9. The priority shown on the diagnostic stream for the selected issue
    is the value of its first label that starts with [priority:], the same
    value [extract_label] decodes from these labels, provided the value does
    not itself contain [priority:]; the word [unknown] is shown when no
    label starts with [priority:]. *)
Theorem shown_priority_is_the_decoded_one
    (gh : SelectIssue.tracker) (a : SelectIssue.args) (i : SelectIssue.issue) :
  fst (SelectIssue.choose gh a) = Some i ->
  (forall before value after,
      SelectIssue.labels i = before ++ ("priority:" +:+ value) :: after ->
      (forall l, In l before -> PyStr.startswith l "priority:" = false) ->
      PyStr.contains value "priority:" = false ->
      In ("   Priority: " +:+ value)
         (SelectIssue.stderr_lines (fst (SelectIssue.main gh a)))
      /\ FetchIssue.extract_label
           (map (fun n => FetchIssue.Label (Some n)) (SelectIssue.labels i))
           "priority:" = Some value)
  /\ ((forall l, In l (SelectIssue.labels i) -> PyStr.startswith l "priority:" = false) ->
      In "   Priority: unknown"
         (SelectIssue.stderr_lines (fst (SelectIssue.main gh a)))).
Proof.
  intros Hfound.
  assert (Hline : forall shown,
             (match List.find (fun l => PyStr.startswith l "priority:")
                      (SelectIssue.labels i) with
              | Some l => SelectIssue.replace l "priority:" EmptyString
              | None => "unknown"
              end) = shown ->
             In ("   Priority: " +:+ shown)
                (SelectIssue.stderr_lines (fst (SelectIssue.main gh a)))).
  { intros shown Hshown. unfold SelectIssue.main.
    destruct (SelectIssue.choose gh a) as [found w]. simpl in Hfound. subst found.
    rewrite Hshown.
    destruct (SelectIssue.assignees i); simpl; rewrite ?in_app_iff; simpl; tauto. }
  split.
  - intros before value after Hlabels Hbefore Hvalue. split.
    + apply Hline. rewrite Hlabels.
      rewrite (find_first_match _ before ("priority:" +:+ value) after Hbefore)
        by (unfold PyStr.startswith; apply prefix_append).
      change ("priority:" +:+ value)
        with (String "p"%char "riority:" +:+ value).
      rewrite replace_at_front. simpl append at 1.
      now apply replace_absent.
    + rewrite Hlabels, map_app. simpl map.
      apply (extract_label_first "priority:"
               (map (fun n => FetchIssue.Label (Some n)) before)
               (FetchIssue.Label (Some ("priority:" +:+ value)))
               (map (fun n => FetchIssue.Label (Some n)) after) value);
        [|reflexivity].
      intros l' Hin. apply in_map_iff in Hin as (n & <- & Hn). simpl.
      now apply Hbefore.
  - intros Hnone. apply Hline.
    destruct (List.find _ (SelectIssue.labels i)) as [l|] eqn:Hf; [|reflexivity].
    apply List.find_some in Hf as [Hin Hl]. rewrite (Hnone l Hin) in Hl. discriminate.
Qed.

Lemma shown_priority_is_the_decoded_one_witness :
  In "   Priority: high"
     (SelectIssue.stderr_lines
        (fst (SelectIssue.main Scenario.tracker_critical_down Scenario.args_default))).
Proof.
  apply (proj1 (shown_priority_is_the_decoded_one Scenario.tracker_critical_down
                  Scenario.args_default Scenario.high_issue eq_refl)
           ["type:bug"] "high" ["status:backlog"]).
  - reflexivity.
  - intros l [<-|[]]. reflexivity.
  - reflexivity.
Defined.

(** ** fetch_issue.py: more on the criteria parser *)

Section ParserFacts.
Import FetchIssue.

(** The guard on the empty body changes nothing: the loop over the single
    empty line collects nothing. *)
Lemma parse_is_the_loop (body : string) :
  parse_acceptance_criteria body = for_lines (PyStr.split_lines body) false [].
Proof. unfold parse_acceptance_criteria. now destruct body. Qed.

Lemma for_lines_without_header (lines : list string) (c : list criterion) :
  (forall line, In line lines -> is_criteria_header line = false) ->
  for_lines lines false c = c.
Proof.
  induction lines as [|line rest IH]; intros H; [reflexivity|]. simpl.
  unfold loop_body. rewrite (H line (or_introl eq_refl)).
  apply IH. intros l Hin. apply H. now right.
Qed.

Lemma lower_marker (m : ascii) :
  (Ascii.eqb m " "%char || Ascii.eqb m "x"%char || Ascii.eqb m "X"%char) = true ->
  Ascii.eqb (PyStr.lower_char m) "x"%char
  = (Ascii.eqb m "x"%char || Ascii.eqb m "X"%char).
Proof.
  intros H. apply orb_true_iff in H as [H|H]; [apply orb_true_iff in H as [H|H]|];
    apply Ascii.eqb_eq in H; subst m; reflexivity.
Qed.

Lemma match_checkbox_marker (line : string) (m : ascii) (g : string) :
  match_checkbox line = Some (m, g) ->
  (Ascii.eqb m " "%char || Ascii.eqb m "x"%char || Ascii.eqb m "X"%char) = true.
Proof.
  unfold match_checkbox.
  destruct (PyStr.lstrip line) as [|c0 s0]; [discriminate|].
  destruct (Ascii.eqb_spec c0 "-"%char) as [->|Hne].
  - destruct (PyStr.lstrip s0) as [|c1 [|m' [|c2 tail]]]; try discriminate.
    + destruct c1 as [[] [] [] [] [] [] [] []]; discriminate.
    + destruct c1 as [[] [] [] [] [] [] [] []]; discriminate.
    + destruct (Ascii.eqb_spec c1 "["%char) as [->|Hne1];
        [|destruct c1 as [[] [] [] [] [] [] [] []]; try discriminate; now destruct Hne1].
      destruct (Ascii.eqb_spec c2 "]"%char) as [->|Hne2];
        [|destruct c2 as [[] [] [] [] [] [] [] []]; try discriminate; now destruct Hne2].
      destruct (Ascii.eqb m' " "%char || Ascii.eqb m' "x"%char || Ascii.eqb m' "X"%char)
        eqn:Hm; [|discriminate].
      destruct (PyStr.lstrip tail); [destruct (PyStr.last_char tail)|];
        intros H; inversion H; subst; exact Hm.
  - destruct c0 as [[] [] [] [] [] [] [] []]; try discriminate. now destruct Hne.
Qed.

Lemma for_lines_sound (lines : list string) (b : bool) (c : list criterion) (cr : criterion) :
  In cr (for_lines lines b c) -> In cr c \/ from_checkbox_line lines cr.
Proof.
  revert b c. induction lines as [|line rest IH]; intros b c Hin; [now left|].
  simpl in Hin. unfold loop_body in Hin.
  assert (Hrest : forall b' c', In cr (for_lines rest b' c') ->
                    In cr c' \/ from_checkbox_line (line :: rest) cr).
  { intros b' c' H. destruct (IH b' c' H) as [H'|(l & m & g & Hl & Hrest)];
      [now left|]. right. exists l, m, g. split; [now right | exact Hrest]. }
  destruct (is_criteria_header line) eqn:Hh; [now apply Hrest in Hin|].
  destruct b; [|now apply Hrest in Hin].
  destruct (match_checkbox line) as [[m g]|] eqn:Hm.
  - apply Hrest in Hin. destruct Hin as [Hin|Hin]; [|now right].
    apply in_app_iff in Hin as [Hin|[<-|[]]]; [now left|].
    right. exists line, m, g. simpl.
    repeat split; try assumption; try (now left).
    apply lower_marker. now apply (match_checkbox_marker line m g).
  - destruct (String.eqb (PyStr.strip line) EmptyString); [now apply Hrest in Hin|].
    destruct (PyStr.startswith line "#"); [now left | now apply Hrest in Hin].
Qed.

Lemma for_lines_length (lines : list string) (b : bool) (c : list criterion) :
  (List.length (for_lines lines b c)
   <= List.length c + (if b then List.length lines else Nat.pred (List.length lines)))%nat.
Proof.
  revert b c. induction lines as [|line rest IH]; intros b c.
  - simpl. destruct b; lia.
  - simpl for_lines. unfold loop_body.
    destruct (is_criteria_header line).
    + specialize (IH true c). simpl in *. destruct b; simpl; lia.
    + destruct b.
      * destruct (match_checkbox line) as [[m g]|].
        -- specialize (IH true (c ++ [Criterion (Ascii.eqb (PyStr.lower_char m) "x"%char)
                                        (PyStr.strip g)])).
           rewrite length_app in IH. simpl in *. lia.
        -- destruct (String.eqb (PyStr.strip line) EmptyString);
             [specialize (IH true c); simpl in *; lia|].
           destruct (PyStr.startswith line "#");
             [simpl; lia | specialize (IH true c); simpl in *; lia].
      * specialize (IH false c). simpl in *. lia.
Qed.
End ParserFacts.

(** X10. Nothing is collected from a body of ASCII characters none of
    whose lines contains "acceptance criteria" (in any letter case), and
    nothing from the empty body. *)
Theorem parse_without_header (body : string) :
  PyStr.is_ascii body = true ->
  (forall line, In line (PyStr.split_lines body) ->
                FetchIssue.is_criteria_header line = false) ->
  FetchIssue.parse_acceptance_criteria body = [].
Proof.
  intros _ H. rewrite parse_is_the_loop. now apply for_lines_without_header.
Qed.

Lemma parse_without_header_witness :
  FetchIssue.parse_acceptance_criteria EmptyString = []
  /\ FetchIssue.parse_acceptance_criteria ("- [ ] a" +:+ PyStr.LF +:+ "- [x] b") = [].
Proof.
  split; apply parse_without_header.
  - reflexivity.
  - intros line [<-|[]]. reflexivity.
  - reflexivity.
  - intros line [<-|[<-|[]]]; reflexivity.
Defined.

(** X11. For a body of ASCII characters, every collected criterion comes
    from a line of the body that matches the checkbox pattern and does not
    contain "acceptance criteria": its text is the matched text stripped, it
    is checked exactly when the mark is [x] or [X]; and there are fewer
    criteria than lines. *)
Theorem criteria_come_from_checkbox_lines (body : string) :
  PyStr.is_ascii body = true ->
  (forall cr, In cr (FetchIssue.parse_acceptance_criteria body) ->
     exists line m g,
       In line (PyStr.split_lines body)
       /\ FetchIssue.is_criteria_header line = false
       /\ FetchIssue.match_checkbox line = Some (m, g)
       /\ FetchIssue.text cr = PyStr.strip g
       /\ FetchIssue.checked cr = (Ascii.eqb m "x"%char || Ascii.eqb m "X"%char))
  /\ (List.length (FetchIssue.parse_acceptance_criteria body)
      < List.length (PyStr.split_lines body))%nat.
Proof.
  intros _. rewrite parse_is_the_loop. split.
  - intros cr Hin. destruct (for_lines_sound _ _ _ _ Hin) as [[]|H]. exact H.
  - pose proof (for_lines_length (PyStr.split_lines body) false []) as H.
    pose proof (split_lines_nonempty body) as Hne.
    destruct (PyStr.split_lines body); [contradiction|]. simpl in *. lia.
Qed.

Lemma criteria_come_from_checkbox_lines_witness :
  (List.length (FetchIssue.parse_acceptance_criteria Scenario.body_with_prose)
   < List.length (PyStr.split_lines Scenario.body_with_prose))%nat
  /\ exists line m g,
       In line (PyStr.split_lines Scenario.body_with_prose)
       /\ FetchIssue.match_checkbox line = Some (m, g)
       /\ "second" = PyStr.strip g.
Proof.
  destruct (criteria_come_from_checkbox_lines Scenario.body_with_prose eq_refl)
    as [Hsound Hlen].
  split; [exact Hlen|].
  destruct (Hsound (FetchIssue.Criterion false "second"))
    as (line & m & g & H1 & _ & H3 & H4 & _).
  - vm_compute. right. left. reflexivity.
  - exists line, m, g. split; [exact H1|]. split; [exact H3 | exact H4].
Defined.

(** *** Stripping *)

Lemma lstrip_idempotent (s : string) : PyStr.lstrip (PyStr.lstrip s) = PyStr.lstrip s.
Proof.
  induction s as [|ch s IH]; [reflexivity|]. simpl.
  destruct (PyStr.isspace ch) eqn:Hc; [exact IH|]. simpl. now rewrite Hc.
Qed.

Lemma rstrip_idempotent (s : string) : PyStr.rstrip (PyStr.rstrip s) = PyStr.rstrip s.
Proof.
  induction s as [|ch s IH]; [reflexivity|]. simpl.
  destruct (PyStr.rstrip s) as [|d t] eqn:Hr.
  - destruct (PyStr.isspace ch) eqn:Hc; [reflexivity|]. simpl. now rewrite Hc.
  - change (PyStr.rstrip (String ch (String d t)))
      with (match PyStr.rstrip (String d t) with
            | EmptyString => if PyStr.isspace ch then EmptyString else String ch EmptyString
            | r' => String ch r'
            end).
    now rewrite IH.
Qed.

(** Stripping on the right leaves the first character in place. *)
Lemma lstrip_rstrip (s : string) :
  PyStr.lstrip s = s -> PyStr.lstrip (PyStr.rstrip s) = PyStr.rstrip s.
Proof.
  destruct s as [|ch s]; [reflexivity|]. intros H. simpl in H.
  destruct (PyStr.isspace ch) eqn:Hc.
  - exfalso. assert (Hlen : String.length (PyStr.lstrip s) = S (String.length s))
      by now rewrite H.
    assert (Hle : forall t, (String.length (PyStr.lstrip t) <= String.length t)%nat).
    { induction t as [|d t IHt]; simpl; [lia|]. destruct (PyStr.isspace d); simpl; lia. }
    specialize (Hle s). lia.
  - simpl. destruct (PyStr.rstrip s); rewrite ?Hc; simpl; now rewrite Hc.
Qed.

Lemma strip_has_no_outer_space (s : string) :
  PyStr.lstrip (PyStr.strip s) = PyStr.strip s
  /\ PyStr.rstrip (PyStr.strip s) = PyStr.strip s.
Proof.
  unfold PyStr.strip. split.
  - apply lstrip_rstrip. apply lstrip_idempotent.
  - apply rstrip_idempotent.
Qed.

(** *** ASCII text stays ASCII *)

Lemma is_ascii_cons (c : ascii) (s : string) :
  PyStr.is_ascii (String c s) = true ->
  PyStr.is_ascii (String c EmptyString) = true /\ PyStr.is_ascii s = true.
Proof.
  simpl. intros H. apply andb_true_iff in H as [Hc Hs]. now rewrite Hc, Hs.
Qed.

Lemma split_lines_ascii (s : string) :
  PyStr.is_ascii s = true ->
  forall line, In line (PyStr.split_lines s) -> PyStr.is_ascii line = true.
Proof.
  induction s as [|c s IH]; intros Hs line Hin.
  - destruct Hin as [<-|[]]. reflexivity.
  - simpl in Hs. apply andb_true_iff in Hs as [Hc Hs]. specialize (IH Hs).
    simpl in Hin. destruct (Ascii.eqb c PyStr.LF_char).
    + destruct Hin as [<-|Hin]; [reflexivity | now apply IH].
    + destruct (PyStr.split_lines s) as [|l ls].
      * destruct Hin as [<-|[]]. simpl. now rewrite Hc.
      * destruct Hin as [<-|Hin].
        -- simpl. rewrite Hc. apply IH. now left.
        -- apply IH. now right.
Qed.

Lemma lstrip_ascii (s : string) :
  PyStr.is_ascii s = true -> PyStr.is_ascii (PyStr.lstrip s) = true.
Proof.
  induction s as [|c s IH]; intros Hs; [reflexivity|]. simpl.
  destruct (PyStr.isspace c); [|exact Hs].
  apply IH. now apply is_ascii_cons in Hs.
Qed.

Lemma rstrip_ascii (s : string) :
  PyStr.is_ascii s = true -> PyStr.is_ascii (PyStr.rstrip s) = true.
Proof.
  induction s as [|c s IH]; intros Hs; [reflexivity|].
  apply is_ascii_cons in Hs as [Hc Hs]. specialize (IH Hs). simpl.
  destruct (PyStr.rstrip s) as [|d r].
  - now destruct (PyStr.isspace c).
  - simpl in Hc. apply andb_true_iff in Hc as [Hc _].
    change (PyStr.is_ascii (String c (String d r)))
      with ((nat_of_ascii c <? 128)%nat && PyStr.is_ascii (String d r)).
    now rewrite Hc, IH.
Qed.

Lemma last_char_ascii (s : string) (c : ascii) :
  PyStr.is_ascii s = true -> PyStr.last_char s = Some c ->
  PyStr.is_ascii (String c EmptyString) = true.
Proof.
  induction s as [|d s IH]; intros Hs Hl; [discriminate Hl|].
  apply is_ascii_cons in Hs as [Hd Hs]. destruct s as [|e s'].
  - simpl in Hl. injection Hl as <-. exact Hd.
  - now apply IH.
Qed.

(** How a line that matches the checkbox pattern is made. *)
Lemma match_checkbox_inv (line : string) (m : ascii) (g : string) :
  FetchIssue.match_checkbox line = Some (m, g) ->
  exists after tail,
    PyStr.lstrip line = String "-"%char after
    /\ PyStr.lstrip after = String "["%char (String m (String "]"%char tail))
    /\ (g = PyStr.lstrip tail
        \/ exists c, PyStr.last_char tail = Some c /\ g = String c EmptyString).
Proof.
  unfold FetchIssue.match_checkbox.
  destruct (PyStr.lstrip line) as [|c0 s0]; [discriminate|].
  destruct (Ascii.eqb_spec c0 "-"%char) as [->|Hne].
  - destruct (PyStr.lstrip s0) as [|c1 [|m' [|c2 tail]]] eqn:H1; try discriminate.
    + destruct c1 as [[] [] [] [] [] [] [] []]; discriminate.
    + destruct c1 as [[] [] [] [] [] [] [] []]; discriminate.
    + destruct (Ascii.eqb_spec c1 "["%char) as [->|Hne1];
        [|destruct c1 as [[] [] [] [] [] [] [] []]; try discriminate; now destruct Hne1].
      destruct (Ascii.eqb_spec c2 "]"%char) as [->|Hne2];
        [|destruct c2 as [[] [] [] [] [] [] [] []]; try discriminate; now destruct Hne2].
      destruct (Ascii.eqb m' " "%char || Ascii.eqb m' "x"%char || Ascii.eqb m' "X"%char);
        [|discriminate].
      destruct (PyStr.lstrip tail) as [|d r] eqn:Ht.
      * destruct (PyStr.last_char tail) as [c|] eqn:Hl; [|discriminate].
        intros H. inversion H; subst. exists s0, tail.
        split; [reflexivity|]. split; [exact H1|]. right. now exists c.
      * intros H. inversion H; subst. exists s0, tail.
        split; [reflexivity|]. split; [exact H1|]. left. now rewrite Ht.
  - destruct c0 as [[] [] [] [] [] [] [] []]; try discriminate. now destruct Hne.
Qed.

Lemma match_checkbox_ascii (line : string) (m : ascii) (g : string) :
  PyStr.is_ascii line = true ->
  FetchIssue.match_checkbox line = Some (m, g) ->
  PyStr.is_ascii g = true.
Proof.
  intros Hline Hm.
  destruct (match_checkbox_inv line m g Hm) as (after & tail & H0 & H1 & Hg).
  apply lstrip_ascii in Hline. rewrite H0 in Hline.
  apply is_ascii_cons in Hline as [_ Hafter].
  apply lstrip_ascii in Hafter. rewrite H1 in Hafter.
  apply is_ascii_cons in Hafter as [_ Hafter].
  apply is_ascii_cons in Hafter as [_ Hafter].
  apply is_ascii_cons in Hafter as [_ Htail].
  destruct Hg as [->|(c & Hl & ->)].
  - now apply lstrip_ascii.
  - now apply (last_char_ascii tail).
Qed.

(** What a stripped text looks like at its ends. *)
Lemma lstrip_length (s : string) :
  (String.length (PyStr.lstrip s) <= String.length s)%nat.
Proof.
  induction s as [|c s IH]; simpl; [lia|]. destruct (PyStr.isspace c); simpl; lia.
Qed.

Lemma lstrip_fixed_head (c : ascii) (r : string) :
  PyStr.lstrip (String c r) = String c r -> PyStr.isspace c = false.
Proof.
  simpl. destruct (PyStr.isspace c); [|reflexivity]. intros H.
  pose proof (lstrip_length r) as Hle. rewrite H in Hle. simpl in Hle. lia.
Qed.

Lemma rstrip_length (s : string) :
  (String.length (PyStr.rstrip s) <= String.length s)%nat.
Proof.
  induction s as [|c s IH]; simpl; [lia|].
  destruct (PyStr.rstrip s); [destruct (PyStr.isspace c)|]; simpl in *; lia.
Qed.

Lemma rstrip_fixed_last (s : string) (c : ascii) :
  PyStr.rstrip s = s -> PyStr.last_char s = Some c -> PyStr.isspace c = false.
Proof.
  induction s as [|d s IH]; intros Hr Hl; [discriminate Hl|].
  destruct s as [|e s'].
  - simpl in Hl. injection Hl as <-. simpl in Hr.
    now destruct (PyStr.isspace d).
  - apply IH; [|exact Hl].
    change (PyStr.rstrip (String d (String e s')))
      with (match PyStr.rstrip (String e s') with
            | EmptyString => if PyStr.isspace d then EmptyString else String d EmptyString
            | r' => String d r'
            end) in Hr.
    destruct (PyStr.rstrip (String e s')) as [|x r'].
    + destruct (PyStr.isspace d); discriminate Hr.
    + injection Hr as Hx Hr'. now rewrite Hx, Hr'.
Qed.

(** X12. In a body of ASCII characters, the text of a collected criterion
    is made of ASCII characters and neither its first nor its last character
    is whitespace. *)
Theorem criteria_texts_are_stripped (body : string) (cr : FetchIssue.criterion) :
  PyStr.is_ascii body = true ->
  In cr (FetchIssue.parse_acceptance_criteria body) ->
  PyStr.is_ascii (FetchIssue.text cr) = true
  /\ (forall c r, FetchIssue.text cr = String c r -> PyStr.isspace c = false)
  /\ (forall c, PyStr.last_char (FetchIssue.text cr) = Some c ->
                PyStr.isspace c = false).
Proof.
  intros Hbody. rewrite parse_is_the_loop. intros Hin.
  destruct (for_lines_sound _ _ _ _ Hin)
    as [[]|(line & m & g & Hline & _ & Hm & Htext & _)].
  rewrite Htext. destruct (strip_has_no_outer_space g) as [Hl Hr].
  split; [|split].
  - unfold PyStr.strip. apply rstrip_ascii, lstrip_ascii.
    apply (match_checkbox_ascii line m g); [|exact Hm].
    now apply (split_lines_ascii body).
  - intros c r Heq. rewrite Heq in Hl. now apply (lstrip_fixed_head c r).
  - intros c Hlast. now apply (rstrip_fixed_last (PyStr.strip g)).
Qed.

Lemma criteria_texts_are_stripped_witness :
  In (FetchIssue.Criterion true "first")
     (FetchIssue.parse_acceptance_criteria Scenario.body_with_prose)
  /\ PyStr.is_ascii "first" = true
  /\ (forall c, PyStr.last_char "first" = Some c -> PyStr.isspace c = false).
Proof.
  assert (Hin : In (FetchIssue.Criterion true "first")
                   (FetchIssue.parse_acceptance_criteria Scenario.body_with_prose))
    by (vm_compute; left; reflexivity).
  destruct (criteria_texts_are_stripped Scenario.body_with_prose
              (FetchIssue.Criterion true "first") eq_refl Hin) as (Ha & _ & Hl).
  split; [exact Hin|]. split; [exact Ha | exact Hl].
Defined.

(** *** Lines that are read and ignored *)

Section IgnoredLines.
Import FetchIssue.

Lemma loop_body_ignored (line : string) (b : bool) (c : list criterion) :
  is_criteria_header line = false ->
  match_checkbox line = None ->
  PyStr.startswith line "#" = false ->
  loop_body line b c = Continue b c.
Proof.
  intros Hh Hm Hs. unfold loop_body. rewrite Hh, Hm, Hs.
  destruct b; [|reflexivity]. now destruct (String.eqb _ _).
Qed.

Lemma for_lines_skip (pre : list string) (line : string) (post : list string) :
  (forall b c, loop_body line b c = Continue b c) ->
  for_lines (pre ++ line :: post) false [] = for_lines (pre ++ post) false [].
Proof.
  intros H. rewrite !for_lines_app.
  destruct (scan_prefix pre (Continue false [])) as [b c|c]; [|reflexivity].
  simpl. now rewrite H.
Qed.

Lemma isspace_not_a (ch : ascii) :
  PyStr.isspace ch = true -> PyStr.lower_char ch <> "a"%char.
Proof.
  destruct ch as [[] [] [] [] [] [] [] []]; vm_compute; intros H;
    try discriminate H; discriminate.
Qed.

(** A line of whitespace is no header. *)
Lemma blank_not_header (line : string) :
  PyStr.lstrip line = EmptyString -> is_criteria_header line = false.
Proof.
  unfold is_criteria_header. induction line as [|ch line IH]; intros H; [reflexivity|].
  simpl in H. destruct (PyStr.isspace ch) eqn:Hc; [|discriminate H].
  simpl PyStr.lower.
  change (PyStr.contains (String (PyStr.lower_char ch) (PyStr.lower line))
            "acceptance criteria")
    with (String.prefix "acceptance criteria"
            (String (PyStr.lower_char ch) (PyStr.lower line))
          || PyStr.contains (PyStr.lower line) "acceptance criteria").
  rewrite (IH H), orb_false_r.
  change (String.prefix "acceptance criteria"
            (String (PyStr.lower_char ch) (PyStr.lower line)))
    with (if ascii_dec "a"%char (PyStr.lower_char ch)
          then String.prefix "cceptance criteria" (PyStr.lower line) else false).
  destruct (ascii_dec "a"%char (PyStr.lower_char ch)) as [Heq|_]; [|reflexivity].
  exfalso. now apply (isspace_not_a ch Hc).
Qed.

Lemma strip_empty (line : string) :
  PyStr.strip line = EmptyString -> PyStr.lstrip line = EmptyString.
Proof.
  unfold PyStr.strip. intros H.
  pose proof (lstrip_idempotent line) as Hi.
  destruct (PyStr.lstrip line) as [|ch s]; [reflexivity|]. exfalso.
  simpl in Hi. destruct (PyStr.isspace ch) eqn:Hc.
  - assert (Hle : forall t, (String.length (PyStr.lstrip t) <= String.length t)%nat).
    { induction t as [|d t IHt]; simpl; [lia|]. destruct (PyStr.isspace d); simpl; lia. }
    specialize (Hle s). rewrite Hi in Hle. simpl in Hle. lia.
  - simpl in H. destruct (PyStr.rstrip s); [rewrite Hc in H|]; discriminate H.
Qed.

Lemma loop_body_blank (line : string) (b : bool) (c : list criterion) :
  PyStr.strip line = EmptyString -> loop_body line b c = Continue b c.
Proof.
  intros H. pose proof (strip_empty line H) as Hl.
  unfold loop_body. rewrite (blank_not_header line Hl).
  destruct b; [|reflexivity].
  unfold match_checkbox. rewrite Hl, H. reflexivity.
Qed.
End IgnoredLines.

(** X13. In a body of ASCII characters, inside and outside the criteria
    section, a line that is neither a header nor a checkbox item nor a
    heading is read and ignored: the result is the same as for the body
    without that line.  Lines made of whitespace are of this kind, so a
    blank line never ends the section. *)
Theorem prose_and_blank_lines_are_ignored
    (body body' : string) (pre : list string) (line : string) (post : list string) :
  PyStr.is_ascii body = true ->
  PyStr.is_ascii body' = true ->
  PyStr.split_lines body = pre ++ line :: post ->
  PyStr.split_lines body' = pre ++ post ->
  (FetchIssue.is_criteria_header line = false
   /\ FetchIssue.match_checkbox line = None
   /\ PyStr.startswith line "#" = false)
  \/ PyStr.strip line = EmptyString ->
  FetchIssue.parse_acceptance_criteria body
  = FetchIssue.parse_acceptance_criteria body'.
Proof.
  intros _ _ Hb Hb' Hline. rewrite !parse_is_the_loop, Hb, Hb'.
  apply for_lines_skip. intros b c.
  destruct Hline as [(Hh & Hm & Hs)|Hblank].
  - now apply loop_body_ignored.
  - now apply loop_body_blank.
Qed.

Lemma prose_and_blank_lines_are_ignored_witness :
  FetchIssue.parse_acceptance_criteria Scenario.body_with_prose
  = FetchIssue.parse_acceptance_criteria Scenario.body_without_prose.
Proof.
  apply (prose_and_blank_lines_are_ignored Scenario.body_with_prose
           Scenario.body_without_prose
           ["Intro"; "### Acceptance criteria:"] "Some prose"
           ["  "; "- [X]  first  "; "* not a box"; "-[ ] second"]).
  - reflexivity.
  - reflexivity.
  - reflexivity.
  - reflexivity.
  - left. repeat split; reflexivity.
Defined.

(** ** fetch_issue.py: the label codec, validation and the command *)

Lemma prefix_split (p s : string) :
  String.prefix p s = true -> s = p +:+ PyStr.drop (String.length p) s.
Proof.
  revert s. induction p as [|ch p IH]; intros s H.
  - now destruct s.
  - destruct s as [|d s]; [discriminate H|].
    change (String.prefix (String ch p) (String d s))
      with (if ascii_dec ch d then String.prefix p s else false) in H.
    destruct (ascii_dec ch d) as [<-|]; [|discriminate H].
    change (String ch s = String ch (p +:+ PyStr.drop (String.length p) s)).
    f_equal. now apply IH.
Qed.

Lemma extract_label_Some_inv (labels : list FetchIssue.label) (prefix value : string) :
  FetchIssue.extract_label labels prefix = Some value ->
  exists before l after,
    labels = before ++ l :: after
    /\ FetchIssue.get_name l = prefix +:+ value
    /\ (forall b, In b before ->
          PyStr.startswith (FetchIssue.get_name b) prefix = false).
Proof.
  induction labels as [|x rest IH]; [discriminate|]. simpl.
  destruct (PyStr.startswith (FetchIssue.get_name x) prefix) eqn:Hx.
  - intros H. injection H as <-. exists [], x, rest.
    split; [reflexivity|]. split; [|intros b []].
    apply prefix_split. exact Hx.
  - intros H. destruct (IH H) as (before & l & after & -> & Hname & Hb).
    exists (x :: before), l, after. split; [reflexivity|]. split; [exact Hname|].
    intros b [<-|Hin]; [exact Hx | now apply Hb].
Qed.

Lemma extract_label_None_inv (labels : list FetchIssue.label) (prefix : string) :
  FetchIssue.extract_label labels prefix = None ->
  forall l, In l labels -> PyStr.startswith (FetchIssue.get_name l) prefix = false.
Proof.
  induction labels as [|x rest IH]; [intros _ l []|]. simpl.
  destruct (PyStr.startswith (FetchIssue.get_name x) prefix) eqn:Hx; [discriminate|].
  intros H l [<-|Hin]; [exact Hx | now apply IH].
Qed.

(** X14. An answer of the label codec always comes from a label: the
    prefix followed by the answer is the name of the first label that starts
    with the prefix.  The answer is absent only when no label starts with
    the prefix. *)
Theorem extract_label_sound (labels : list FetchIssue.label) (prefix : string) :
  (forall value,
      FetchIssue.extract_label labels prefix = Some value ->
      exists before l after,
        labels = before ++ l :: after
        /\ FetchIssue.get_name l = prefix +:+ value
        /\ (forall b, In b before ->
              PyStr.startswith (FetchIssue.get_name b) prefix = false))
  /\ (FetchIssue.extract_label labels prefix = None ->
      forall l, In l labels ->
        PyStr.startswith (FetchIssue.get_name l) prefix = false).
Proof.
  split; [apply extract_label_Some_inv | apply extract_label_None_inv].
Qed.

Lemma extract_label_sound_witness :
  exists before l after,
    Scenario.labels_several = before ++ l :: after
    /\ FetchIssue.get_name l = "priority:high".
Proof.
  destruct (proj1 (extract_label_sound Scenario.labels_several "priority:")
              "high" eq_refl) as (before & l & after & H1 & H2 & _).
  exists before, l, after. split; assumption.
Defined.

(** X15. An issue is valid exactly when its state is the string [OPEN].
    There are at most five warnings, and none exactly when the issue is not
    closed, has no assignee, has at least one criterion and has a non-empty
    epic and a non-empty priority. *)
Theorem validate_issue_warnings (i : FetchIssue.issue) :
  (fst (FetchIssue.validate_issue i) = true <-> FetchIssue.state i = "OPEN")
  /\ (List.length (snd (FetchIssue.validate_issue i)) <= 5)%nat
  /\ (snd (FetchIssue.validate_issue i) = []
      <-> FetchIssue.state i <> "CLOSED"
          /\ FetchIssue.assignees i = []
          /\ FetchIssue.acceptance_criteria i <> []
          /\ FetchIssue.truthy_opt (FetchIssue.epic i) = true
          /\ FetchIssue.truthy_opt (FetchIssue.priority i) = true).
Proof.
  unfold FetchIssue.validate_issue. simpl.
  split; [apply String.eqb_eq|].
  destruct (String.eqb_spec (FetchIssue.state i) "CLOSED") as [Hc|Hc];
    destruct (FetchIssue.assignees i) as [|a0 al];
    destruct (FetchIssue.acceptance_criteria i) as [|c0 cl];
    destruct (FetchIssue.truthy_opt (FetchIssue.epic i));
    destruct (FetchIssue.truthy_opt (FetchIssue.priority i));
    simpl; (split; [lia|]); split; intros H;
    try discriminate H; try tauto;
    try (repeat split; first [assumption | reflexivity | discriminate]);
    try (destruct H as (H1 & H2 & H3 & H4 & H5);
         first [contradiction | discriminate | congruence]).
Qed.




Lemma append_empty (s : string) : s +:+ EmptyString = s.
Proof.
  induction s as [|ch s IH]; [reflexivity|].
  change (String ch s +:+ EmptyString) with (String ch (s +:+ EmptyString)).
  now rewrite IH.
Qed.

Lemma missing_label_warnings (i : FetchIssue.issue) :
  (In "⚠️  No epic label found" (snd (FetchIssue.validate_issue i))
   <-> FetchIssue.truthy_opt (FetchIssue.epic i) = false)
  /\ (In "⚠️  No priority label found" (snd (FetchIssue.validate_issue i))
      <-> FetchIssue.truthy_opt (FetchIssue.priority i) = false).
Proof.
  unfold FetchIssue.validate_issue. simpl.
  destruct (String.eqb (FetchIssue.state i) "CLOSED");
    destruct (FetchIssue.assignees i) as [|a0 al];
    destruct (FetchIssue.acceptance_criteria i) as [|c0 cl];
    destruct (FetchIssue.truthy_opt (FetchIssue.epic i));
    destruct (FetchIssue.truthy_opt (FetchIssue.priority i));
    simpl; split; split; intros H; try reflexivity; try discriminate H;
    try (repeat (destruct H as [H|H]; [discriminate H|]); destruct H);
    tauto.
Qed.

Lemma decoded_value_is_empty (labels : list FetchIssue.label) (prefix : string) :
  FetchIssue.truthy_opt (FetchIssue.extract_label labels prefix) = false
  <-> (forall l, In l labels ->
         PyStr.startswith (FetchIssue.get_name l) prefix = false)
      \/ (exists before l after,
             labels = before ++ l :: after
             /\ (forall b, In b before ->
                   PyStr.startswith (FetchIssue.get_name b) prefix = false)
             /\ FetchIssue.get_name l = prefix).
Proof.
  split.
  - destruct (FetchIssue.extract_label labels prefix) as [value|] eqn:He.
    + intros Ht. right.
      destruct (extract_label_Some_inv labels prefix value He)
        as (before & l & after & Hl & Hname & Hb).
      destruct value; [|discriminate Ht].
      exists before, l, after. split; [exact Hl|]. split; [exact Hb|].
      rewrite Hname. apply append_empty.
    + intros _. left. now apply extract_label_None_inv.
  - intros [Hnone|(before & l & after & -> & Hb & Hname)].
    + now rewrite (extract_label_none prefix labels Hnone).
    + assert (Hname' : FetchIssue.get_name l = prefix +:+ EmptyString).
      { now rewrite append_empty. }
      now rewrite (extract_label_first prefix before l after EmptyString Hb Hname').
Qed.

(** X17. For a fetched issue the warning about a missing epic is given
    exactly when no label starts with [epic:] or the first label that does
    is [epic:] itself, with nothing after the colon; later labels such as
    [epic:billing] do not make up for it.  The same holds for the priority
    warning and [priority:]. *)
Theorem missing_label_warning_iff (raw : FetchIssue.raw_issue) :
  let labels := FetchIssue.raw_labels raw in
  let warnings := snd (FetchIssue.validate_issue (FetchIssue.structure raw)) in
  let undecodable prefix :=
    (forall l, In l labels -> PyStr.startswith (FetchIssue.get_name l) prefix = false)
    \/ (exists before l after,
           labels = before ++ l :: after
           /\ (forall b, In b before ->
                 PyStr.startswith (FetchIssue.get_name b) prefix = false)
           /\ FetchIssue.get_name l = prefix) in
  (In "⚠️  No epic label found" warnings <-> undecodable "epic:")
  /\ (In "⚠️  No priority label found" warnings <-> undecodable "priority:").
Proof.
  intros labels warnings undecodable. subst warnings undecodable labels.
  destruct (missing_label_warnings (FetchIssue.structure raw)) as [He Hp].
  split.
  - rewrite He. apply decoded_value_is_empty.
  - rewrite Hp. apply decoded_value_is_empty.
Qed.

Lemma missing_label_warning_witness :
  In "⚠️  No epic label found"
     (snd (FetchIssue.validate_issue (FetchIssue.structure Scenario.raw_empty_epic))).
Proof.
  apply (proj1 (missing_label_warning_iff Scenario.raw_empty_epic)).
  right. exists [FetchIssue.Label (Some "type:bug")], (FetchIssue.Label (Some "epic:")),
    [FetchIssue.Label (Some "epic:billing")].
  split; [reflexivity|]. split; [|reflexivity].
  intros b [<-|[]]. reflexivity.
Defined.

(** ** create_issues.py *)

Section BulkCreation.
Import CreateIssues.
Variable gh : list string -> gh_answer.

Let good (cmd : list string) : bool := gives_url (gh cmd).
Let count_good (cmds : list (list string)) : Z :=
  Z.of_nat (List.length (List.filter good cmds)).

Lemma commands_app (a b : list event) : commands (a ++ b) = commands a ++ commands b.
Proof. unfold commands. apply flat_map_app. Qed.

Lemma sleeps_app (a b : list event) : sleeps (a ++ b) = sleeps a + sleeps b.
Proof. unfold sleeps. rewrite List.filter_app, length_app. lia. Qed.

(** One issue: one command, two lines, one sleep, one counter. *)
Lemma issue_step_spec (g : epic_group) (st : tally) (i : new_issue) :
  exists line1 line2,
    issue_step gh g st i
    = Tally (created st + (if good (cmd_of g i) then 1 else 0))
            (failed st + (if good (cmd_of g i) then 0 else 1))
            (trace st ++ [Run (cmd_of g i); Print line1; Print line2; Sleep])
    /\ (forall out, gh (cmd_of g i) = Completed out ->
                    line1 = "✅ Created: " +:+ title i)
    /\ (forall e, gh (cmd_of g i) = CalledProcessError e ->
                  line1 = "❌ Failed to create: " +:+ title i).
Proof.
  unfold issue_step, create_issue, good, gives_url.
  fold (cmd_of g i). destruct (gh (cmd_of g i)) as [out|e]; simpl.
  - exists ("✅ Created: " +:+ title i), ("   URL: " +:+ PyStr.strip out).
    split; [|split; [reflexivity | discriminate]].
    destruct (PyStr.truthy (PyStr.strip out)); f_equal; try lia;
      now rewrite <- app_assoc.
  - exists ("❌ Failed to create: " +:+ title i), ("   Error: " +:+ e).
    split; [|split; [discriminate | reflexivity]].
    f_equal; try lia. now rewrite <- app_assoc.
Qed.

Lemma issues_fold_spec (g : epic_group) (todo : list new_issue) (st : tally) :
  let st' := fold_left (issue_step gh g) todo st in
  commands (trace st') = commands (trace st) ++ map (cmd_of g) todo
  /\ created st' = created st + count_good (map (cmd_of g) todo)
  /\ created st' + failed st'
     = created st + failed st + Z.of_nat (List.length todo)
  /\ sleeps (trace st') = sleeps (trace st) + Z.of_nat (List.length todo)
  /\ (forall e, In e (trace st) -> In e (trace st'))
  /\ (forall i, In i todo ->
        exists line, In (Print line) (trace st')
          /\ (forall out, gh (cmd_of g i) = Completed out ->
                          line = "✅ Created: " +:+ title i)
          /\ (forall e, gh (cmd_of g i) = CalledProcessError e ->
                        line = "❌ Failed to create: " +:+ title i)).
Proof.
  revert st. induction todo as [|i rest IH]; intros st; cbv zeta.
  - simpl. unfold count_good. simpl. rewrite app_nil_r.
    repeat split; auto; try lia; try (now intros ? []).
  - simpl fold_left.
    destruct (issue_step_spec g st i) as (l1 & l2 & Hstep & Hok & Hko).
    rewrite Hstep.
    destruct (IH (Tally (created st + (if good (cmd_of g i) then 1 else 0))
                    (failed st + (if good (cmd_of g i) then 0 else 1))
                    (trace st ++ [Run (cmd_of g i); Print l1; Print l2; Sleep])))
      as (Hc & Hcr & Hsum & Hsl & Hmono & Hpr).
    simpl in Hc, Hcr, Hsum, Hsl, Hmono.
    rewrite commands_app in Hc. rewrite sleeps_app in Hsl.
    split; [|split; [|split; [|split; [|split]]]].
    + rewrite Hc. simpl. rewrite <- app_assoc. reflexivity.
    + rewrite Hcr. unfold count_good. simpl.
      destruct (good (cmd_of g i)); simpl List.length; lia.
    + rewrite Hsum. simpl List.length. destruct (good (cmd_of g i)); lia.
    + rewrite Hsl. simpl List.length. unfold sleeps at 2. simpl. lia.
    + intros e He. apply Hmono. rewrite in_app_iff. now left.
    + intros j [<-|Hj]; [|now apply Hpr].
      exists l1. split; [|split; assumption].
      apply Hmono. rewrite in_app_iff. right. right. now left.
Qed.

Lemma total_issues_from (groups : list epic_group) (acc : Z) :
  fold_left (fun a g => a + Z.of_nat (List.length (issues g))) groups acc
  = acc + total_issues groups.
Proof.
  unfold total_issues. revert acc. induction groups as [|g rest IH]; intros acc.
  - simpl. lia.
  - simpl. rewrite (IH (acc + _)), (IH (0 + _)). lia.
Qed.

Lemma total_issues_cons (g : epic_group) (rest : list epic_group) :
  total_issues (g :: rest) = Z.of_nat (List.length (issues g)) + total_issues rest.
Proof.
  unfold total_issues at 1. simpl. rewrite total_issues_from. lia.
Qed.

Lemma groups_fold_spec (groups : list epic_group) (st : tally) :
  let st' := fold_left (group_step gh) groups st in
  let expected := flat_map (fun g => map (cmd_of g) (issues g)) groups in
  commands (trace st') = commands (trace st) ++ expected
  /\ created st' = created st + count_good expected
  /\ created st' + failed st' = created st + failed st + total_issues groups
  /\ sleeps (trace st') = sleeps (trace st) + total_issues groups
  /\ (forall e, In e (trace st) -> In e (trace st'))
  /\ (forall g i, In g groups -> In i (issues g) ->
        exists line, In (Print line) (trace st')
          /\ (forall out, gh (cmd_of g i) = Completed out ->
                          line = "✅ Created: " +:+ title i)
          /\ (forall e, gh (cmd_of g i) = CalledProcessError e ->
                        line = "❌ Failed to create: " +:+ title i)).
Proof.
  revert st. induction groups as [|g rest IH]; intros st; cbv zeta.
  - simpl. unfold count_good, total_issues. simpl. rewrite app_nil_r.
    repeat split; auto; try lia; try (now intros ? ? []).
  - simpl fold_left.
    assert (Hg : exists banner,
               group_step gh st g
               = fold_left (issue_step gh g) (issues g)
                   (Tally (created st) (failed st) (trace st ++ banner))
               /\ commands banner = [] /\ sleeps banner = 0).
    { eexists. split; [reflexivity|]. split; reflexivity. }
    destruct Hg as (banner & -> & Hbc & Hbs).
    destruct (issues_fold_spec g (issues g)
                (Tally (created st) (failed st) (trace st ++ banner)))
      as (Hc & Hcr & Hsum & Hsl & Hmono & Hpr).
    destruct (IH (fold_left (issue_step gh g) (issues g)
                    (Tally (created st) (failed st) (trace st ++ banner))))
      as (Hc' & Hcr' & Hsum' & Hsl' & Hmono' & Hpr').
    cbn [created failed trace] in Hc, Hcr, Hsum, Hsl, Hmono.
    rewrite commands_app, Hbc, app_nil_r in Hc. rewrite sleeps_app, Hbs in Hsl.
    split; [|split; [|split; [|split; [|split]]]].
    + rewrite Hc', Hc. simpl. rewrite <- app_assoc. reflexivity.
    + rewrite Hcr', Hcr. unfold count_good. simpl.
      rewrite List.filter_app, length_app. lia.
    + rewrite Hsum', Hsum, total_issues_cons. lia.
    + rewrite Hsl', Hsl, total_issues_cons. lia.
    + intros e He. apply Hmono', Hmono. rewrite in_app_iff. now left.
    + intros g' i [<-|Hg] Hi.
      * destruct (Hpr i Hi) as (line & Hin & Hrest).
        exists line. split; [now apply Hmono' | exact Hrest].
      * now apply (Hpr' g' i).
Qed.
End BulkCreation.


(** X19. In the summary, created plus failed is the total number of issues
    of the file, and created is the number of commands that completed and
    printed something else than whitespace. *)
Theorem created_and_failed_add_up
    (gh : list string -> CreateIssues.gh_answer)
    (epic_groups : list CreateIssues.epic_group) :
  let st := CreateIssues.run_groups gh epic_groups in
  CreateIssues.created st + CreateIssues.failed st
  = CreateIssues.total_issues epic_groups
  /\ CreateIssues.created st
     = Z.of_nat
         (List.length
            (List.filter (fun cmd => CreateIssues.gives_url (gh cmd))
               (CreateIssues.commands (CreateIssues.trace st))))
  /\ 0 <= CreateIssues.created st
  /\ 0 <= CreateIssues.failed st.
Proof.
  intros st. subst st. unfold CreateIssues.run_groups.
  destruct (groups_fold_spec gh epic_groups
              (CreateIssues.Tally 0 0
                 [CreateIssues.Print
                    ("📝 Creating "
                     +:+ PyStr.str_of_int (CreateIssues.total_issues epic_groups)
                     +:+ " issues across "
                     +:+ PyStr.str_of_int (Z.of_nat (List.length epic_groups))
                     +:+ " epics...");
                  CreateIssues.Print EmptyString]))
    as (Hc & Hcr & Hsum & _).
  cbn [CreateIssues.trace CreateIssues.created CreateIssues.failed] in Hc, Hcr, Hsum.
  simpl in Hc.
  assert (Hcreated : CreateIssues.created
                       (fold_left (CreateIssues.group_step gh) epic_groups
                          (CreateIssues.Tally 0 0
                             [CreateIssues.Print
                                ("📝 Creating "
                                 +:+ PyStr.str_of_int
                                       (CreateIssues.total_issues epic_groups)
                                 +:+ " issues across "
                                 +:+ PyStr.str_of_int
                                       (Z.of_nat (List.length epic_groups))
                                 +:+ " epics...");
                              CreateIssues.Print EmptyString]))
                     = Z.of_nat
                         (List.length
                            (List.filter (fun cmd => CreateIssues.gives_url (gh cmd))
                               (flat_map
                                  (fun g => map (CreateIssues.cmd_of g)
                                              (CreateIssues.issues g))
                                  epic_groups)))) by (rewrite Hcr; lia).
  split; [lia|]. split; [now rewrite Hc|]. split; [lia|].
  pose proof (filter_length_le (fun cmd => CreateIssues.gives_url (gh cmd))
                (flat_map (fun g => map (CreateIssues.cmd_of g) (CreateIssues.issues g))
                   epic_groups)) as Hle.
  assert (Htotal : Z.of_nat
                     (List.length
                        (flat_map (fun g => map (CreateIssues.cmd_of g)
                                              (CreateIssues.issues g)) epic_groups))
                   = CreateIssues.total_issues epic_groups).
  { clear. induction epic_groups as [|g rest IH]; [reflexivity|].
    simpl. rewrite length_app, length_map, total_issues_cons. lia. }
  lia.
Qed.

(** X20. A creation that completes without printing a URL is reported on
    the terminal as created and counted as failed: when every command
    completes with blank output, no issue is counted as created, all are
    counted as failed, and each title is printed on a "Created" line. *)
Theorem blank_output_counts_as_failed
    (gh : list string -> CreateIssues.gh_answer)
    (epic_groups : list CreateIssues.epic_group) :
  (forall cmd, exists out,
      gh cmd = CreateIssues.Completed out /\ PyStr.strip out = EmptyString) ->
  CreateIssues.created (CreateIssues.run_groups gh epic_groups) = 0
  /\ CreateIssues.failed (CreateIssues.run_groups gh epic_groups)
     = CreateIssues.total_issues epic_groups
  /\ (forall g i, In g epic_groups -> In i (CreateIssues.issues g) ->
        In (CreateIssues.Print ("✅ Created: " +:+ CreateIssues.title i))
           (CreateIssues.main gh epic_groups)).
Proof.
  intros Hblank. unfold CreateIssues.main, CreateIssues.run_groups.
  destruct (groups_fold_spec gh epic_groups
              (CreateIssues.Tally 0 0
                 [CreateIssues.Print
                    ("📝 Creating "
                     +:+ PyStr.str_of_int (CreateIssues.total_issues epic_groups)
                     +:+ " issues across "
                     +:+ PyStr.str_of_int (Z.of_nat (List.length epic_groups))
                     +:+ " epics...");
                  CreateIssues.Print EmptyString]))
    as (_ & Hcr & Hsum & _ & _ & Hpr).
  cbn [CreateIssues.created CreateIssues.failed] in Hcr, Hsum.
  assert (Hnone : forall cmds,
             List.filter (fun cmd => CreateIssues.gives_url (gh cmd)) cmds = []).
  { induction cmds as [|cmd rest IH]; [reflexivity|]. simpl.
    destruct (Hblank cmd) as (out & -> & Hs). simpl. now rewrite Hs. }
  rewrite Hnone in Hcr. simpl in Hcr.
  split; [lia|]. split; [lia|].
  intros g i Hg Hi. destruct (Hpr g i Hg Hi) as (line & Hin & Hok & _).
  destruct (Hblank (CreateIssues.cmd_of g i)) as (out & Hout & _).
  rewrite (Hok out Hout) in Hin. rewrite in_app_iff. now left.
Qed.

Lemma blank_output_counts_as_failed_witness :
  CreateIssues.created (CreateIssues.run_groups Scenario.tracker_silent
                          Scenario.two_groups) = 0
  /\ CreateIssues.failed (CreateIssues.run_groups Scenario.tracker_silent
                            Scenario.two_groups) = 3.
Proof.
  destruct (blank_output_counts_as_failed Scenario.tracker_silent Scenario.two_groups)
    as (Hc & Hf & _).
  - intros cmd. exists PyStr.LF. split; reflexivity.
  - split; [exact Hc | exact Hf].
Defined.

(** ** implement_issue.py: slugs and branch names *)

Section Slug.
Import ImplementIssue.

Let not_upper (c : ascii) : bool :=
  negb ((65 <=? nat_of_ascii c)%nat && (nat_of_ascii c <=? 90)%nat).
Let not_space (c : ascii) : bool := negb (PyStr.isspace c).

Lemma all_chars_append (p : ascii -> bool) (a b : string) :
  all_chars p (a +:+ b) = all_chars p a && all_chars p b.
Proof.
  induction a as [|c a IH]; [reflexivity|].
  change (String c a +:+ b) with (String c (a +:+ b)). simpl.
  now rewrite IH, andb_assoc.
Qed.

Lemma all_chars_weaken (p q : ascii -> bool) (s : string) :
  (forall c, p c = true -> q c = true) ->
  all_chars p s = true -> all_chars q s = true.
Proof.
  intros Hpq. induction s as [|c s IH]; [reflexivity|]. simpl.
  intros H. apply andb_true_iff in H as [Hc Hs].
  now rewrite (Hpq c Hc), (IH Hs).
Qed.

Lemma lower_not_upper (s : string) : all_chars not_upper (PyStr.lower s) = true.
Proof.
  induction s as [|c s IH]; [reflexivity|]. simpl. rewrite IH, andb_true_r.
  destruct c as [[] [] [] [] [] [] [] []]; reflexivity.
Qed.

Lemma delete_others_chars (s : string) :
  all_chars not_upper s = true ->
  all_chars (fun c => kept c && not_upper c) (delete_others s) = true.
Proof.
  induction s as [|c s IH]; [reflexivity|]. simpl.
  intros H. apply andb_true_iff in H as [Hc Hs].
  destruct (kept c) eqn:Hk; simpl; [|now apply IH].
  now rewrite Hk, Hc, (IH Hs).
Qed.

Lemma kept_char_is_slug_char (c : ascii) :
  kept c && not_upper c = true -> is_separator c = false -> slug_char c = true.
Proof.
  destruct c as [[] [] [] [] [] [] [] []]; vm_compute; intros H1 H2;
    first [reflexivity | discriminate H1 | discriminate H2].
Qed.

Lemma separator_or_not_hyphen (c : ascii) :
  is_separator c = false -> is_hyphen c = false.
Proof.
  unfold is_separator. intros H. apply orb_false_iff in H as [_ H]. exact H.
Qed.

Lemma collapse_chars (s : string) (b : bool) :
  all_chars (fun c => kept c && not_upper c) s = true ->
  all_chars slug_char (collapse s b) = true.
Proof.
  revert b. induction s as [|c s IH]; intros b; [reflexivity|]. simpl.
  intros H. apply andb_true_iff in H as [Hc Hs].
  destruct (is_separator c) eqn:Hsep.
  - destruct b; simpl; now rewrite ?IH.
  - simpl. now rewrite (kept_char_is_slug_char c Hc Hsep), IH.
Qed.

(** After a separator the output does not start with a hyphen, and no two
    hyphens ever follow each other. *)
Lemma collapse_hyphens (s : string) :
  starts_with_hyphen (collapse s true) = false
  /\ forall b, no_double_hyphen (collapse s b) = true.
Proof.
  induction s as [|c s [IHs IHn]]; [split; [reflexivity | intros b; reflexivity]|].
  simpl. destruct (is_separator c) eqn:Hsep.
  - split; [exact IHs|]. intros [|]; [apply IHn|].
    change (no_double_hyphen (String "-"%char (collapse s true)))
      with (match collapse s true with
            | EmptyString => true
            | String d _ =>
                negb (is_hyphen "-"%char && is_hyphen d)
                && no_double_hyphen (collapse s true)
            end).
    specialize (IHn true). destruct (collapse s true) as [|d r]; [reflexivity|].
    simpl in IHs. rewrite IHs, IHn. reflexivity.
  - pose proof (separator_or_not_hyphen c Hsep) as Hh.
    split; [exact Hh|]. intros b.
    change (no_double_hyphen (String c (collapse s false)))
      with (match collapse s false with
            | EmptyString => true
            | String d _ =>
                negb (is_hyphen c && is_hyphen d) && no_double_hyphen (collapse s false)
            end).
    specialize (IHn false). destruct (collapse s false) as [|d r]; [reflexivity|].
    now rewrite Hh, IHn.
Qed.

(** Suffixes and prefixes. *)
Lemma lstrip_hyphens_suffix (s : string) :
  exists a, s = a +:+ lstrip_hyphens s
            /\ starts_with_hyphen (lstrip_hyphens s) = false.
Proof.
  induction s as [|c s (a & Ha & Hs)]; [exists EmptyString; now split|].
  simpl. destruct (is_hyphen c) eqn:Hc.
  - exists (String c a). split; [|exact Hs].
    change (String c a +:+ lstrip_hyphens s) with (String c (a +:+ lstrip_hyphens s)).
    now rewrite <- Ha.
  - exists EmptyString. split; [reflexivity | exact Hc].
Qed.

Lemma rstrip_hyphens_prefix (s : string) :
  exists t, s = rstrip_hyphens s +:+ t.
Proof.
  induction s as [|c s (t & Ht)]; [exists EmptyString; reflexivity|].
  simpl. destruct (rstrip_hyphens s) as [|d r] eqn:Hr.
  - destruct (is_hyphen c).
    + exists (String c s). reflexivity.
    + exists s. reflexivity.
  - exists t. change (String c (String d r) +:+ t) with (String c (String d r +:+ t)).
    now rewrite <- Ht.
Qed.

Lemma take_prefix (n : nat) (s : string) : exists t, s = take n s +:+ t.
Proof.
  revert s. induction n as [|n IH]; intros s; [exists s; reflexivity|].
  destruct s as [|c s]; [exists EmptyString; reflexivity|].
  destruct (IH s) as (t & Ht). exists t. simpl.
  change (String c (take n s) +:+ t) with (String c (take n s +:+ t)).
  now rewrite <- Ht.
Qed.

Lemma no_double_hyphen_suffix (a b : string) :
  no_double_hyphen (a +:+ b) = true -> no_double_hyphen b = true.
Proof.
  induction a as [|c a IH]; [auto|].
  change (String c a +:+ b) with (String c (a +:+ b)). intros H. apply IH.
  change (no_double_hyphen (String c (a +:+ b)))
    with (match a +:+ b with
          | EmptyString => true
          | String d _ => negb (is_hyphen c && is_hyphen d) && no_double_hyphen (a +:+ b)
          end) in H.
  destruct (a +:+ b); [reflexivity|]. now apply andb_true_iff in H as [_ H].
Qed.

Lemma no_double_hyphen_prefix (a b : string) :
  no_double_hyphen (a +:+ b) = true -> no_double_hyphen a = true.
Proof.
  induction a as [|c a IH]; [reflexivity|].
  change (String c a +:+ b) with (String c (a +:+ b)). intros H.
  change (no_double_hyphen (String c (a +:+ b)))
    with (match a +:+ b with
          | EmptyString => true
          | String d _ => negb (is_hyphen c && is_hyphen d) && no_double_hyphen (a +:+ b)
          end) in H.
  destruct a as [|d a']; [reflexivity|].
  change (String d a' +:+ b) with (String d (a' +:+ b)) in *.
  apply andb_true_iff in H as [H1 H2].
  change (no_double_hyphen (String c (String d a')))
    with (negb (is_hyphen c && is_hyphen d) && no_double_hyphen (String d a')).
  now rewrite H1, (IH H2).
Qed.

Lemma starts_with_hyphen_prefix (a b : string) :
  starts_with_hyphen (a +:+ b) = false -> starts_with_hyphen a = false.
Proof. destruct a; [reflexivity | auto]. Qed.

Lemma rstrip_hyphens_end (s : string) : ends_with_hyphen (rstrip_hyphens s) = false.
Proof.
  unfold ends_with_hyphen. induction s as [|c s IH]; [reflexivity|]. simpl.
  destruct (rstrip_hyphens s) as [|d r] eqn:Hr.
  - destruct (is_hyphen c) eqn:Hc; [reflexivity|]. simpl. exact Hc.
  - exact IH.
Qed.

Lemma take_length (n : nat) (s : string) : (String.length (take n s) <= n)%nat.
Proof.
  revert s. induction n as [|n IH]; intros s; [simpl; lia|].
  destruct s as [|c s]; simpl; [lia|]. specialize (IH s). lia.
Qed.

Lemma take_all (n : nat) (s : string) : (String.length s <= n)%nat -> take n s = s.
Proof.
  revert s. induction n as [|n IH]; intros s H.
  - destruct s; [reflexivity | simpl in H; lia].
  - destruct s as [|c s]; [reflexivity|]. simpl in *. f_equal. apply IH. lia.
Qed.

Lemma slug_untruncated_shape (text : string) :
  all_chars slug_char (slug_untruncated text) = true
  /\ no_double_hyphen (slug_untruncated text) = true
  /\ starts_with_hyphen (slug_untruncated text) = false
  /\ ends_with_hyphen (slug_untruncated text) = false.
Proof.
  unfold slug_untruncated.
  set (u := collapse (delete_others (PyStr.lower text)) false).
  assert (Hu : all_chars slug_char u = true)
    by (apply collapse_chars, delete_others_chars, lower_not_upper).
  assert (Hn : no_double_hyphen u = true) by apply collapse_hyphens.
  destruct (lstrip_hyphens_suffix u) as (a & Ha & Hstart).
  destruct (rstrip_hyphens_prefix (lstrip_hyphens u)) as (t & Ht).
  rewrite Ha, all_chars_append in Hu. apply andb_true_iff in Hu as [_ Hu].
  rewrite Ha in Hn. apply no_double_hyphen_suffix in Hn.
  rewrite Ht in Hu, Hn, Hstart.
  rewrite all_chars_append in Hu. apply andb_true_iff in Hu as [Hu _].
  split; [exact Hu|]. split; [now apply no_double_hyphen_prefix in Hn|].
  split; [now apply starts_with_hyphen_prefix in Hstart|].
  apply rstrip_hyphens_end.
Qed.
End Slug.

(** X21. For a title of ASCII characters the slug has at most 50
    characters, all of them lower case letters, digits or hyphens; it does
    not start with a hyphen and has no two hyphens in a row.  It does not
    end with a hyphen either unless it was cut at 50 characters. *)
Theorem slugify_shape (text : string) :
  ImplementIssue.is_ascii text = true ->
  (String.length (ImplementIssue.slugify text) <= 50)%nat
  /\ ImplementIssue.all_chars ImplementIssue.slug_char (ImplementIssue.slugify text) = true
  /\ ImplementIssue.no_double_hyphen (ImplementIssue.slugify text) = true
  /\ ImplementIssue.starts_with_hyphen (ImplementIssue.slugify text) = false
  /\ ((String.length (ImplementIssue.slug_untruncated text) <= 50)%nat ->
      ImplementIssue.ends_with_hyphen (ImplementIssue.slugify text) = false).
Proof.
  intros _. unfold ImplementIssue.slugify.
  destruct (slug_untruncated_shape text) as (Hc & Hn & Hs & He).
  destruct (take_prefix 50 (ImplementIssue.slug_untruncated text)) as (t & Ht).
  split; [apply take_length|].
  rewrite Ht in Hc, Hn, Hs. rewrite all_chars_append in Hc.
  apply andb_true_iff in Hc as [Hc _].
  split; [exact Hc|]. split; [now apply no_double_hyphen_prefix in Hn|].
  split; [now apply starts_with_hyphen_prefix in Hs|].
  intros Hlen. now rewrite take_all.
Qed.

Lemma slugify_shape_witness :
  (String.length
     (ImplementIssue.slugify
        "Fix: user_login  fails (HTTP 500) -- when e-mail has UPPER case!") <= 50)%nat
  /\ ImplementIssue.starts_with_hyphen
       (ImplementIssue.slugify
          "Fix: user_login  fails (HTTP 500) -- when e-mail has UPPER case!") = false.
Proof.
  destruct (slugify_shape
              "Fix: user_login  fails (HTTP 500) -- when e-mail has UPPER case!"
              eq_refl) as (Hlen & _ & _ & Hs & _).
  split; assumption.
Defined.

Section Branch.
Import ImplementIssue.

Let not_space (c : ascii) : bool := negb (PyStr.isspace c).

Lemma split_ws_word (w : string) :
  all_chars not_space w = true -> w <> EmptyString -> split_ws w = [w].
Proof.
  induction w as [|c r IH]; intros Hall Hne; [contradiction|].
  simpl in Hall. apply andb_true_iff in Hall as [Hc Hr].
  unfold not_space in Hc. apply negb_true_iff in Hc.
  change (split_ws (String c r))
    with (if PyStr.isspace c then split_ws r
          else match r with
               | EmptyString => [String c EmptyString]
               | String c' _ =>
                   if PyStr.isspace c' then String c EmptyString :: split_ws r
                   else match split_ws r with
                        | w :: ws => String c w :: ws
                        | [] => [String c EmptyString]
                        end
               end).
  rewrite Hc. destruct r as [|c' r']; [reflexivity|].
  assert (Hc' : PyStr.isspace c' = false).
  { simpl in Hr. apply andb_true_iff in Hr as [Hc' _].
    unfold not_space in Hc'. now apply negb_true_iff in Hc'. }
  rewrite Hc', (IH Hr) by discriminate. reflexivity.
Qed.

Lemma digits_not_space (d : Decimal.uint) :
  all_chars not_space (NilEmpty.string_of_uint d) = true.
Proof. induction d; simpl; auto. Qed.

Lemma str_of_int_not_space (n : Z) : all_chars not_space (PyStr.str_of_int n) = true.
Proof.
  unfold PyStr.str_of_int, NilZero.string_of_int, NilZero.string_of_uint.
  destruct (Z.to_int n) as [d|d]; destruct d; simpl; auto using digits_not_space.
Qed.

Lemma slug_char_not_space (c : ascii) : slug_char c = true -> not_space c = true.
Proof.
  destruct c as [[] [] [] [] [] [] [] []]; vm_compute; intros H;
    first [reflexivity | discriminate H].
Qed.

Lemma commit_prefix_not_space (t : option string) :
  all_chars not_space (commit_prefix t) = true.
Proof.
  unfold commit_prefix. destruct t as [t|]; [|reflexivity].
  destruct (String.eqb t "bug"); [reflexivity|].
  destruct (String.eqb t "docs"); [reflexivity|].
  destruct (String.eqb t "tech-debt"); reflexivity.
Qed.

(** A branch name is one word. *)
Lemma branch_name_is_a_word (issue : FetchIssue.issue) :
  split_ws (branch_name_of issue) = [branch_name_of issue].
Proof.
  apply split_ws_word.
  - unfold branch_name_of. rewrite !all_chars_append.
    rewrite commit_prefix_not_space, str_of_int_not_space.
    change (all_chars not_space "/issue-") with true.
    change (all_chars not_space "-") with true.
    cbn [andb].
    apply (all_chars_weaken slug_char); [apply slug_char_not_space|].
    unfold slugify.
    destruct (slug_untruncated_shape (FetchIssue.title issue)) as (Hc & _).
    destruct (take_prefix 50 (slug_untruncated (FetchIssue.title issue))) as (t & Ht).
    rewrite Ht, all_chars_append in Hc. now apply andb_true_iff in Hc as [Hc _].
  - unfold branch_name_of.
    assert (Hp : exists c p, commit_prefix (FetchIssue.type_ issue) = String c p).
    { unfold commit_prefix. destruct (FetchIssue.type_ issue) as [t|]; [|eauto].
      destruct (String.eqb t "bug"); [eauto|].
      destruct (String.eqb t "docs"); [eauto|].
      destruct (String.eqb t "tech-debt"); eauto. }
    destruct Hp as (c & p & ->).
    change (String c p +:+ ?x) with (String c (p +:+ x)). discriminate.
Qed.

Lemma split_ws_step (c : ascii) (r : string) :
  split_ws (String c r)
  = if PyStr.isspace c then split_ws r
    else match r with
         | EmptyString => [String c EmptyString]
         | String c' _ =>
             if PyStr.isspace c' then String c EmptyString :: split_ws r
             else match split_ws r with
                  | w :: ws => String c w :: ws
                  | [] => [String c EmptyString]
                  end
         end.
Proof. reflexivity. Qed.

Lemma split_ws_first_word (w rest : string) :
  all_chars not_space w = true -> w <> EmptyString ->
  split_ws (w +:+ String " "%char rest) = w :: split_ws rest.
Proof.
  induction w as [|c r IH]; intros Hall Hne; [contradiction|].
  simpl in Hall. apply andb_true_iff in Hall as [Hc Hr].
  unfold not_space in Hc. apply negb_true_iff in Hc.
  change (String c r +:+ String " "%char rest)
    with (String c (r +:+ String " "%char rest)).
  rewrite split_ws_step, Hc. destruct r as [|c' r'].
  - change (EmptyString +:+ String " "%char rest) with (String " "%char rest).
    cbv beta iota. rewrite (split_ws_step " "%char rest). reflexivity.
  - assert (Hc' : PyStr.isspace c' = false).
    { simpl in Hr. apply andb_true_iff in Hr as [Hc' _].
      unfold not_space in Hc'. now apply negb_true_iff in Hc'. }
    change (String c' r' +:+ String " "%char rest)
      with (String c' (r' +:+ String " "%char rest)).
    cbv beta iota. rewrite Hc'.
    change (String c' (r' +:+ String " "%char rest))
      with (String c' r' +:+ String " "%char rest).
    rewrite (IH Hr) by discriminate. reflexivity.
Qed.

Lemma git_commands_split (name : string) :
  split_ws name = [name] ->
  split_ws ("git rev-parse --verify " +:+ name) = ["git"; "rev-parse"; "--verify"; name]
  /\ split_ws ("git checkout " +:+ name) = ["git"; "checkout"; name]
  /\ split_ws ("git checkout -b " +:+ name) = ["git"; "checkout"; "-b"; name].
Proof.
  intros H. split; [|split].
  - change ("git rev-parse --verify " +:+ name)
      with ("git" +:+ String " "%char
              ("rev-parse" +:+ String " "%char ("--verify" +:+ String " "%char name))).
    rewrite !split_ws_first_word, H by (reflexivity || discriminate). reflexivity.
  - change ("git checkout " +:+ name)
      with ("git" +:+ String " "%char ("checkout" +:+ String " "%char name)).
    rewrite !split_ws_first_word, H by (reflexivity || discriminate). reflexivity.
  - change ("git checkout -b " +:+ name)
      with ("git" +:+ String " "%char
              ("checkout" +:+ String " "%char ("-b" +:+ String " "%char name))).
    rewrite !split_ws_first_word, H by (reflexivity || discriminate). reflexivity.
Qed.
End Branch.

(** X22. For an issue with an ASCII title, [create_feature_branch] runs
    exactly two git commands, each with the branch name as one argument:
    [git rev-parse --verify NAME], then [git checkout NAME] when the first
    returned 0 and [git checkout -b NAME] otherwise.  The name starts with
    fix, docs or refactor for the types bug, docs and tech-debt, and with
    feat for any other or no type.  The name is returned and reported as the
    current branch whatever the checkout returns. *)
Theorem create_feature_branch_commands
    (sh : list string -> ImplementIssue.completed) (issue : FetchIssue.issue) :
  ImplementIssue.is_ascii (FetchIssue.title issue) = true ->
  let name := ImplementIssue.branch_name_of issue in
  let verify := ["git"; "rev-parse"; "--verify"; name] in
  fst (ImplementIssue.create_feature_branch sh issue) = name
  /\ ImplementIssue.commands (snd (ImplementIssue.create_feature_branch sh issue))
     = [verify;
        if Z.eqb (ImplementIssue.returncode (sh verify)) 0
        then ["git"; "checkout"; name]
        else ["git"; "checkout"; "-b"; name]]
  /\ In (ImplementIssue.Print ("✅ On branch: " +:+ name))
        (snd (ImplementIssue.create_feature_branch sh issue))
  /\ (exists slug,
         name = ImplementIssue.commit_prefix (FetchIssue.type_ issue) +:+ "/issue-"
                +:+ PyStr.str_of_int (FetchIssue.number issue) +:+ "-" +:+ slug
         /\ (String.length slug <= 50)%nat)
  /\ (FetchIssue.type_ issue = Some "bug" ->
      ImplementIssue.commit_prefix (FetchIssue.type_ issue) = "fix")
  /\ (FetchIssue.type_ issue = Some "tech-debt" ->
      ImplementIssue.commit_prefix (FetchIssue.type_ issue) = "refactor")
  /\ (FetchIssue.type_ issue = None ->
      ImplementIssue.commit_prefix (FetchIssue.type_ issue) = "feat").
Proof.
  intros _ name verify.
  destruct (git_commands_split name (branch_name_is_a_word issue)) as (Hv & Hc & Hb).
  unfold ImplementIssue.create_feature_branch, ImplementIssue.run_command.
  fold name. rewrite Hv, Hc, Hb. fold verify.
  cbn [fst snd ImplementIssue.success].
  split; [reflexivity|]. split.
  - now destruct (ImplementIssue.returncode (sh verify) =? 0).
  - split.
    + destruct (ImplementIssue.returncode (sh verify) =? 0);
        cbn [app In]; tauto.
    + split.
      * exists (ImplementIssue.slugify (FetchIssue.title issue)).
        split; [reflexivity | apply take_length].
      * repeat split; intros ->; reflexivity.
Qed.

Lemma create_feature_branch_commands_witness :
  ImplementIssue.commands
    (snd (ImplementIssue.create_feature_branch Scenario.git_no_branch
            Scenario.long_title_issue))
  = [["git"; "rev-parse"; "--verify";
      "fix/issue-42-fix-user-login-fails-http-500-when-e-mail-has-uppe"];
     ["git"; "checkout"; "-b";
      "fix/issue-42-fix-user-login-fails-http-500-when-e-mail-has-uppe"]].
Proof.
  destruct (create_feature_branch_commands Scenario.git_no_branch
              Scenario.long_title_issue eq_refl) as (_ & Hcmds & _).
  rewrite Hcmds. vm_compute. reflexivity.
Defined.

(** ** update_status.py: several status labels *)

(** X23. When an issue carries several status labels, the one that comes
    first in the list the tracker returns decides; the later ones are never
    looked at. *)
Theorem first_status_label_wins
    (c : UpdateStatus.config) (before : list string) (status_label : string)
    (after : list string) :
  In status_label UpdateStatus.status_labels ->
  (forall l, In l before -> ~ In l UpdateStatus.status_labels) ->
  UpdateStatus.find_status_label c (before ++ status_label :: after)
  = Some status_label.
Proof.
  intros Hkey Hbefore. unfold UpdateStatus.find_status_label.
  apply find_first_match.
  - intros l Hl. apply bool_decide_eq_false. rewrite LABEL_TO_STATUS_keys.
    now apply Hbefore.
  - apply bool_decide_eq_true. now apply LABEL_TO_STATUS_keys.
Qed.

Lemma first_status_label_wins_witness :
  UpdateStatus.find_status_label Scenario.board_config
    ["type:bug"; "status:done"; "status:backlog"] = Some "status:done".
Proof.
  apply (first_status_label_wins Scenario.board_config ["type:bug"] "status:done"
           ["status:backlog"]).
  - right. right. left. reflexivity.
  - intros l [<-|[]] [H|[H|[H|[]]]]; discriminate H.
Defined.
